(** * minicode: ownership-scoped repositories and the project WebSocket protocol

    A shallow embedding of the server side of the repository:
    - [server/websocket/validators.ts]  (command validator),
    - [server/services/*-repository.ts] (the three repositories over the
      relational store declared in [shared/db/schema.ts]),
    - [server/websocket/handler.ts]     (session controller),
    followed by the properties the specification states about them. *)

From Stdlib Require Import String Ascii PrimFloat.
From stdpp Require Import base option list sorting gmap.

Local Open Scope N_scope.

(** ** JavaScript strings

    A JavaScript string is a sequence of UTF-16 code units.  String literals
    of the source are written [js "..."]. *)

Definition jsstring : Type := list N.

Definition js (s : string) : jsstring :=
  List.map N_of_ascii (list_ascii_of_string s).

(** The character U+0022, which the source writes inside its messages. *)
Definition dquote : jsstring := [34].

(** [String.prototype.includes]. *)
Definition includes (hay needle : jsstring) : Prop :=
  exists pre post, hay = pre ++ needle ++ post.

(** ECMAScript WhiteSpace and LineTerminator code points; all of them are
    single code units. *)
Definition isWhiteSpace (c : N) : bool :=
  existsb (N.eqb c)
    [9; 10; 11; 12; 13; 32; 160; 5760; 8232; 8233; 8239; 8287; 12288; 65279]
  || ((8192 <=? c) && (c <=? 8202)).

Fixpoint trimStart (s : jsstring) : jsstring :=
  match s with
  | [] => []
  | c :: rest => if isWhiteSpace c then trimStart rest else s
  end.

Definition trimEnd (s : jsstring) : jsstring := rev (trimStart (rev s)).

(** [String.prototype.trim]. *)
Definition trim (s : jsstring) : jsstring := trimEnd (trimStart s).

(** ** JavaScript values, as far as [JSON.parse] produces them *)

#[local] Set Warnings "-register-all".

Inductive JsValue : Type :=
| JsUndefined
| JsNull
| JsBoolean (b : bool)
| JsNumber (n : float)
| JsString (s : jsstring)
| JsArray (items : list JsValue)
| JsObject (fields : list (jsstring * JsValue)).

(** Property read [o.key]: the value of the field, [undefined] when absent. *)
Fixpoint getProperty (fields : list (jsstring * JsValue)) (key : jsstring)
  : JsValue :=
  match fields with
  | [] => JsUndefined
  | (k, v) :: rest => if decide (k = key) then v else getProperty rest key
  end.

(** [a ?? b]. *)
Definition nullish (a b : JsValue) : JsValue :=
  match a with
  | JsUndefined | JsNull => b
  | _ => a
  end.

(** ** server/websocket/types.ts *)

(** [Exclude<ClientMessageType, "user_message">]. *)
Inductive ControlMessageType : Type :=
| start_generation | stop_generation | get_state | get_preview_url.

Definition CLIENT_MESSAGE_TYPES : list jsstring :=
  [ js "start_generation"; js "stop_generation"; js "user_message";
    js "get_state"; js "get_preview_url" ].

Inductive WebSocketErrorCode : Type :=
| invalid_message
| invalid_message_data
| unknown_message_type
| project_access_denied
| not_implemented
| internal_error
| generation_in_progress
| generation_not_in_progress.

Record WebSocketErrorData : Type := mkErrorData {
  code : WebSocketErrorCode;
  message : jsstring
}.

Record UserMessageData : Type := mkUserMessageData { content : jsstring }.

Inductive ValidatedClientMessage : Type :=
| ControlMessage (type : ControlMessageType) (data : list (jsstring * JsValue))
| UserMessage (data : UserMessageData).

(** ** server/websocket/validators.ts *)

Inductive ClientMessageValidationResult : Type :=
| ok (value : ValidatedClientMessage)
| not_ok (error : WebSocketErrorData).

Definition toError (c : WebSocketErrorCode) (m : jsstring)
  : ClientMessageValidationResult :=
  not_ok (mkErrorData c m).

Definition toPlainObject (value : JsValue)
  : option (list (jsstring * JsValue)) :=
  match value with
  | JsObject fields => Some fields
  | _ => None
  end.

(** [z.object({ content: z.string().trim().min(1) }).safeParse]: the field
    must be a string; it is trimmed, then required to have length at least 1;
    the parsed data carries the trimmed string and no other key. *)
Definition userMessageDataSchema_safeParse (data : list (jsstring * JsValue))
  : option UserMessageData :=
  match getProperty data (js "content") with
  | JsString s =>
      let trimmed := trim s in
      if (1 <=? length trimmed)%nat then Some (mkUserMessageData trimmed)
      else None
  | _ => None
  end.

(** What arrives on the socket: a binary frame, or a value (a text frame is
    the value [JsString s]; a frame the transport has parsed already is any
    other value). *)
Inductive RawMessage : Type :=
| RawBinary (bytes : list N)
| RawValue (v : JsValue).

Section Validator.

(** The two runtime services the validator calls: [TextDecoder.decode] and
    [JSON.parse], the latter answering [None] where it throws. *)
Variable decode : list N -> jsstring.
Variable JSON_parse : jsstring -> option JsValue.

Definition decodeIfBinary (rawMessage : RawMessage) : JsValue :=
  match rawMessage with
  | RawBinary bytes => JsString (decode bytes)
  | RawValue v => v
  end.

Definition parseMessagePayload (rawMessage : RawMessage) : option JsValue :=
  match decodeIfBinary rawMessage with
  | JsString decodedPayload => JSON_parse decodedPayload
  | decodedPayload => Some decodedPayload
  end.

Definition validateClientMessage (rawMessage : RawMessage)
  : ClientMessageValidationResult :=
  match parseMessagePayload rawMessage with
  | None =>
      toError invalid_message
        (js "WebSocket message must be valid JSON and follow the { type, data } shape")
  | Some messagePayload =>
      match toPlainObject messagePayload with
      | None =>
          toError invalid_message
            (js "WebSocket message must be an object with a string type field")
      | Some envelope =>
          match getProperty envelope (js "type") with
          | JsString type =>
              if negb (bool_decide (type ∈ CLIENT_MESSAGE_TYPES)) then
                toError unknown_message_type
                  (js "Unknown message type " ++ dquote ++ type ++ dquote)
              else
                let normalizedData :=
                  nullish (getProperty envelope (js "data")) (JsObject []) in
                match toPlainObject normalizedData with
                | None =>
                    toError invalid_message_data
                      (js "WebSocket message " ++ dquote ++ js "data"
                         ++ dquote ++ js " must be an object")
                | Some data =>
                    if decide (type = js "start_generation") then
                      ok (ControlMessage start_generation data)
                    else if decide (type = js "stop_generation") then
                      ok (ControlMessage stop_generation data)
                    else if decide (type = js "get_state") then
                      ok (ControlMessage get_state data)
                    else if decide (type = js "get_preview_url") then
                      ok (ControlMessage get_preview_url data)
                    else if decide (type = js "user_message") then
                      match userMessageDataSchema_safeParse data with
                      | None =>
                          toError invalid_message_data
                            (dquote ++ js "user_message" ++ dquote
                               ++ js " requires data.content as a non-empty string")
                      | Some parsed => ok (UserMessage parsed)
                      end
                    else
                      toError unknown_message_type
                        (js "Unknown message type " ++ dquote ++ type
                           ++ dquote)
                end
          | _ =>
              toError invalid_message
                (js "WebSocket message " ++ dquote ++ js "type" ++ dquote
                   ++ js " must be a string")
          end
      end
  end.

End Validator.

(** ** shared/types.ts *)

Inductive Role : Type := role_user | role_assistant | role_system.

Record Message : Type := mkMessage {
  msg_role : Role;
  msg_content : jsstring;
  msg_timestamp : jsstring
}.

Record PhaseFile : Type := mkPhaseFile {
  pf_path : jsstring;
  pf_purpose : jsstring
}.

Record Phase : Type := mkPhase {
  phase_name : jsstring;
  phase_description : jsstring;
  phase_files : list PhaseFile;
  isLastPhase : bool
}.

Record StateUpdateData : Type := mkStateUpdateData {
  su_currentState : jsstring;
  su_currentPhase : option Z;
  su_totalPhases : nat;
  su_generatedFiles : list jsstring;
  su_previewUrl : option jsstring
}.

(** ** shared/db/schema.ts

    A [Date] is a number of milliseconds.  A nullable column is an [option];
    [None] is SQL NULL. *)

Definition Date : Type := Z.
Bind Scope Z_scope with Date.

Module Project.
Record t : Type := mk {
  id : jsstring;                    (* primary key *)
  name : jsstring;
  description : option jsstring;
  createdAt : Date;
  updatedAt : Date;
  userId : jsstring;                (* references user.id *)
  status : jsstring;
  previewUrl : option jsstring;
  sandboxId : option jsstring
}.
End Project.

Module ProjectFile.
Record t : Type := mk {
  id : jsstring;                    (* primary key *)
  projectId : jsstring;             (* references projects.id, cascading *)
  path : jsstring;                  (* unique together with projectId *)
  content : jsstring;
  createdAt : Date;
  updatedAt : Date
}.
End ProjectFile.

Module AgentState.
Record t : Type := mk {
  id : jsstring;                    (* primary key *)
  projectId : jsstring;             (* unique; references projects.id *)
  currentState : jsstring;
  currentPhase : option Z;
  phases : option (list Phase);
  sandboxId : option jsstring;
  previewUrl : option jsstring;
  generatedFiles : option (list jsstring);
  conversationHistory : option (list Message);
  createdAt : Date;
  updatedAt : Date
}.
End AgentState.

#[global] Instance Project_eq_dec : EqDecision Project.t.
Proof. solve_decision. Defined.

#[global] Instance ProjectFile_eq_dec : EqDecision ProjectFile.t.
Proof. solve_decision. Defined.

(** The tables the repositories touch.  Of the [user] table only the key
    column matters here. *)
Record Database : Type := mkDatabase {
  user : list jsstring;
  projects : list Project.t;
  projectFiles : list ProjectFile.t;
  agent_states : list AgentState.t
}.

(** ** The store's answers

    A statement either returns or throws.  When the store refuses a
    statement, the driver raises a [DatabaseError] that carries the SQLSTATE
    in [code], and the query builder rethrows it wrapped in an error of its
    own, which holds the driver's error as [cause] and has no [code] itself.
    The query builder also throws plain errors of its own, and the
    repositories may wrap what they catch. *)

Inductive Exn : Type :=
| DatabaseError (code : jsstring)
| DrizzleQueryError (cause : Exn)
| UniqueConstraintError (message : jsstring) (cause : Exn)
| Error (message : jsstring).

Inductive Result (A : Type) : Type :=
| Returned (a : A)
| Thrown (e : Exn).
Arguments Returned {A} a.
Arguments Thrown {A} e.

(** What a statement throws when the store refuses it with [sqlstate]. *)
Definition refused (sqlstate : jsstring) : Exn :=
  DrizzleQueryError (DatabaseError sqlstate).

Definition unique_violation : Exn := refused (js "23505").
Definition foreign_key_violation : Exn := refused (js "23503").

(** ** The column types of the store

    The store converts every parameter of a statement to the type of its
    column before it runs the statement, in the order of the parameters, and
    refuses the statement with the SQLSTATE of the first conversion that
    fails.  A refusal is [Some sqlstate].  The conversions that can fail on
    what the repositories send are those to [integer] and to [jsonb], the
    column types of [agent_states] besides [text] and [timestamp]; a string
    is taken to be text that a [text] column holds. *)

Definition firstRefusal (refusals : list (option jsstring))
  : option jsstring :=
  head (omap id refusals).

(** [integer] is 32 bits wide.  A number reaches the store as JavaScript
    prints it: in decimal notation below 10^21, which the store reads and
    finds out of range, and in exponent notation from there on, which it does
    not read as an integer. *)
Definition int4 (n : Z) : Prop := (-2147483648 <= n <= 2147483647)%Z.

#[global] Instance int4_dec n : Decision (int4 n).
Proof. unfold int4. apply _. Defined.

Definition integerRefusal (n : Z) : option jsstring :=
  if decide (int4 n) then None
  else if decide (Z.abs n < 10 ^ 21)%Z then Some (js "22003")
  else Some (js "22P02").

(** [jsonb]: a value reaches the store as [JSON.stringify] writes it, with
    U+0000 and every surrogate that has no partner written as an escape.
    The store has no text for the escape of U+0000 and does not read the
    escape of a lone surrogate. *)
Definition isHighSurrogate (c : N) : bool := (55296 <=? c) && (c <=? 56319).
Definition isLowSurrogate (c : N) : bool := (56320 <=? c) && (c <=? 57343).

Fixpoint jsonbStringRefusal (s : jsstring) : option jsstring :=
  match s with
  | [] => None
  | c :: rest =>
      if c =? 0 then Some (js "22P05")
      else if isHighSurrogate c then
        match rest with
        | d :: rest' =>
            if isLowSurrogate d then jsonbStringRefusal rest'
            else Some (js "22P02")
        | [] => Some (js "22P02")
        end
      else if isLowSurrogate c then Some (js "22P02")
      else jsonbStringRefusal rest
  end.

(** The strings of a [Message] and of a [Phase], in the order of the keys
    of [shared/types.ts]. *)
Definition messageRefusal (m : Message) : option jsstring :=
  firstRefusal [ jsonbStringRefusal (msg_content m);
                 jsonbStringRefusal (msg_timestamp m) ].

Definition phaseFileRefusal (f : PhaseFile) : option jsstring :=
  firstRefusal [ jsonbStringRefusal (pf_path f);
                 jsonbStringRefusal (pf_purpose f) ].

Definition phaseRefusal (p : Phase) : option jsstring :=
  firstRefusal [ jsonbStringRefusal (phase_name p);
                 jsonbStringRefusal (phase_description p);
                 firstRefusal (phaseFileRefusal <$> phase_files p) ].

(** ** server/services/types.ts *)

(** ["code" in error] and [error.code === "23505"]: the test reads the
    error's own [code], not that of its [cause]. *)
Definition isDatabaseUniqueViolation (error : Exn) : bool :=
  match error with
  | DatabaseError c => bool_decide (c = js "23505")
  | _ => false
  end.

(** A key of a [Partial<...>] object: the object has no such key, or has it
    holding [undefined], or has it holding a value. *)
Inductive PartialKey (A : Type) : Type :=
| absent
| holds_undefined
| holds (v : A).
Arguments absent {A}.
Arguments holds_undefined {A}.
Arguments holds {A} v.

(** The value a key holds, if it holds one. *)
Definition defined {A : Type} (k : PartialKey A) : option A :=
  match k with
  | holds v => Some v
  | _ => None
  end.

Definition present {A : Type} (k : PartialKey A) : bool :=
  match k with
  | absent => false
  | _ => true
  end.

Definition holdsValue {A : Type} (k : PartialKey A) : bool :=
  match k with
  | holds _ => true
  | _ => false
  end.

Record ProjectUpdatePatch : Type := mkPatch {
  patch_name : PartialKey jsstring;
  patch_description : PartialKey (option jsstring);
  patch_status : PartialKey jsstring;
  patch_previewUrl : PartialKey (option jsstring);
  patch_sandboxId : PartialKey (option jsstring)
}.

Record CreateProjectInput : Type := mkCreateProjectInput {
  cp_id : jsstring;
  cp_userId : jsstring;
  cp_name : jsstring;
  cp_description : option (option jsstring)
}.

Record UpsertProjectFileInput : Type := mkUpsertProjectFileInput {
  uf_id : jsstring;
  uf_projectId : jsstring;
  uf_path : jsstring;
  uf_content : jsstring;
  uf_userId : jsstring
}.

(** An optional field ([?:]) is an [option], [None] being [undefined]; a
    field that may also hold [null] is an [option] inside. *)
Record UpsertAgentStateInput : Type := mkUpsertAgentStateInput {
  ua_id : jsstring;
  ua_projectId : jsstring;
  ua_userId : jsstring;
  ua_currentState : jsstring;
  ua_sandboxId : option (option jsstring);
  ua_previewUrl : option (option jsstring);
  ua_currentPhase : option Z;
  ua_phases : option (list Phase);
  ua_generatedFiles : option (list jsstring);
  ua_conversationHistory : option (list Message)
}.

Record ResetAgentStateInput : Type := mkResetAgentStateInput {
  ra_projectId : jsstring;
  ra_userId : jsstring
}.

(** ** server/services/projects-repository.ts

    Every statement is run against the store as it is and answers the store
    it leaves.  The store is taken to be reachable: a statement throws only
    for a constraint it violates or for a parameter that its column does not
    take. *)

Module ProjectsRepository.

(** The predicate [and(eq(projects.id, projectId), eq(projects.userId, userId))]. *)
Definition ownedBy (projectId userId : jsstring) (p : Project.t) : Prop :=
  Project.id p = projectId ∧ Project.userId p = userId.

#[global] Instance ownedBy_dec projectId userId p :
  Decision (ownedBy projectId userId p).
Proof. unfold ownedBy. apply _. Defined.

Definition getByIdForUser (db : Database) (projectId userId : jsstring)
  : option Project.t :=
  head (filter (ownedBy projectId userId) (projects db)).

(** [insert(projects).values(input).returning()]: the primary key and the
    reference to [user] are checked by the store; the other columns take
    their defaults.  Nothing around the statement catches what it throws. *)
Definition create (db : Database) (input : CreateProjectInput) (now : Date)
  : Result Project.t * Database :=
  if decide (cp_id input ∈ Project.id <$> projects db) then
    (Thrown unique_violation, db)
  else if decide (cp_userId input ∈ user db) then
    let project :=
      Project.mk (cp_id input) (cp_name input)
        (default None (cp_description input)) now now (cp_userId input)
        (js "idle") None None in
    (Returned project,
     mkDatabase (user db) (projects db ++ [project]) (projectFiles db)
       (agent_states db))
  else (Thrown foreign_key_violation, db).

(** [Object.keys(patch).length === 0]: a key that holds [undefined] is a
    key. *)
Definition patchIsEmpty (patch : ProjectUpdatePatch) : bool :=
  negb (present (patch_name patch) || present (patch_description patch)
        || present (patch_status patch) || present (patch_previewUrl patch)
        || present (patch_sandboxId patch)).

(** [set(patch)] keeps the keys that hold a value and throws when none
    does. *)
Definition setsNothing (patch : ProjectUpdatePatch) : bool :=
  negb (holdsValue (patch_name patch) || holdsValue (patch_description patch)
        || holdsValue (patch_status patch)
        || holdsValue (patch_previewUrl patch)
        || holdsValue (patch_sandboxId patch)).

(** The update [set(patch)] describes: the columns whose keys hold a value
    are overwritten, and [updatedAt] is refreshed by the column's
    [$onUpdate]. *)
Definition applyPatch (patch : ProjectUpdatePatch) (now : Date)
  (p : Project.t) : Project.t :=
  Project.mk (Project.id p)
    (default (Project.name p) (defined (patch_name patch)))
    (default (Project.description p) (defined (patch_description patch)))
    (Project.createdAt p) now (Project.userId p)
    (default (Project.status p) (defined (patch_status patch)))
    (default (Project.previewUrl p) (defined (patch_previewUrl patch)))
    (default (Project.sandboxId p) (defined (patch_sandboxId patch))).

Definition updateForUser (db : Database) (projectId userId : jsstring)
  (patch : ProjectUpdatePatch) (now : Date)
  : Result (option Project.t) * Database :=
  if patchIsEmpty patch then (Returned (getByIdForUser db projectId userId), db)
  else if setsNothing patch then (Thrown (Error (js "No values to set")), db)
  else
    let updated :=
      (λ p, if decide (ownedBy projectId userId p)
            then applyPatch patch now p else p) <$> projects db in
    let returning :=
      applyPatch patch now <$> filter (ownedBy projectId userId) (projects db) in
    (Returned (head returning),
     mkDatabase (user db) updated (projectFiles db) (agent_states db)).

(** [delete(projects).where(...).returning()]; the rows of [project_files]
    and [agent_states] that reference a deleted project go with it
    ([onDelete: "cascade"]). *)
Definition deleteForUser (db : Database) (projectId userId : jsstring)
  : bool * Database :=
  let result := filter (ownedBy projectId userId) (projects db) in
  let gone (pid : jsstring) : Prop := pid ∈ Project.id <$> result in
  (bool_decide (0 < length result)%nat,
   mkDatabase (user db)
     (filter (λ p, ¬ ownedBy projectId userId p) (projects db))
     (filter (λ f, ¬ gone (ProjectFile.projectId f)) (projectFiles db))
     (filter (λ s, ¬ gone (AgentState.projectId s)) (agent_states db))).

(** [orderBy(desc(projects.updatedAt))]: the later update first.  Rows with
    the same [updatedAt] come in the order the sort leaves them; the store
    promises none. *)
Definition laterFirst (p q : Project.t) : Prop :=
  (Project.updatedAt q <= Project.updatedAt p)%Z.

#[global] Instance laterFirst_dec p q : Decision (laterFirst p q).
Proof. unfold laterFirst. apply _. Defined.

Definition listByUserId (db : Database) (userId : jsstring)
  : list Project.t :=
  merge_sort laterFirst (filter (λ p, Project.userId p = userId) (projects db)).

End ProjectsRepository.

(** ** server/services/project-files-repository.ts *)

Module ProjectFilesRepository.

Definition canAccessProject (db : Database) (projectId userId : jsstring)
  : bool :=
  bool_decide
    (is_Some (head (filter (ProjectsRepository.ownedBy projectId userId)
                      (projects db)))).

(** The row an input targets: [target: [projectFiles.projectId, projectFiles.path]]. *)
Definition targets (file : UpsertProjectFileInput) (f : ProjectFile.t) : Prop :=
  ProjectFile.projectId f = uf_projectId file ∧ ProjectFile.path f = uf_path file.

#[global] Instance targets_dec file f : Decision (targets file f).
Proof. unfold targets. apply _. Defined.

(** [set: { content, updatedAt: new Date() }]. *)
Definition setContent (file : UpsertProjectFileInput) (now : Date)
  (f : ProjectFile.t) : ProjectFile.t :=
  ProjectFile.mk (ProjectFile.id f) (ProjectFile.projectId f)
    (ProjectFile.path f) (uf_content file) (ProjectFile.createdAt f) now.

(** [insert(projectFiles).values(...).onConflictDoUpdate(...).returning()].
    A row with the same (projectId, path) is updated in place and keeps its
    id.  Otherwise a row is inserted, which the store refuses when the id is
    taken (primary key) or the project is missing (foreign key). *)
Definition insertOnConflictDoUpdate (db : Database)
  (file : UpsertProjectFileInput) (now : Date)
  : Result (list ProjectFile.t) * Database :=
  match filter (targets file) (projectFiles db) with
  | (_ :: _) as conflicting =>
      (Returned (setContent file now <$> conflicting),
       mkDatabase (user db) (projects db)
         ((λ f, if decide (targets file f) then setContent file now f else f)
            <$> projectFiles db)
         (agent_states db))
  | [] =>
      if decide (uf_id file ∈ ProjectFile.id <$> projectFiles db) then
        (Thrown unique_violation, db)
      else if decide (uf_projectId file ∈ Project.id <$> projects db) then
        let row :=
          ProjectFile.mk (uf_id file) (uf_projectId file) (uf_path file)
            (uf_content file) now now in
        (Returned [row],
         mkDatabase (user db) (projects db) (projectFiles db ++ [row])
           (agent_states db))
      else (Thrown foreign_key_violation, db)
  end.

Definition upsertFile (db : Database) (input : UpsertProjectFileInput)
  (now : Date) : Result (option ProjectFile.t) * Database :=
  if negb (canAccessProject db (uf_projectId input) (uf_userId input)) then
    (Returned None, db)
  else
    match insertOnConflictDoUpdate db input now with
    | (Returned rows, db') => (Returned (head rows), db')
    | (Thrown error, db') =>
        if isDatabaseUniqueViolation error then
          (Thrown (UniqueConstraintError
                     (js "Duplicate file write detected for "
                        ++ uf_projectId input ++ js ":" ++ uf_path input)
                     error), db')
        else (Thrown error, db')
    end.

(** The body of the transaction of [upsertMany]: the loop over the inputs,
    threading the store and [changedRows]; a statement that throws ends it. *)
Fixpoint upsertManyLoop (tx : Database) (input : list UpsertProjectFileInput)
  (now : Date) (changedRows : nat) : Result nat * Database :=
  match input with
  | [] => (Returned changedRows, tx)
  | file :: rest =>
      match filter (ProjectsRepository.ownedBy (uf_projectId file) (uf_userId file))
              (projects tx) with
      | [] => upsertManyLoop tx rest now changedRows
      | _ :: _ =>
          match insertOnConflictDoUpdate tx file now with
          | (Returned result, tx') =>
              upsertManyLoop tx' rest now
                (if bool_decide (0 < length result)%nat
                 then changedRows + 1 else changedRows)%nat
          | (Thrown error, tx') => (Thrown error, tx')
          end
      end
  end.

(** [db.transaction]: what the body wrote is kept when it returns and
    discarded when it throws. *)
Definition transaction {A : Type} (db : Database)
  (body : Database -> Result A * Database) : Result A * Database :=
  match body db with
  | (Returned a, db') => (Returned a, db')
  | (Thrown error, _) => (Thrown error, db)
  end.

(** [upsertMany] returns the promise of the transaction from inside its
    [try] block without awaiting it, so its [catch] clause is gone by the time
    the transaction rejects: what the transaction throws reaches the caller as
    the statement threw it. *)
Definition upsertMany (db : Database) (input : list UpsertProjectFileInput)
  (now : Date) : Result nat * Database :=
  if bool_decide (length input = 0%nat) then (Returned 0%nat, db)
  else transaction db (λ tx, upsertManyLoop tx input now 0).

(** The rows of [project_files] for [projectId] joined to a project of
    [userId]: the [innerJoin] and [where] of [listByProjectForUser]. *)
Definition visibleTo (db : Database) (projectId userId : jsstring)
  (f : ProjectFile.t) : Prop :=
  ProjectFile.projectId f = projectId ∧
  Exists (λ p, Project.id p = ProjectFile.projectId f ∧ Project.userId p = userId)
    (projects db).

#[global] Instance visibleTo_dec db projectId userId f :
  Decision (visibleTo db projectId userId f).
Proof. unfold visibleTo. apply _. Defined.

Section Listing.

(** The order of the store's collation on [text], which
    [orderBy(asc(projectFiles.path))] sorts by. *)
Variable path_le : relation jsstring.
Context `{∀ x y, Decision (path_le x y)}.

Definition listByProjectForUser (db : Database) (projectId userId : jsstring)
  : list ProjectFile.t :=
  merge_sort (λ f g, path_le (ProjectFile.path f) (ProjectFile.path g))
    (filter (visibleTo db projectId userId) (projectFiles db)).

End Listing.

Record DeleteProjectFileByPathInput : Type := mkDeleteProjectFileByPathInput {
  df_projectId : jsstring;
  df_path : jsstring;
  df_userId : jsstring
}.

(** The [where] of [deleteByPath]: the row's project and path, and the
    project being the user's. *)
Definition doomed (db : Database) (input : DeleteProjectFileByPathInput)
  (f : ProjectFile.t) : Prop :=
  ProjectFile.projectId f = df_projectId input ∧
  ProjectFile.path f = df_path input ∧
  Exists (ProjectsRepository.ownedBy (df_projectId input) (df_userId input))
    (projects db).

#[global] Instance doomed_dec db input f : Decision (doomed db input f).
Proof. unfold doomed. apply _. Defined.

Definition deleteByPath (db : Database) (input : DeleteProjectFileByPathInput)
  : bool * Database :=
  (bool_decide (0 < length (filter (doomed db input) (projectFiles db)))%nat,
   mkDatabase (user db) (projects db)
     (filter (λ f, ¬ doomed db input f) (projectFiles db))
     (agent_states db)).

(** The implementation takes its arguments in the order (projectId, fileId,
    userId), which is the order the route passes them in. *)
Definition getByProjectIdAndFileIdForUser (db : Database)
  (projectId fileId userId : jsstring) : option ProjectFile.t :=
  match head (filter (ProjectsRepository.ownedBy projectId userId)
                (projects db)) with
  | None => None
  | Some projectBelongsToUser =>
      head (filter (λ f, ProjectFile.id f = fileId ∧
                         ProjectFile.projectId f = Project.id projectBelongsToUser)
              (projectFiles db))
  end.

End ProjectFilesRepository.

(** ** server/services/agent-states-repository.ts *)

Module AgentStatesRepository.

Definition canAccessProject (db : Database) (projectId userId : jsstring)
  : bool :=
  bool_decide
    (is_Some (head (filter (ProjectsRepository.ownedBy projectId userId)
                      (projects db)))).

(** The row of [agent_states] for [projectId], joined to a project of
    [userId]: the [innerJoin] and [where] of [getByProjectForUser]. *)
Definition visibleTo (db : Database) (projectId userId : jsstring)
  (s : AgentState.t) : Prop :=
  AgentState.projectId s = projectId ∧
  Exists (λ p, Project.id p = AgentState.projectId s ∧ Project.userId p = userId)
    (projects db).

#[global] Instance visibleTo_dec db projectId userId s :
  Decision (visibleTo db projectId userId s).
Proof. unfold visibleTo. apply _. Defined.

Definition getByProjectForUser (db : Database) (projectId userId : jsstring)
  : option AgentState.t :=
  head (filter (visibleTo db projectId userId) (agent_states db)).

(** The [set] of the conflict clause: [currentState], [currentPhase] and
    [updatedAt] always, each other column only when the input defines it. *)
Definition mergeInto (input : UpsertAgentStateInput) (now : Date)
  (s : AgentState.t) : AgentState.t :=
  AgentState.mk (AgentState.id s) (AgentState.projectId s)
    (ua_currentState input)
    (ua_currentPhase input)
    (match ua_phases input with
     | Some v => Some v | None => AgentState.phases s end)
    (match ua_sandboxId input with
     | Some v => v | None => AgentState.sandboxId s end)
    (match ua_previewUrl input with
     | Some v => v | None => AgentState.previewUrl s end)
    (match ua_generatedFiles input with
     | Some v => Some v | None => AgentState.generatedFiles s end)
    (match ua_conversationHistory input with
     | Some v => Some v | None => AgentState.conversationHistory s end)
    (AgentState.createdAt s) now.

(** The [values] of the insert: what the input leaves undefined is written
    as empty or NULL. *)
Definition freshRow (input : UpsertAgentStateInput) (now : Date)
  : AgentState.t :=
  AgentState.mk (ua_id input) (ua_projectId input) (ua_currentState input)
    (ua_currentPhase input)
    (Some (default [] (ua_phases input)))
    (default None (ua_sandboxId input))
    (default None (ua_previewUrl input))
    (Some (default [] (ua_generatedFiles input)))
    (Some (default [] (ua_conversationHistory input)))
    now now.

(** What the columns of [agent_states] make of the parameters of the
    statement: [current_phase] is an [integer], and [phases],
    [generated_files] and [conversation_history] are [jsonb].  The
    parameters of [values] come first, in the order of the columns; those of
    [set] repeat them. *)
Definition columnsRefuse (input : UpsertAgentStateInput) : option jsstring :=
  firstRefusal
    [ ua_currentPhase input ≫= integerRefusal;
      firstRefusal (phaseRefusal <$> default [] (ua_phases input));
      firstRefusal (jsonbStringRefusal <$> default [] (ua_generatedFiles input));
      firstRefusal (messageRefusal <$> default [] (ua_conversationHistory input)) ].

(** [insert(agent_states).values(...).onConflictDoUpdate({ target:
    agent_states.projectId, set }).returning()]. *)
Definition insertOnConflictDoUpdate (db : Database)
  (input : UpsertAgentStateInput) (now : Date)
  : Result (list AgentState.t) * Database :=
  match columnsRefuse input with
  | Some sqlstate => (Thrown (refused sqlstate), db)
  | None =>
      match filter (λ s, AgentState.projectId s = ua_projectId input)
              (agent_states db) with
      | (_ :: _) as conflicting =>
          (Returned (mergeInto input now <$> conflicting),
           mkDatabase (user db) (projects db) (projectFiles db)
             ((λ s, if decide (AgentState.projectId s = ua_projectId input)
                    then mergeInto input now s else s) <$> agent_states db))
      | [] =>
          if decide (ua_id input ∈ AgentState.id <$> agent_states db) then
            (Thrown unique_violation, db)
          else if decide (ua_projectId input ∈ Project.id <$> projects db) then
            let row := freshRow input now in
            (Returned [row],
             mkDatabase (user db) (projects db) (projectFiles db)
               (agent_states db ++ [row]))
          else (Thrown foreign_key_violation, db)
      end
  end.

Definition upsertForProject (db : Database) (input : UpsertAgentStateInput)
  (now : Date) : Result (option AgentState.t) * Database :=
  if negb (canAccessProject db (ua_projectId input) (ua_userId input)) then
    (Returned None, db)
  else
    match insertOnConflictDoUpdate db input now with
    | (Returned rows, db') => (Returned (head rows), db')
    | (Thrown error, db') =>
        if isDatabaseUniqueViolation error then
          (Thrown (UniqueConstraintError
                     (js "Agent state upsert violated a unique constraint for project "
                        ++ ua_projectId input)
                     error), db')
        else (Thrown error, db')
    end.

Definition resetForProject (db : Database) (input : ResetAgentStateInput)
  : bool * Database :=
  let doomed (s : AgentState.t) : Prop :=
    AgentState.projectId s = ra_projectId input ∧
    Exists (ProjectsRepository.ownedBy (ra_projectId input) (ra_userId input))
      (projects db) in
  (bool_decide (0 < length (filter doomed (agent_states db)))%nat,
   mkDatabase (user db) (projects db) (projectFiles db)
     (filter (λ s, ¬ doomed s) (agent_states db))).

End AgentStatesRepository.

(** ** server/middleware/auth.ts, server/index.ts

    What a request handler answers: a body (status 200) or [status(code,
    text)]. *)

Inductive Response (A : Type) : Type :=
| Json (body : A)
| Status (code : Z) (text : jsstring).
Arguments Json {A} body.
Arguments Status {A} code text.

(** What reaches [onError]: the [UnauthorizedError] of the middleware, or
    whatever a handler let through. *)
Inductive RequestError : Type :=
| UnauthorizedError (message : jsstring)
| Raised (e : Exn).

Definition isUnauthorizedError (error : RequestError) : bool :=
  match error with
  | UnauthorizedError _ => true
  | Raised _ => false
  end.

(** The [derive] of [requireAuth].  [authSession] is what
    [auth.api.getSession] resolved to: [None] for no session, otherwise the
    id of the session's user if it has one. *)
Definition requireAuth (authSession : option (option jsstring))
  : RequestError + jsstring :=
  match authSession with
  | Some (Some userId) => inr userId
  | _ => inl (UnauthorizedError (js "Unauthorized"))
  end.

(** The [onError] of the app: a reply for an [UnauthorizedError], nothing of
    its own for any other error. *)
Definition onError (error : RequestError) : option (Z * jsstring) :=
  if isUnauthorizedError error then Some (401%Z, js "Unauthorized") else None.

(** A request to a route that uses [requireAuth]: the middleware first, then
    the handler with the [userId] it derived; [onError] answers what either
    throws, and an error it has no answer for is left to the framework. *)
Inductive Reply (A : Type) : Type :=
| Replied (response : Response A)
| Unanswered (error : RequestError).
Arguments Replied {A} response.
Arguments Unanswered {A} error.

Definition serve {A : Type} (authSession : option (option jsstring))
  (handler : jsstring -> Database -> Result (Response A) * Database)
  (db : Database) : Reply A * Database :=
  match requireAuth authSession with
  | inl error =>
      match onError error with
      | Some (c, text) => (Replied (Status c text), db)
      | None => (Unanswered error, db)
      end
  | inr userId =>
      match handler userId db with
      | (Returned response, db') => (Replied response, db')
      | (Thrown e, db') =>
          match onError (Raised e) with
          | Some (c, text) => (Replied (Status c text), db')
          | None => (Unanswered (Raised e), db')
          end
      end
  end.

(** ** server/routes/projects.ts

    Each handler takes what the framework hands it ([params], the validated
    [body], the derived [userId]) and, where it calls them, the values of
    [crypto.randomUUID()] and [new Date()]. *)

Record ProjectBody : Type := mkProjectBody {
  body_name : jsstring;
  body_description : jsstring
}.

Definition projectsRoute_list (userId : jsstring) (db : Database)
  : Result (Response (list Project.t)) * Database :=
  (Returned (Json (ProjectsRepository.listByUserId db userId)), db).

Definition projectsRoute_get (id userId : jsstring) (db : Database)
  : Result (Response Project.t) * Database :=
  match ProjectsRepository.getByIdForUser db id userId with
  | None => (Returned (Status 404 (js "Project not found")), db)
  | Some project => (Returned (Json project), db)
  end.

Definition projectsRoute_post (body : ProjectBody) (randomUUID : jsstring)
  (now : Date) (userId : jsstring) (db : Database)
  : Result (Response Project.t) * Database :=
  match ProjectsRepository.create db
          (mkCreateProjectInput randomUUID userId (body_name body)
             (Some (Some (body_description body)))) now with
  | (Returned project, db') => (Returned (Json project), db')
  | (Thrown e, db') => (Thrown e, db')
  end.

Definition projectsRoute_patch (id : jsstring) (body : ProjectBody)
  (now : Date) (userId : jsstring) (db : Database)
  : Result (Response Project.t) * Database :=
  match ProjectsRepository.updateForUser db id userId
          (mkPatch (holds (body_name body))
             (holds (Some (body_description body))) absent absent absent)
          now with
  | (Returned None, db') =>
      (Returned (Status 404 (js "Project not found")), db')
  | (Returned (Some project), db') => (Returned (Json project), db')
  | (Thrown e, db') => (Thrown e, db')
  end.

Definition projectsRoute_delete (id userId : jsstring) (db : Database)
  : Result (Response bool) * Database :=
  match ProjectsRepository.deleteForUser db id userId with
  | (false, db') => (Returned (Status 404 (js "Project not found")), db')
  | (deleted, db') => (Returned (Json deleted), db')
  end.

(** ** server/routes/project-files.ts *)

Record ProjectFileBody : Type := mkProjectFileBody {
  body_path : jsstring;
  body_content : jsstring
}.

Definition projectFilesRoute_list (path_le : relation jsstring)
  `{∀ x y, Decision (path_le x y)} (projectId userId : jsstring)
  (db : Database) : Result (Response (list ProjectFile.t)) * Database :=
  (Returned (Json (ProjectFilesRepository.listByProjectForUser path_le db
                     projectId userId)), db).

Definition projectFilesRoute_get (projectId fileId userId : jsstring)
  (db : Database) : Result (Response ProjectFile.t) * Database :=
  match ProjectFilesRepository.getByProjectIdAndFileIdForUser db projectId
          fileId userId with
  | None => (Returned (Status 404 (js "Project file not found")), db)
  | Some projectFile => (Returned (Json projectFile), db)
  end.

Definition projectFilesRoute_put (projectId : jsstring)
  (body : ProjectFileBody) (randomUUID : jsstring) (now : Date)
  (userId : jsstring) (db : Database)
  : Result (Response ProjectFile.t) * Database :=
  match ProjectFilesRepository.upsertFile db
          (mkUpsertProjectFileInput randomUUID projectId (body_path body)
             (body_content body) userId) now with
  | (Returned None, db') =>
      (Returned (Status 404 (js "Project file not found")), db')
  | (Returned (Some projectFile), db') => (Returned (Json projectFile), db')
  | (Thrown e, db') => (Thrown e, db')
  end.

(** ** server/websocket/handler.ts *)

Inductive ProjectWebSocketServerMessage : Type :=
| agent_connected (projectId : jsstring)
| state_update (data : StateUpdateData)
| preview_url (previewUrl : option jsstring)
| generation_error (message : jsstring)
| error (data : WebSocketErrorData).

Record ProjectWebSocketConnection : Type := mkConnection {
  connectionId : jsstring;
  projectId : jsstring;
  userId : jsstring
}.

(** The socket object: its id and the data the route attached to it. *)
Record ProjectWebSocket : Type := mkProjectWebSocket {
  ws_id : jsstring;
  ws_projectId : jsstring;          (* ws.data.params.projectId *)
  ws_userId : jsstring              (* ws.data.userId *)
}.

(** What a handler does to the socket: [ws.send] and [ws.close]. *)
Inductive SocketCall : Type :=
| ws_send (message : ProjectWebSocketServerMessage)
| ws_close (code : Z) (reason : jsstring).

(** Everything a lifecycle callback can read or change: the store, the
    module-level map [wsConnections], the calls made on the socket so far
    (oldest first) and the clock [new Date()] reads. *)
Record World : Type := mkWorld {
  db : Database;
  wsConnections : gmap jsstring ProjectWebSocketConnection;
  calls : list SocketCall;
  clock : Date
}.

(** A computation that may change the world and may throw. *)
Definition M (A : Type) : Type := World -> Result A * World.

Definition ret {A : Type} (a : A) : M A := λ w, (Returned a, w).

Definition bind {A B : Type} (m : M A) (k : A -> M B) : M B :=
  λ w, match m w with
       | (Returned a, w') => k a w'
       | (Thrown e, w') => (Thrown e, w')
       end.

Declare Scope handler_scope.
Delimit Scope handler_scope with handler.
Notation "'await' x <- m ; k" := (bind m (λ x, k))
  (at level 10, x name, m at level 100, k at level 200) : handler_scope.
Notation "m ;; k" := (bind m (λ _, k))
  (at level 100, k at level 200, right associativity) : handler_scope.
Local Open Scope handler_scope.

(** [try { body } catch { handler }]. *)
Definition try_catch {A : Type} (body : M A) (handler : Exn -> M A) : M A :=
  λ w, match body w with
       | (Returned a, w') => (Returned a, w')
       | (Thrown e, w') => handler e w'
       end.

(** A query against [getDb()]. *)
Definition query {A : Type} (q : Database -> A) : M A :=
  λ w, (Returned (q (db w)), w).

(** A statement against [getDb()] that may write and may throw. *)
Definition statement {A : Type} (st : Database -> Date -> Result A * Database)
  : M A :=
  λ w, let '(r, db') := st (db w) (clock w) in
       (r, mkWorld db' (wsConnections w) (calls w) (clock w)).

Definition newDate : M Date := λ w, (Returned (clock w), w).

Definition sendServerMessage (ws : ProjectWebSocket)
  (message : ProjectWebSocketServerMessage) : M unit :=
  λ w, (Returned tt,
        mkWorld (db w) (wsConnections w) (calls w ++ [ws_send message])
          (clock w)).

Definition closeSocket (ws : ProjectWebSocket) (code : Z) (reason : jsstring)
  : M unit :=
  λ w, (Returned tt,
        mkWorld (db w) (wsConnections w) (calls w ++ [ws_close code reason])
          (clock w)).

Definition sendErrorMessage (ws : ProjectWebSocket) (c : WebSocketErrorCode)
  (m : jsstring) : M unit :=
  sendServerMessage ws (error (mkErrorData c m)).

Definition ensureAuthorizedConnection (ws : ProjectWebSocket)
  : M (option ProjectWebSocketConnection) :=
  λ w,
    match wsConnections w !! ws_id ws with
    | Some existingConnection => (Returned (Some existingConnection), w)
    | None =>
        let connection :=
          mkConnection (ws_id ws) (ws_projectId ws) (ws_userId ws) in
        (await project <-
           query (λ d, ProjectsRepository.getByIdForUser d
                         (projectId connection) (userId connection));
         match project with
         | None =>
             sendErrorMessage ws project_access_denied
               (js "Project not found or not accessible for this user");;
             closeSocket ws 4003 (js "Forbidden");;
             ret None
         | Some _ =>
             (λ w', (Returned (Some connection),
                     mkWorld (db w')
                       (<[connectionId connection := connection]>
                          (wsConnections w'))
                       (calls w') (clock w')))
         end) w
    end.

(** [a ?? b] where [a] is a nullable column. *)
Definition orElse {A : Type} (a : option A) (b : A) : A := default b a.

Definition sendStateUpdate (ws : ProjectWebSocket)
  (connection : ProjectWebSocketConnection) : M unit :=
  await project <-
    query (λ d, ProjectsRepository.getByIdForUser d
                  (projectId connection) (userId connection));
  match project with
  | None =>
      sendErrorMessage ws project_access_denied
        (js "Project not found or not accessible for this user");;
      closeSocket ws 4003 (js "Forbidden")
  | Some project =>
      await agentState <-
        query (λ d, AgentStatesRepository.getByProjectForUser d
                      (projectId connection) (userId connection));
      sendServerMessage ws
        (state_update
           (mkStateUpdateData
              (orElse (AgentState.currentState <$> agentState)
                 (Project.status project))
              (agentState ≫= AgentState.currentPhase)
              (orElse (length <$> (agentState ≫= AgentState.phases)) 0%nat)
              (orElse (agentState ≫= AgentState.generatedFiles) [])
              (match agentState ≫= AgentState.previewUrl with
               | Some url => Some url
               | None => Project.previewUrl project
               end)))
  end.

Definition sendPreviewUrl (ws : ProjectWebSocket)
  (connection : ProjectWebSocketConnection) : M unit :=
  await project <-
    query (λ d, ProjectsRepository.getByIdForUser d
                  (projectId connection) (userId connection));
  match project with
  | None =>
      sendErrorMessage ws project_access_denied
        (js "Project not found or not accessible for this user");;
      closeSocket ws 4003 (js "Forbidden")
  | Some project => sendServerMessage ws (preview_url (Project.previewUrl project))
  end.

Definition handleStartGeneration (ws : ProjectWebSocket)
  (connection : ProjectWebSocketConnection) : M unit :=
  await project <-
    query (λ d, ProjectsRepository.getByIdForUser d
                  (projectId connection) (userId connection));
  match project with
  | None =>
      sendErrorMessage ws project_access_denied
        (js "Project not found or not accessible for this user");;
      closeSocket ws 4003 (js "Forbidden")
  | Some _ =>
      await agentState <-
        query (λ d, AgentStatesRepository.getByProjectForUser d
                      (projectId connection) (userId connection));
      match agentState with
      | None =>
          sendErrorMessage ws internal_error (js "Agent state not found");;
          closeSocket ws 4004 (js "Not Found")
      | Some agentState =>
          if decide (AgentState.currentState agentState = js "generating") then
            sendErrorMessage ws generation_in_progress
              (js "Generation already in progress");;
            closeSocket ws 4000 (js "Conflict")
          else
            statement (λ d, AgentStatesRepository.upsertForProject d
              {| ua_id := AgentState.id agentState;
                 ua_projectId := projectId connection;
                 ua_userId := userId connection;
                 ua_currentState := js "generating";
                 ua_sandboxId := None;
                 ua_previewUrl := None;
                 ua_currentPhase := Some 0%Z;
                 ua_phases := Some [];
                 ua_generatedFiles := Some [];
                 ua_conversationHistory := Some [] |});;
            sendServerMessage ws
              (state_update
                 (mkStateUpdateData (js "generating") (Some 0%Z) 0%nat []
                    (AgentState.previewUrl agentState)))
      end
  end.

Definition handleStopGeneration (ws : ProjectWebSocket)
  (connection : ProjectWebSocketConnection) : M unit :=
  await agentState <-
    query (λ d, AgentStatesRepository.getByProjectForUser d
                  (projectId connection) (userId connection));
  match agentState with
  | None =>
      sendErrorMessage ws internal_error (js "Agent state not found");;
      closeSocket ws 4004 (js "Not Found")
  | Some agentState =>
      if decide (AgentState.currentState agentState ≠ js "generating") then
        sendErrorMessage ws generation_not_in_progress
          (js "Generation not in progress");;
        closeSocket ws 4000 (js "Conflict")
      else
        (* the local object is reassigned: currentState, generatedFiles = [],
           currentPhase = null; only the message below reads it again *)
        let agentState_generatedFiles : list jsstring := [] in
        await stopped <-
          statement (λ d, AgentStatesRepository.upsertForProject d
            {| ua_id := AgentState.id agentState;
               ua_projectId := projectId connection;
               ua_userId := userId connection;
               ua_currentState := js "idle";
               ua_sandboxId := None;
               ua_previewUrl := None;
               ua_currentPhase := None;
               ua_phases := Some [];
               ua_generatedFiles := None;
               ua_conversationHistory := None |});
        sendServerMessage ws
          (state_update
             (mkStateUpdateData (js "idle") None 0%nat
                (orElse (stopped ≫= AgentState.generatedFiles)
                   agentState_generatedFiles)
                (match stopped ≫= AgentState.previewUrl with
                 | Some url => Some url
                 | None => AgentState.previewUrl agentState
                 end)))
  end.

Section Lifecycle.

(** The runtime services the callbacks call: [TextDecoder.decode],
    [JSON.parse] and [Date.prototype.toISOString]. *)
Variable decode : list N -> jsstring.
Variable JSON_parse : jsstring -> option JsValue.
Variable toISOString : Date -> jsstring.

Definition handleUserMessage (ws : ProjectWebSocket)
  (connection : ProjectWebSocketConnection) (content : jsstring) : M unit :=
  await agentState <-
    query (λ d, AgentStatesRepository.getByProjectForUser d
                  (projectId connection) (userId connection));
  match agentState with
  | None =>
      sendErrorMessage ws internal_error (js "Agent state not found");;
      closeSocket ws 4004 (js "Not Found")
  | Some agentState =>
      await date <- newDate;
      let conversationHistory :=
        orElse (AgentState.conversationHistory agentState) []
          ++ [mkMessage role_user content (toISOString date)] in
      await updatedState <-
        statement (λ d, AgentStatesRepository.upsertForProject d
          {| ua_id := AgentState.id agentState;
             ua_projectId := projectId connection;
             ua_userId := userId connection;
             ua_currentState := AgentState.currentState agentState;
             ua_sandboxId := None;
             ua_previewUrl := None;
             ua_currentPhase := AgentState.currentPhase agentState;
             ua_phases := None;
             ua_generatedFiles := None;
             ua_conversationHistory := Some conversationHistory |});
      let nextPhases :=
        orElse (match updatedState ≫= AgentState.phases with
                | Some v => Some v
                | None => AgentState.phases agentState
                end) [] in
      let nextGeneratedFiles :=
        orElse (match updatedState ≫= AgentState.generatedFiles with
                | Some v => Some v
                | None => AgentState.generatedFiles agentState
                end) [] in
      let nextPreviewUrl :=
        match updatedState ≫= AgentState.previewUrl with
        | Some v => Some v
        | None => AgentState.previewUrl agentState
        end in
      sendServerMessage ws
        (state_update
           (mkStateUpdateData
              (orElse (AgentState.currentState <$> updatedState)
                 (AgentState.currentState agentState))
              (match updatedState ≫= AgentState.currentPhase with
               | Some v => Some v
               | None => AgentState.currentPhase agentState
               end)
              (length nextPhases) nextGeneratedFiles nextPreviewUrl))
  end.

Definition websocketLifecycle_open (ws : ProjectWebSocket) : M unit :=
  try_catch
    (await connection <- ensureAuthorizedConnection ws;
     match connection with
     | None => ret tt
     | Some connection =>
         sendServerMessage ws (agent_connected (projectId connection))
     end)
    (λ _,
       sendErrorMessage ws internal_error
         (js "Failed to initialize websocket connection");;
       closeSocket ws 1011 (js "Internal server error")).

Definition websocketLifecycle_message (ws : ProjectWebSocket)
  (rawMessage : RawMessage) : M unit :=
  try_catch
    (await connection <- ensureAuthorizedConnection ws;
     match connection with
     | None => ret tt
     | Some connection =>
         match validateClientMessage decode JSON_parse rawMessage with
         | not_ok e => sendErrorMessage ws (code e) (message e)
         | ok (ControlMessage get_state _) => sendStateUpdate ws connection
         | ok (ControlMessage get_preview_url _) => sendPreviewUrl ws connection
         | ok (ControlMessage start_generation _) =>
             handleStartGeneration ws connection
         | ok (ControlMessage stop_generation _) =>
             handleStopGeneration ws connection
         | ok (UserMessage data) =>
             handleUserMessage ws connection (content data)
         end
     end)
    (λ _,
       sendErrorMessage ws internal_error
         (js "Failed to handle websocket message")).

Definition websocketLifecycle_close (ws : ProjectWebSocket) : M unit :=
  λ w, (Returned tt,
        mkWorld (db w) (delete (ws_id ws) (wsConnections w)) (calls w)
          (clock w)).

End Lifecycle.

(** * Derived forms

    Shorthands for terms that the model above builds inline. *)

Module PF := ProjectFilesRepository.

(** The uniqueness constraints of the schema: the primary key of each
    table, [unique(projectId, path)] on [project_files] and the unique
    [projectId] of [agent_states]. *)
Definition fileKey (f : ProjectFile.t) : jsstring * jsstring :=
  (ProjectFile.projectId f, ProjectFile.path f).

Record keys_unique (db : Database) : Prop := mkKeysUnique {
  projects_pkey : NoDup (Project.id <$> projects db);
  project_files_pkey : NoDup (ProjectFile.id <$> projectFiles db);
  project_files_path_unique : NoDup (fileKey <$> projectFiles db);
  agent_states_pkey : NoDup (AgentState.id <$> agent_states db);
  agent_states_project_unique : NoDup (AgentState.projectId <$> agent_states db)
}.

(** The store after the conflict clause of [upsertForProject] has run. *)
Definition merged (db : Database) (input : UpsertAgentStateInput) (now : Date)
  : Database :=
  mkDatabase (user db) (projects db) (projectFiles db)
    ((λ s, if decide (AgentState.projectId s = ua_projectId input)
           then AgentStatesRepository.mergeInto input now s else s)
       <$> agent_states db).

(** The world after [sendErrorMessage] followed by [ws.close]. *)
Definition refusal (w : World) (c : WebSocketErrorCode) (m : jsstring)
  (closeCode : Z) (reason : jsstring) : World :=
  mkWorld (db w) (wsConnections w)
    (calls w ++ [ws_send (error (mkErrorData c m)); ws_close closeCode reason])
    (clock w).

(** The connection [ensureAuthorizedConnection] builds for a socket. *)
Definition ownConnection (ws : ProjectWebSocket) : ProjectWebSocketConnection :=
  mkConnection (ws_id ws) (ws_projectId ws) (ws_userId ws).

(** The input [handleStopGeneration] upserts. *)
Definition stopInput (connection : ProjectWebSocketConnection)
  (agentState : AgentState.t) : UpsertAgentStateInput :=
  {| ua_id := AgentState.id agentState;
     ua_projectId := projectId connection;
     ua_userId := userId connection;
     ua_currentState := js "idle";
     ua_sandboxId := None;
     ua_previewUrl := None;
     ua_currentPhase := None;
     ua_phases := Some [];
     ua_generatedFiles := None;
     ua_conversationHistory := None |}.

(** The input [handleUserMessage] upserts. *)
Definition userMessageInput (connection : ProjectWebSocketConnection)
  (agentState : AgentState.t) (content timestamp : jsstring)
  : UpsertAgentStateInput :=
  {| ua_id := AgentState.id agentState;
     ua_projectId := projectId connection;
     ua_userId := userId connection;
     ua_currentState := AgentState.currentState agentState;
     ua_sandboxId := None;
     ua_previewUrl := None;
     ua_currentPhase := AgentState.currentPhase agentState;
     ua_phases := None;
     ua_generatedFiles := None;
     ua_conversationHistory :=
       Some (orElse (AgentState.conversationHistory agentState) []
               ++ [mkMessage role_user content timestamp]) |}.

(** The input [handleStartGeneration] upserts. *)
Definition startInput (connection : ProjectWebSocketConnection)
  (agentState : AgentState.t) : UpsertAgentStateInput :=
  {| ua_id := AgentState.id agentState;
     ua_projectId := projectId connection;
     ua_userId := userId connection;
     ua_currentState := js "generating";
     ua_sandboxId := None;
     ua_previewUrl := None;
     ua_currentPhase := Some 0%Z;
     ua_phases := Some [];
     ua_generatedFiles := Some [];
     ua_conversationHistory := Some [] |}.

(** A row whose values the columns of [agent_states] hold: what a handler
    reads from such a row and sends back in a statement, the columns take
    again. *)
Definition fitsColumns (s : AgentState.t) : Prop :=
  firstRefusal
    [ AgentState.currentPhase s ≫= integerRefusal;
      firstRefusal (phaseRefusal <$> orElse (AgentState.phases s) []);
      firstRefusal (jsonbStringRefusal
                      <$> orElse (AgentState.generatedFiles s) []);
      firstRefusal (messageRefusal
                      <$> orElse (AgentState.conversationHistory s) []) ]
  = None.

(** A snapshot whose preview url, when it has none, is the project's: the
    last fallback of [sendStateUpdate]. *)
Definition withProjectPreviewUrl (project : Project.t) (d : StateUpdateData)
  : StateUpdateData :=
  mkStateUpdateData (su_currentState d) (su_currentPhase d) (su_totalPhases d)
    (su_generatedFiles d)
    (match su_previewUrl d with
     | Some url => Some url
     | None => Project.previewUrl project
     end).

(** The world with one more call made on the socket. *)
Definition withCall (w : World) (call : SocketCall) : World :=
  mkWorld (db w) (wsConnections w) (calls w ++ [call]) (clock w).

(** The world at a later reading of the clock. *)
Definition atTime (w : World) (t : Date) : World :=
  mkWorld (db w) (wsConnections w) (calls w) t.

(** The name a control command goes by on the wire. *)
Definition controlTypeName (t : ControlMessageType) : jsstring :=
  match t with
  | start_generation => js "start_generation"
  | stop_generation => js "stop_generation"
  | get_state => js "get_state"
  | get_preview_url => js "get_preview_url"
  end.

(** The frame [{"type":"user_message","data":{"content":c}}]. *)
Definition userMessageFrame (c : jsstring) : RawMessage :=
  RawValue (JsObject [ (js "type", JsString (js "user_message"));
                       (js "data", JsObject [(js "content", JsString c)]) ]).

(** * Concrete stores, sockets and frames

    The data of the repository and contract tests, on which the model is run
    among the properties. *)

(** Runtime services for the concrete runs: every frame used there is a
    value already, so neither the decoder nor the parser is consulted, and
    the clock is rendered as one fixed string. *)
Definition no_decode : list N -> jsstring := λ _, [].
Definition no_parse : jsstring -> option JsValue := λ _, None.
Definition no_iso : Date -> jsstring := λ _, js "2026-02-09T10:00:00.000Z".

(** [{"type":"totally_unknown","data":{}}]. *)
Definition frame_totally_unknown : RawMessage :=
  RawValue (JsObject [ (js "type", JsString (js "totally_unknown"));
                       (js "data", JsObject []) ]).

(** [{"type":"user_message","data":{"content":"  hi  "}}]. *)
Definition frame_hi : RawMessage :=
  RawValue (JsObject [ (js "type", JsString (js "user_message"));
                       (js "data", JsObject [(js "content", JsString (js "  hi  "))]) ]).

(** [{"type":"user_message","data":{"content":"   "}}]. *)
Definition frame_blank : RawMessage :=
  RawValue (JsObject [ (js "type", JsString (js "user_message"));
                       (js "data", JsObject [(js "content", JsString (js "   "))]) ]).

(** [{"type":"user_message","data":{"content":"hello"}}]. *)
Definition frame_hello : RawMessage :=
  RawValue (JsObject [ (js "type", JsString (js "user_message"));
                       (js "data", JsObject [(js "content", JsString (js "hello"))]) ]).

(** [{"type":"user_message","data":{"content":"a\u0000b"}}]. *)
Definition frame_nul : RawMessage :=
  RawValue (JsObject [ (js "type", JsString (js "user_message"));
                       (js "data", JsObject [(js "content", JsString [97; 0; 98])]) ]).

(** [{"type":"start_generation","data":{}}]. *)
Definition frame_start_generation : RawMessage :=
  RawValue (JsObject [ (js "type", JsString (js "start_generation"));
                       (js "data", JsObject []) ]).

(** [{"type":"stop_generation","data":{}}]. *)
Definition frame_stop_generation : RawMessage :=
  RawValue (JsObject [ (js "type", JsString (js "stop_generation"));
                       (js "data", JsObject []) ]).

(** Two users; a project of the first, and one of the second. *)
Definition owner_project : Project.t :=
  Project.mk (js "project_1") (js "Owner Project") None 1000 1000
    (js "owner") (js "idle") None None.

Definition stranger_project : Project.t :=
  Project.mk (js "project_2") (js "Other Project") None 1000 1000
    (js "non_owner") (js "idle") None None.

Definition db_no_project : Database :=
  mkDatabase [js "owner"; js "non_owner"] [] [] [].

Definition db_one_project : Database :=
  mkDatabase [js "owner"; js "non_owner"] [owner_project] [] [].

Definition db_two_projects : Database :=
  mkDatabase [js "owner"; js "non_owner"] [owner_project; stranger_project]
    [] [].

(** [{ name: "Hacked" }]. *)
Definition patch_name_hacked : ProjectUpdatePatch :=
  mkPatch (holds (js "Hacked")) absent absent absent absent.

(** [{ name: undefined }]. *)
Definition patch_name_undefined : ProjectUpdatePatch :=
  mkPatch holds_undefined absent absent absent absent.

(** A run state in the middle of a generation. *)
Definition phase_1 : Phase :=
  mkPhase (js "phase-1") (js "base")
    [mkPhaseFile (js "src/main.ts") (js "bootstrap")] false.

Definition state_generating : AgentState.t :=
  AgentState.mk (js "state_1") (js "project_1") (js "generating") (Some 3%Z)
    (Some [phase_1]) (Some (js "sandbox_2")) (Some (js "http://localhost:5174"))
    (Some [js "src/main.ts"; js "src/app.tsx"])
    (Some [mkMessage role_user (js "continue building")
             (js "2026-02-09T10:00:00.000Z")])
    1000 1000.

Definition db_generating : Database :=
  mkDatabase [js "owner"; js "non_owner"] [owner_project] [] [state_generating].

(** An upsert that names [currentState] and [currentPhase] and nothing
    else. *)
Definition input_completed : UpsertAgentStateInput :=
  mkUpsertAgentStateInput (js "state_2") (js "project_1") (js "owner")
    (js "completed") None None (Some 3%Z) None None None.

(** The same upsert with a [currentPhase] one past the largest 32-bit
    integer. *)
Definition input_phase_too_large : UpsertAgentStateInput :=
  mkUpsertAgentStateInput (js "state_2") (js "project_1") (js "owner")
    (js "completed") None None (Some 2147483648%Z) None None None.

(** The run state of the other tenant's project, and a store that holds
    both run states. *)
Definition state_other : AgentState.t :=
  AgentState.mk (js "state_9") (js "project_2") (js "idle") None (Some [])
    None None (Some [js "src/other.ts"]) (Some []) 1000 1000.

Definition db_two_runs : Database :=
  mkDatabase [js "owner"; js "non_owner"] [owner_project; stranger_project]
    [] [state_generating; state_other].

(** The owner's socket on the project, before [open]. *)
Definition ws_owner : ProjectWebSocket :=
  mkProjectWebSocket (js "ws_1") (js "project_1") (js "owner").

Definition connection_owner : ProjectWebSocketConnection :=
  mkConnection (js "ws_1") (js "project_1") (js "owner").

Definition world_generating : World := mkWorld db_generating ∅ [] 5000.
Definition world_fresh_project : World := mkWorld db_one_project ∅ [] 5000.

(** Inputs of bulk upserts whose caller is ["owner"]: two files of the
    caller's project, a file of the other tenant's project, and a second
    path under the id of the first file. *)
Definition file_a : UpsertProjectFileInput :=
  mkUpsertProjectFileInput (js "file_a") (js "project_1") (js "src/a.ts")
    (js "a1") (js "owner").

Definition file_b : UpsertProjectFileInput :=
  mkUpsertProjectFileInput (js "file_b") (js "project_1") (js "src/b.ts")
    (js "b1") (js "owner").

Definition file_foreign : UpsertProjectFileInput :=
  mkUpsertProjectFileInput (js "file_h") (js "project_2") (js "src/hacked.ts")
    (js "hack") (js "owner").

Definition file_a_again : UpsertProjectFileInput :=
  mkUpsertProjectFileInput (js "file_a") (js "project_1") (js "src/b.ts")
    (js "b1") (js "owner").

(** A stored file of the first project, a store that holds it, a second
    write to its path under another id, and the delete of that path. *)
Definition row_a : ProjectFile.t :=
  ProjectFile.mk (js "file_a") (js "project_1") (js "src/a.ts") (js "a1")
    1000 1000.

Definition db_with_file : Database :=
  mkDatabase [js "owner"; js "non_owner"] [owner_project; stranger_project]
    [row_a] [].

Definition file_c : UpsertProjectFileInput :=
  mkUpsertProjectFileInput (js "file_c") (js "project_1") (js "src/a.ts")
    (js "a2") (js "owner").

Definition delete_a : PF.DeleteProjectFileByPathInput :=
  PF.mkDeleteProjectFileByPathInput (js "project_1") (js "src/a.ts")
    (js "owner").

(** A collation for the concrete listings: code unit by code unit. *)
Fixpoint lexLeb (s t : jsstring) : bool :=
  match s, t with
  | [], _ => true
  | _ :: _, [] => false
  | a :: s', b :: t' => (a <? b) || ((a =? b) && lexLeb s' t')
  end.

Definition binary_le : relation jsstring := λ s t, lexLeb s t = true.

#[global] Instance binary_le_dec s t : Decision (binary_le s t).
Proof. unfold binary_le. apply _. Defined.

(** An idle run state, and the world around it. *)
Definition state_idle : AgentState.t :=
  AgentState.mk (js "state_1") (js "project_1") (js "idle") None (Some [])
    (Some (js "sandbox_1")) (Some (js "http://localhost:4174"))
    (Some [js "src/existing.ts"]) (Some []) 1000 1000.

Definition db_idle : Database :=
  mkDatabase [js "owner"; js "non_owner"] [owner_project] [] [state_idle].

Definition world_idle : World := mkWorld db_idle ∅ [] 5000.

(** The other user's socket on the owner's project, and an upsert by that
    user on the owner's run state. *)
Definition ws_stranger : ProjectWebSocket :=
  mkProjectWebSocket (js "ws_2") (js "project_1") (js "non_owner").

Definition input_hijacked : UpsertAgentStateInput :=
  mkUpsertAgentStateInput (js "state_3") (js "project_1") (js "non_owner")
    (js "hijacked") None None (Some 99%Z) (Some []) (Some []) (Some []).

(** * Properties *)

(** ** Trimming *)

Lemma trimStart_app_white (ws s : jsstring) :
  Forall (λ c, isWhiteSpace c = true) ws -> trimStart (ws ++ s) = trimStart s.
Proof.
  induction 1 as [|c ws Hc _ IH]; simpl; [done|]. by rewrite Hc.
Qed.

(** [trimStart] removes a whitespace prefix and nothing else. *)
Lemma trimStart_spec (s : jsstring) :
  exists ws, s = ws ++ trimStart s ∧ Forall (λ c, isWhiteSpace c = true) ws ∧
             match trimStart s with
             | [] => True
             | c :: _ => isWhiteSpace c = false
             end.
Proof.
  induction s as [|c s (ws & Hs & Hws & Hhd)]; simpl.
  - by exists [].
  - destruct (isWhiteSpace c) eqn:Hc.
    + exists (c :: ws). split_and!; [simpl; congruence | by constructor | done].
    + by exists [].
Qed.

Lemma trimStart_nil_iff (s : jsstring) :
  trimStart s = [] <-> Forall (λ c, isWhiteSpace c = true) s.
Proof.
  split.
  - induction s as [|c s IH]; simpl; [done|].
    destruct (isWhiteSpace c) eqn:Hc; [|done]. intros; constructor; auto.
  - intros H. rewrite <- (app_nil_r s). by rewrite trimStart_app_white.
Qed.

(** [trim] splits a string into whitespace, the trimmed string and
    whitespace; the trimmed string neither starts nor ends with whitespace. *)
Lemma trim_spec (s : jsstring) :
  exists pre post,
    s = pre ++ trim s ++ post ∧
    Forall (λ c, isWhiteSpace c = true) pre ∧
    Forall (λ c, isWhiteSpace c = true) post ∧
    (∀ c rest, trim s = c :: rest -> isWhiteSpace c = false) ∧
    (∀ c rest, trim s = rest ++ [c] -> isWhiteSpace c = false).
Proof.
  destruct (trimStart_spec s) as (pre & Hs & Hpre & Hhd).
  destruct (trimStart_spec (rev (trimStart s))) as (tsop & Hr & Htsop & Htl).
  exists pre, (rev tsop). unfold trim, trimEnd.
  assert (Hmid : trimStart s = rev (trimStart (rev (trimStart s))) ++ rev tsop).
  { rewrite <- rev_app_distr, <- Hr. by rewrite rev_involutive. }
  split_and!.
  - by rewrite <- Hmid.
  - done.
  - by apply Forall_rev.
  - intros c rest Hc. rewrite Hc in Hmid. rewrite Hmid in Hhd. apply Hhd.
  - intros c rest Hc.
    apply (f_equal (@rev N)) in Hc. rewrite rev_involutive, rev_app_distr in Hc.
    simpl in Hc. by rewrite Hc in Htl.
Qed.

(** A string is non-empty after trimming exactly when it holds a code unit
    that is not whitespace. *)
Lemma trim_nonempty_iff (s : jsstring) :
  trim s ≠ [] <-> Exists (λ c, isWhiteSpace c = false) s.
Proof.
  unfold trim, trimEnd. split.
  - intros Hne.
    destruct (decide (Exists (λ c, isWhiteSpace c = false) s)) as [|Hn];
      [done|].
    exfalso. apply Hne.
    assert (Forall (λ c, isWhiteSpace c = true) s) as Hs.
    { apply Forall_forall. intros c Hin.
      destruct (isWhiteSpace c) eqn:Hc; [done|].
      exfalso. apply Hn, Exists_exists. eauto. }
    apply trimStart_nil_iff in Hs. by rewrite Hs.
  - intros Hex Hnil.
    apply (f_equal (@rev N)) in Hnil. rewrite rev_involutive in Hnil.
    simpl in Hnil. apply trimStart_nil_iff, Forall_rev in Hnil.
    rewrite rev_involutive in Hnil.
    destruct (trimStart_spec s) as (pre & Hs & Hpre & _).
    rewrite Hs in Hex. apply Exists_app in Hex as [Hex|Hex];
      apply Exists_exists in Hex as (c & Hin & Hc).
    + rewrite Forall_forall in Hpre. specialize (Hpre c Hin). congruence.
    + rewrite Forall_forall in Hnil. specialize (Hnil c Hin). congruence.
Qed.

Example trim_hi :
  trim (js "  hi  ") = js "hi" ∧ trim (js "   ") = [] ∧
  trim (9 :: 160 :: 65279 :: js "a b" ++ [8232; 10]) = js "a b".
Proof. by vm_compute. Qed.

(** ** The command validator *)

Section ValidatorProperties.

Variable decode : list N -> jsstring.
Variable JSON_parse : jsstring -> option JsValue.

Lemma known_type_cases (type : jsstring) :
  type ∈ CLIENT_MESSAGE_TYPES ->
  type = js "start_generation" ∨ type = js "stop_generation" ∨
  type = js "user_message" ∨ type = js "get_state" ∨
  type = js "get_preview_url".
Proof.
  unfold CLIENT_MESSAGE_TYPES. rewrite !elem_of_cons, elem_of_nil. tauto.
Qed.

(** The validator once the payload has parsed to an object whose [type] is
    the string ["user_message"]. *)
Lemma validate_user_message rawMessage envelope :
  parseMessagePayload decode JSON_parse rawMessage = Some (JsObject envelope) ->
  getProperty envelope (js "type") = JsString (js "user_message") ->
  validateClientMessage decode JSON_parse rawMessage =
    match toPlainObject (nullish (getProperty envelope (js "data")) (JsObject [])) with
    | None =>
        toError invalid_message_data
          (js "WebSocket message " ++ dquote ++ js "data" ++ dquote
             ++ js " must be an object")
    | Some data =>
        match userMessageDataSchema_safeParse data with
        | None =>
            toError invalid_message_data
              (dquote ++ js "user_message" ++ dquote
                 ++ js " requires data.content as a non-empty string")
        | Some parsed => ok (UserMessage parsed)
        end
    end.
Proof.
  intros Hparse Htype. unfold validateClientMessage.
  rewrite Hparse. simpl. rewrite Htype.
  by destruct (toPlainObject _).
Qed.

Lemma safeParse_Some data parsed :
  userMessageDataSchema_safeParse data = Some parsed <->
  exists s, getProperty data (js "content") = JsString s ∧ trim s ≠ [] ∧
            parsed = mkUserMessageData (trim s).
Proof.
  unfold userMessageDataSchema_safeParse. split.
  - destruct (getProperty data (js "content")) as [| | | |s| |]; try done.
    destruct (trim s) as [|c t] eqn:Ht; simpl; [done|].
    intros [= <-]. exists s. by rewrite Ht.
  - intros (s & -> & Hne & ->). by destruct (trim s).
Qed.

(** C6, as the code has it: the kind [unknown_message_type] answers a [type]
    that is a string outside the five command names, and its message quotes
    that string; a [type] that is missing or not a string is answered with
    the kind [invalid_message]; a known [type] never gets
    [unknown_message_type]. *)
Theorem unknown_message_type_iff_unlisted_string rawMessage envelope :
  parseMessagePayload decode JSON_parse rawMessage = Some (JsObject envelope) ->
  (∀ type, getProperty envelope (js "type") = JsString type ->
           type ∉ CLIENT_MESSAGE_TYPES ->
     validateClientMessage decode JSON_parse rawMessage =
       toError unknown_message_type
         (js "Unknown message type " ++ dquote ++ type ++ dquote) ∧
     includes (js "Unknown message type " ++ dquote ++ type ++ dquote) type) ∧
  ((∀ type, getProperty envelope (js "type") ≠ JsString type) ->
     validateClientMessage decode JSON_parse rawMessage =
       toError invalid_message
         (js "WebSocket message " ++ dquote ++ js "type" ++ dquote
            ++ js " must be a string")) ∧
  (∀ type, getProperty envelope (js "type") = JsString type ->
           type ∈ CLIENT_MESSAGE_TYPES ->
     ∀ m, validateClientMessage decode JSON_parse rawMessage ≠ toError unknown_message_type m).
Proof.
  intros Hparse. unfold validateClientMessage. rewrite Hparse. simpl.
  split_and!.
  - intros type Htype Hout. rewrite Htype.
    rewrite bool_decide_eq_false_2 by done. simpl. split; [done|].
    exists (js "Unknown message type " ++ dquote), dquote.
    by rewrite <- !app_assoc.
  - intros Hnot. destruct (getProperty envelope (js "type")); try done.
    by destruct (Hnot s).
  - intros type Htype Hin m. rewrite Htype.
    rewrite bool_decide_eq_true_2 by done. simpl.
    destruct (toPlainObject _) as [data|]; [|done].
    apply known_type_cases in Hin as [->|[->|[->|[->| ->]]]]; try done.
    simpl. by destruct (userMessageDataSchema_safeParse data).
Qed.

(** C8: for a payload that parsed to an object whose [type] is
    ["user_message"], validation succeeds exactly when [data] is an object
    whose [content] is a string that is non-empty after trimming, and every
    failure is an error whose [code] is [invalid_message_data]. *)
Theorem user_message_valid_iff_content_nonblank rawMessage envelope :
  parseMessagePayload decode JSON_parse rawMessage = Some (JsObject envelope) ->
  getProperty envelope (js "type") = JsString (js "user_message") ->
  let well_formed :=
    exists data s,
      nullish (getProperty envelope (js "data")) (JsObject []) = JsObject data ∧
      getProperty data (js "content") = JsString s ∧ trim s ≠ [] in
  ((exists value, validateClientMessage decode JSON_parse rawMessage = ok value) <-> well_formed) ∧
  (¬ well_formed ->
     exists e, validateClientMessage decode JSON_parse rawMessage = not_ok e ∧
               code e = invalid_message_data).
Proof.
  intros Hparse Htype well_formed.
  rewrite (validate_user_message _ _ Hparse Htype).
  destruct (nullish _ _) as [| | | | | |data] eqn:Hdata; simpl;
    try (split; [split; [by intros [? ?] | by intros (? & ? & ? & _)]
                | intros _; eexists; split; reflexivity]).
  destruct (userMessageDataSchema_safeParse data) as [parsed|] eqn:Hsafe.
  - apply safeParse_Some in Hsafe as (s & Hs & Hne & ->).
    assert well_formed as Hwf by (by exists data, s).
    split; [split; [done | by eexists] | done].
  - split; [split; [by intros [? ?] |] | intros _; eexists; split; reflexivity].
    intros (data' & s & [= <-] & Hs & Hne). exfalso.
    assert (userMessageDataSchema_safeParse data
            = Some (mkUserMessageData (trim s))) as Hsome
      by (apply safeParse_Some; eauto).
    congruence.
Qed.

End ValidatorProperties.

Lemma unknown_message_type_iff_unlisted_string_witness :
  validateClientMessage no_decode no_parse frame_totally_unknown =
    toError unknown_message_type
      (js "Unknown message type " ++ dquote ++ js "totally_unknown" ++ dquote).
Proof.
  destruct (unknown_message_type_iff_unlisted_string no_decode no_parse
              frame_totally_unknown _ eq_refl) as (Hunlisted & _ & _).
  apply (Hunlisted (js "totally_unknown") eq_refl).
  apply (bool_decide_eq_false_1 _). vm_compute. reflexivity.
Defined.

(** C6 as stated fails where [type] is missing: the frame [{}] parses to an
    object without a [type] and is answered [invalid_message], not
    [unknown_message_type]; so is a frame whose [type] is a number. *)
Lemma missing_type_is_invalid_message :
  parseMessagePayload no_decode no_parse (RawValue (JsObject []))
    = Some (JsObject []) ∧
  getProperty [] (js "type") = JsUndefined ∧
  validateClientMessage no_decode no_parse (RawValue (JsObject [])) =
    toError invalid_message
      (js "WebSocket message " ++ dquote ++ js "type" ++ dquote
         ++ js " must be a string") ∧
  (∀ m, validateClientMessage no_decode no_parse (RawValue (JsObject []))
        ≠ toError unknown_message_type m) ∧
  (∀ m, validateClientMessage no_decode no_parse
          (RawValue (JsObject [(js "type", JsNumber 7%float)]))
        ≠ toError unknown_message_type m).
Proof. split_and!; try done; intros m; vm_compute; discriminate. Qed.

Lemma user_message_valid_iff_content_nonblank_witness :
  (exists value, validateClientMessage no_decode no_parse frame_hi = ok value) ∧
  (exists e, validateClientMessage no_decode no_parse frame_blank = not_ok e ∧
             code e = invalid_message_data).
Proof.
  split.
  - apply (user_message_valid_iff_content_nonblank no_decode no_parse
             frame_hi _ eq_refl eq_refl).
    eexists _, (js "  hi  "). split_and!; [reflexivity | reflexivity |].
    vm_compute. discriminate.
  - apply (user_message_valid_iff_content_nonblank no_decode no_parse
             frame_blank _ eq_refl eq_refl).
    intros (data & s & Hdata & Hs & Hne). vm_compute in Hdata.
    injection Hdata as <-. vm_compute in Hs. injection Hs as <-.
    apply Hne. vm_compute. reflexivity.
Defined.

(** ** Rows, filters and updates *)

Section ListFacts.

Context {A : Type}.

Lemma filter_none (P : A -> Prop) `{∀ x, Decision (P x)} (l : list A) :
  (∀ x, x ∈ l -> ¬ P x) -> filter P l = [].
Proof.
  induction l as [|x l IH]; intros Hno; [done|].
  rewrite filter_cons_False by (apply Hno; left).
  apply IH. intros y Hy. apply Hno. by right.
Qed.

Lemma filter_all (P : A -> Prop) `{∀ x, Decision (P x)} (l : list A) :
  (∀ x, x ∈ l -> P x) -> filter P l = l.
Proof.
  induction l as [|x l IH]; intros Hall; [done|].
  rewrite filter_cons_True by (apply Hall; left).
  f_equal. apply IH. intros y Hy. apply Hall. by right.
Qed.

Lemma filter_ext_in (P Q : A -> Prop) `{∀ x, Decision (P x)}
  `{∀ x, Decision (Q x)} (l : list A) :
  (∀ x, x ∈ l -> P x <-> Q x) -> filter P l = filter Q l.
Proof.
  induction l as [|x l IH]; intros Hiff; [done|].
  rewrite !filter_cons.
  assert (P x <-> Q x) as Hx by (apply Hiff; left).
  rewrite IH by (intros y Hy; apply Hiff; by right).
  destruct (decide (P x)), (decide (Q x)); tauto.
Qed.

(** [UPDATE ... WHERE P] touches nothing when no row satisfies [P]. *)
Lemma update_where_none (P : A -> Prop) `{∀ x, Decision (P x)}
  (f : A -> A) (l : list A) :
  (∀ x, x ∈ l -> ¬ P x) -> (λ x, if decide (P x) then f x else x) <$> l = l.
Proof.
  induction l as [|x l IH]; intros Hno; [done|]. simpl.
  rewrite decide_False by (apply Hno; left).
  f_equal. apply IH. intros y Hy. apply Hno. by right.
Qed.

(** The rows [UPDATE ... WHERE P ... RETURNING] answers are the updated
    images of the rows that satisfied [P], when the update keeps what [Q]
    looks at. *)
Lemma filter_update_where (P Q : A -> Prop) `{∀ x, Decision (P x)}
  `{∀ x, Decision (Q x)} (f : A -> A) (l : list A) :
  (∀ x, Q (f x) <-> Q x) -> (∀ x, x ∈ l -> Q x -> P x) ->
  filter Q ((λ x, if decide (P x) then f x else x) <$> l) = f <$> filter Q l.
Proof.
  intros Hkeep. induction l as [|x l IH]; intros HQP; [done|].
  rewrite fmap_cons, !filter_cons.
  rewrite IH by (intros y Hy; apply HQP; by right).
  destruct (decide (P x)) as [HP|HP].
  - destruct (decide (Q (f x))) as [HQ|HQ], (decide (Q x)) as [HQ'|HQ'];
      try done; exfalso.
    + by apply HQ', Hkeep.
    + by apply HQ, Hkeep.
  - destruct (decide (Q x)) as [HQ|HQ]; [|done].
    exfalso. apply HP, HQP; [left|done].
Qed.

Lemma NoDup_fmap_key {B : Type} (key : A -> B) (l : list A) (x y : A) :
  NoDup (key <$> l) -> x ∈ l -> y ∈ l -> key x = key y -> x = y.
Proof.
  induction l as [|z l IH]; simpl; [by intros _ ?%elem_of_nil|].
  intros [Hz Hnd]%NoDup_cons [->|Hx]%elem_of_cons [->|Hy]%elem_of_cons Hk;
    [done| | |by apply IH].
  - exfalso. apply Hz. rewrite Hk. by apply list_elem_of_fmap_2.
  - exfalso. apply Hz. rewrite <- Hk. by apply list_elem_of_fmap_2.
Qed.

End ListFacts.

(** ** What the columns take *)

Lemma firstRefusal_cons (r : option jsstring) (l : list (option jsstring)) :
  firstRefusal (r :: l) = match r with Some c => Some c | None => firstRefusal l end.
Proof. by destruct r. Qed.

Lemma firstRefusal_None (l : list (option jsstring)) :
  firstRefusal l = None <-> Forall (λ r, r = None) l.
Proof.
  induction l as [|r l IH]; [done|].
  rewrite firstRefusal_cons, Forall_cons. destruct r; [|tauto].
  split; [done | by intros [? _]].
Qed.

Lemma firstRefusal_fmap_None {A : Type} (refusal : A -> option jsstring)
  (l : list A) :
  firstRefusal (refusal <$> l) = None <-> Forall (λ x, refusal x = None) l.
Proof. by rewrite firstRefusal_None, Forall_fmap. Qed.

Lemma integerRefusal_None (n : Z) : integerRefusal n = None <-> int4 n.
Proof.
  unfold integerRefusal. destruct (decide (int4 n)); [done|].
  by destruct (decide _).
Qed.

(** The columns take an upsert exactly when [currentPhase] is [null] or a
    32-bit integer and no string of [phases], [generatedFiles] and
    [conversationHistory] is refused by [jsonb]. *)
Lemma columnsRefuse_None (input : UpsertAgentStateInput) :
  AgentStatesRepository.columnsRefuse input = None <->
  (∀ n, ua_currentPhase input = Some n -> int4 n) ∧
  Forall (λ p, phaseRefusal p = None) (default [] (ua_phases input)) ∧
  Forall (λ f, jsonbStringRefusal f = None)
    (default [] (ua_generatedFiles input)) ∧
  Forall (λ m, messageRefusal m = None)
    (default [] (ua_conversationHistory input)).
Proof.
  unfold AgentStatesRepository.columnsRefuse.
  rewrite firstRefusal_None, !Forall_cons, !firstRefusal_fmap_None.
  assert ((ua_currentPhase input ≫= integerRefusal) = None <->
          ∀ n, ua_currentPhase input = Some n -> int4 n) as ->.
  { destruct (ua_currentPhase input) as [n|]; simpl; [|done].
    rewrite integerRefusal_None. split; [by intros ? ? [= <-] | auto]. }
  rewrite Forall_nil. tauto.
Qed.

(** ** Projects: a foreign project looks like a missing one *)

Import ProjectsRepository.

(** What the three owner-scoped operations answer when no row of [projects]
    has both the id and the owner asked for. *)
Lemma no_owned_project_answers (db : Database) (projectId userId : jsstring)
  (patch : ProjectUpdatePatch) (now : Date) :
  (∀ p, p ∈ projects db -> ¬ ownedBy projectId userId p) ->
  getByIdForUser db projectId userId = None ∧
  updateForUser db projectId userId patch now =
    (if negb (patchIsEmpty patch) && setsNothing patch
     then Thrown (Error (js "No values to set")) else Returned None, db) ∧
  deleteForUser db projectId userId = (false, db).
Proof.
  intros Hno.
  assert (filter (ownedBy projectId userId) (projects db) = []) as Hnone
    by by apply filter_none.
  unfold getByIdForUser, updateForUser, deleteForUser, getByIdForUser.
  rewrite Hnone. simpl. split_and!; [done| |].
  - destruct (patchIsEmpty patch); [done|].
    destruct (setsNothing patch); [done|]. simpl.
    rewrite update_where_none by done. by destruct db.
  - rewrite filter_all by done.
    rewrite !filter_all by (intros ? _ ?%elem_of_nil; done).
    by destruct db.
Qed.

(** C1: for a project [P] of a store whose project ids are unique and a
    user [U] other than its owner, the three operations answer [null],
    [null] and [false] and leave the store as it is, exactly as they do on
    any store that has no project with [P]'s id.  The one patch
    [updateForUser] does not answer [null] to is a patch whose keys all hold
    [undefined]: the query builder throws on it before any row is looked at,
    the same error on both stores. *)
Theorem foreign_project_indistinguishable_from_missing
  (db missing : Database) (P : Project.t) (U : jsstring)
  (patch : ProjectUpdatePatch) (now : Date) :
  NoDup (Project.id <$> projects db) ->
  P ∈ projects db ->
  U ≠ Project.userId P ->
  Project.id P ∉ Project.id <$> projects missing ->
  (getByIdForUser db (Project.id P) U = None ∧
   getByIdForUser missing (Project.id P) U = None) ∧
  (exists r,
     updateForUser db (Project.id P) U patch now = (r, db) ∧
     updateForUser missing (Project.id P) U patch now = (r, missing) ∧
     (patchIsEmpty patch = true ∨ setsNothing patch = false ->
      r = Returned None) ∧
     (patchIsEmpty patch = false -> setsNothing patch = true ->
      r = Thrown (Error (js "No values to set")))) ∧
  (deleteForUser db (Project.id P) U = (false, db) ∧
   deleteForUser missing (Project.id P) U = (false, missing)).
Proof.
  intros Hpk HP HU Hmissing.
  destruct (no_owned_project_answers db (Project.id P) U patch now)
    as (Hget & Hupd & Hdel).
  { intros p Hp [Hid Hown].
    assert (p = P) as -> by by eapply NoDup_fmap_key. done. }
  destruct (no_owned_project_answers missing (Project.id P) U patch now)
    as (Hget' & Hupd' & Hdel').
  { intros p Hp [Hid _]. apply Hmissing. rewrite <- Hid.
    by apply list_elem_of_fmap_2. }
  split_and!; try done.
  eexists. split_and!; [exact Hupd | exact Hupd' | |].
  - by intros [-> | ->]; [|rewrite andb_false_r].
  - by intros -> ->.
Qed.

Lemma foreign_project_indistinguishable_from_missing_witness :
  (getByIdForUser db_one_project (js "project_1") (js "non_owner") = None ∧
   getByIdForUser db_no_project (js "project_1") (js "non_owner") = None) ∧
  (updateForUser db_one_project (js "project_1") (js "non_owner")
     patch_name_hacked 2000 = (Returned None, db_one_project) ∧
   updateForUser db_no_project (js "project_1") (js "non_owner")
     patch_name_hacked 2000 = (Returned None, db_no_project)) ∧
  (deleteForUser db_one_project (js "project_1") (js "non_owner")
     = (false, db_one_project) ∧
   deleteForUser db_no_project (js "project_1") (js "non_owner")
     = (false, db_no_project)).
Proof.
  destruct (foreign_project_indistinguishable_from_missing db_one_project
              db_no_project owner_project (js "non_owner") patch_name_hacked
              2000)
    as (Hget & (r & Hupd & Hupd' & Hnull & _) & Hdel).
  - apply (bool_decide_unpack _). vm_compute. reflexivity.
  - apply (bool_decide_unpack _). vm_compute. reflexivity.
  - apply (bool_decide_unpack _). vm_compute. reflexivity.
  - apply (bool_decide_unpack _). vm_compute. reflexivity.
  - split; [exact Hget|]. split; [|exact Hdel].
    rewrite <- (Hnull (or_intror eq_refl)). split; [exact Hupd | exact Hupd'].
Defined.

(** The owner, by contrast, reads, patches and deletes the project. *)
Example owner_reaches_project :
  getByIdForUser db_one_project (js "project_1") (js "owner")
    = Some owner_project ∧
  fst (updateForUser db_one_project (js "project_1") (js "owner")
         patch_name_hacked 2000)
    = Returned (Some (Project.mk (js "project_1") (js "Hacked") None 1000 2000
                        (js "owner") (js "idle") None None)) ∧
  deleteForUser db_one_project (js "project_1") (js "owner")
    = (true, db_no_project).
Proof. by vm_compute. Qed.

(** A patch whose only key holds [undefined] is not empty and sets nothing:
    the owner, a stranger and a caller naming no project at all get the same
    error, and nothing is written. *)
Example patch_of_undefined_throws :
  updateForUser db_one_project (js "project_1") (js "owner")
    patch_name_undefined 2000
    = (Thrown (Error (js "No values to set")), db_one_project) ∧
  updateForUser db_one_project (js "project_1") (js "non_owner")
    patch_name_undefined 2000
    = (Thrown (Error (js "No values to set")), db_one_project) ∧
  updateForUser db_no_project (js "project_1") (js "non_owner")
    patch_name_undefined 2000
    = (Thrown (Error (js "No values to set")), db_no_project).
Proof. by vm_compute. Qed.

(** ** Duplicate keys on [create] *)

(** C9, evaluated on the code: when the id of the input is taken, the store
    refuses the insert with SQLSTATE 23505, and [create] lets through what
    the statement threw: the query builder's error, whose cause is the
    driver's error with that code.  It is not a [UniqueConstraintError]. *)
Theorem create_duplicate_id_throws_store_error (db : Database)
  (input : CreateProjectInput) (now : Date) :
  cp_id input ∈ Project.id <$> projects db ->
  create db input now
    = (Thrown (DrizzleQueryError (DatabaseError (js "23505"))), db) ∧
  (∀ m cause, fst (create db input now) ≠ Thrown (UniqueConstraintError m cause)).
Proof.
  intros Htaken. unfold create. rewrite decide_True by done.
  split_and!; done.
Qed.

Lemma create_duplicate_id_throws_store_error_witness :
  create db_one_project
    (mkCreateProjectInput (js "project_1") (js "owner") (js "Again") None)
    2000
  = (Thrown (DrizzleQueryError (DatabaseError (js "23505"))), db_one_project) ∧
  (∀ m cause,
     fst (create db_one_project
            (mkCreateProjectInput (js "project_1") (js "owner") (js "Again")
               None) 2000)
     ≠ Thrown (UniqueConstraintError m cause)).
Proof.
  apply (create_duplicate_id_throws_store_error db_one_project
           (mkCreateProjectInput (js "project_1") (js "owner") (js "Again") None)
           2000).
  apply (bool_decide_unpack _). vm_compute. reflexivity.
Defined.

(** The repository layer's own test does not recognise what the statement
    throws: it reads the [code] of the error it is handed, and the code is
    on the cause. *)
Example driver_error_is_not_recognised :
  isDatabaseUniqueViolation unique_violation = false ∧
  isDatabaseUniqueViolation (DatabaseError (js "23505")) = true.
Proof. by vm_compute. Qed.

(** An id already used by another path of the same project: the [catch] of
    [upsertFile] rethrows the statement's error as it is. *)
Example upsertFile_duplicate_id :
  let db :=
    mkDatabase [js "owner"] [owner_project]
      [ProjectFile.mk (js "file_1") (js "project_1") (js "src/a.ts") (js "a1")
         1000 1000] [] in
  ProjectFilesRepository.upsertFile db
    (mkUpsertProjectFileInput (js "file_1") (js "project_1") (js "src/b.ts")
       (js "b1") (js "owner")) 2000
  = (Thrown (DrizzleQueryError (DatabaseError (js "23505"))), db).
Proof. by vm_compute. Qed.

(** ** Run state: merge-patch on the existing row *)

Lemma canAccessProject_true (db : Database) (projectId userId : jsstring) :
  AgentStatesRepository.canAccessProject db projectId userId = true <->
  exists p, p ∈ projects db ∧ ownedBy projectId userId p.
Proof.
  unfold AgentStatesRepository.canAccessProject.
  rewrite bool_decide_eq_true. split.
  - intros [p Hp]. exists p.
    destruct (filter _ _) as [|q l] eqn:Hf; [done|]. injection Hp as ->.
    assert (p ∈ filter (ownedBy projectId userId) (projects db)) as Hin
      by (rewrite Hf; left).
    apply list_elem_of_filter in Hin. tauto.
  - intros (p & Hin & Hown).
    assert (p ∈ filter (ownedBy projectId userId) (projects db)) as Hp
      by (apply list_elem_of_filter; done).
    destruct (filter _ _); [by apply elem_of_nil in Hp | by eexists].
Qed.

(** A run state the owner can read lies in the table under the project's
    id, and the project is the owner's. *)
Lemma getByProjectForUser_Some (db : Database) (projectId userId : jsstring)
  (st : AgentState.t) :
  AgentStatesRepository.getByProjectForUser db projectId userId = Some st ->
  exists rest,
    filter (AgentStatesRepository.visibleTo db projectId userId)
      (agent_states db) = st :: rest ∧
    AgentState.projectId st = projectId ∧
    AgentStatesRepository.canAccessProject db projectId userId = true ∧
    is_Some (getByIdForUser db projectId userId).
Proof.
  unfold AgentStatesRepository.getByProjectForUser. intros Hhead.
  destruct (filter _ _) as [|s rest] eqn:Hf; [done|]. injection Hhead as ->.
  exists rest. split; [done|].
  assert (st ∈ filter (AgentStatesRepository.visibleTo db projectId userId)
                 (agent_states db)) as Hin by (rewrite Hf; left).
  apply list_elem_of_filter in Hin as [[Hpid Hex] _].
  apply Exists_exists in Hex as (p & Hp & Hid & Huid).
  assert (ownedBy projectId userId p) as Hown by (split; congruence).
  split; [done|]. split.
  - apply canAccessProject_true. eauto.
  - unfold getByIdForUser.
    assert (p ∈ filter (ownedBy projectId userId) (projects db)) as Hp'
      by (apply list_elem_of_filter; done).
    destruct (filter _ (projects db)); [by apply elem_of_nil in Hp' | by eexists].
Qed.

(** Under the owner's scope, the rows the owner sees are the rows of the
    project. *)
Lemma visibleTo_iff_projectId (db : Database) (projectId userId : jsstring)
  (s : AgentState.t) :
  AgentStatesRepository.canAccessProject db projectId userId = true ->
  AgentStatesRepository.visibleTo db projectId userId s <->
  AgentState.projectId s = projectId.
Proof.
  intros (p & Hp & Hid & Huid)%canAccessProject_true.
  unfold AgentStatesRepository.visibleTo. split; [tauto|].
  intros Hs. split; [done|]. apply Exists_exists. exists p.
  split; [done|]. split; congruence.
Qed.

(** On a row the owner can read, [upsertForProject] takes the conflict
    branch: it answers the merged row, and the merged row is what the owner
    reads afterwards. *)
Lemma upsertForProject_existing (db : Database) (input : UpsertAgentStateInput)
  (now : Date) (st : AgentState.t) :
  AgentStatesRepository.getByProjectForUser db (ua_projectId input)
    (ua_userId input) = Some st ->
  AgentStatesRepository.columnsRefuse input = None ->
  AgentStatesRepository.upsertForProject db input now =
    (Returned (Some (AgentStatesRepository.mergeInto input now st)),
     merged db input now) ∧
  AgentStatesRepository.getByProjectForUser (merged db input now)
    (ua_projectId input) (ua_userId input)
  = Some (AgentStatesRepository.mergeInto input now st).
Proof.
  intros (rest & Hf & Hpid & Hacc & _)%getByProjectForUser_Some Htaken.
  assert (filter (λ s, AgentState.projectId s = ua_projectId input)
            (agent_states db) = st :: rest) as Hconf.
  { rewrite <- Hf. apply filter_ext_in. intros s _. symmetry.
    by apply visibleTo_iff_projectId. }
  split.
  - unfold AgentStatesRepository.upsertForProject,
      AgentStatesRepository.insertOnConflictDoUpdate.
    by rewrite Hacc, Htaken, Hconf.
  - unfold AgentStatesRepository.getByProjectForUser, merged. simpl.
    rewrite (filter_ext_in
               (AgentStatesRepository.visibleTo (mkDatabase _ _ _ _) _ _)
               (AgentStatesRepository.visibleTo db (ua_projectId input)
                  (ua_userId input))) by done.
    rewrite filter_update_where.
    + by rewrite Hf.
    + intros s. unfold AgentStatesRepository.visibleTo. by simpl.
    + intros s _ Hs. by apply visibleTo_iff_projectId in Hs.
Qed.

(** An upsert by the owner that the columns refuse throws what the
    statement threw and writes nothing. *)
Lemma upsertForProject_refused (db : Database) (input : UpsertAgentStateInput)
  (now : Date) (sqlstate : jsstring) :
  AgentStatesRepository.canAccessProject db (ua_projectId input)
    (ua_userId input) = true ->
  AgentStatesRepository.columnsRefuse input = Some sqlstate ->
  AgentStatesRepository.upsertForProject db input now
  = (Thrown (DrizzleQueryError (DatabaseError sqlstate)), db).
Proof.
  intros Hacc Hrefuse.
  unfold AgentStatesRepository.upsertForProject,
    AgentStatesRepository.insertOnConflictDoUpdate.
  by rewrite Hacc, Hrefuse.
Qed.

(** C3, as the code has it: on an existing row, an upsert by the owner
    whose values the columns take ([currentPhase] null or a 32-bit integer,
    no string that [jsonb] refuses) gives [currentState] and [currentPhase]
    the input's values and leaves each of [phases], [generatedFiles],
    [conversationHistory], [sandboxId] and [previewUrl] with its stored value
    when the input omits it; the row keeps its id. *)
Theorem upsert_keeps_omitted_fields (db : Database)
  (input : UpsertAgentStateInput) (now : Date) (st : AgentState.t) :
  AgentStatesRepository.getByProjectForUser db (ua_projectId input)
    (ua_userId input) = Some st ->
  (∀ n, ua_currentPhase input = Some n -> int4 n) ->
  Forall (λ p, phaseRefusal p = None) (default [] (ua_phases input)) ->
  Forall (λ f, jsonbStringRefusal f = None)
    (default [] (ua_generatedFiles input)) ->
  Forall (λ m, messageRefusal m = None)
    (default [] (ua_conversationHistory input)) ->
  exists st' db',
    AgentStatesRepository.upsertForProject db input now
      = (Returned (Some st'), db') ∧
    AgentStatesRepository.getByProjectForUser db' (ua_projectId input)
      (ua_userId input) = Some st' ∧
    AgentState.id st' = AgentState.id st ∧
    AgentState.currentState st' = ua_currentState input ∧
    AgentState.currentPhase st' = ua_currentPhase input ∧
    (ua_phases input = None ->
       AgentState.phases st' = AgentState.phases st) ∧
    (ua_generatedFiles input = None ->
       AgentState.generatedFiles st' = AgentState.generatedFiles st) ∧
    (ua_conversationHistory input = None ->
       AgentState.conversationHistory st' = AgentState.conversationHistory st) ∧
    (ua_sandboxId input = None ->
       AgentState.sandboxId st' = AgentState.sandboxId st) ∧
    (ua_previewUrl input = None ->
       AgentState.previewUrl st' = AgentState.previewUrl st).
Proof.
  intros Hst Hphase Hphases Hfiles Hhistory.
  destruct (upsertForProject_existing db input now st Hst) as [Hups Hget].
  { by apply columnsRefuse_None. }
  exists (AgentStatesRepository.mergeInto input now st), (merged db input now).
  split_and!; try done; simpl; by intros ->.
Qed.

Lemma upsert_keeps_omitted_fields_witness :
  exists st' db',
    AgentStatesRepository.upsertForProject db_generating input_completed 2000
      = (Returned (Some st'), db') ∧
    AgentState.currentState st' = js "completed" ∧
    AgentState.phases st' = Some [phase_1].
Proof.
  destruct (upsert_keeps_omitted_fields db_generating input_completed 2000
              state_generating)
    as (st' & db' & Hups & _ & _ & Hstate & _ & Hphases & _).
  - vm_compute. reflexivity.
  - intros n Hn. injection Hn as <-. unfold int4. lia.
  - apply Forall_nil_2.
  - apply Forall_nil_2.
  - apply Forall_nil_2.
  - exists st', db'. split_and!; [done | done |]. by rewrite Hphases.
Defined.

(** C3 as stated fails on an input whose [currentPhase] does not fit the
    [integer] column: the owner's upsert on the existing row throws what the
    store answered (SQLSTATE 22003), returns no row, and the stored
    [currentState] and [currentPhase] are not the input's. *)
Lemma upsert_phase_out_of_range_throws :
  AgentStatesRepository.getByProjectForUser db_generating
    (ua_projectId input_phase_too_large) (ua_userId input_phase_too_large)
    = Some state_generating ∧
  ua_currentPhase input_phase_too_large = Some 2147483648%Z ∧
  AgentStatesRepository.upsertForProject db_generating input_phase_too_large
    2000
  = (Thrown (DrizzleQueryError (DatabaseError (js "22003"))), db_generating) ∧
  (∀ st' db',
     AgentStatesRepository.upsertForProject db_generating
       input_phase_too_large 2000 ≠ (Returned (Some st'), db')) ∧
  AgentState.currentPhase state_generating
    ≠ ua_currentPhase input_phase_too_large ∧
  AgentState.currentState state_generating
    ≠ ua_currentState input_phase_too_large.
Proof. split_and!; by vm_compute. Qed.

(** The repository tests: a second upsert under another id updates the one
    row of the project and keeps its id; a non-owner is answered [null] and
    writes nothing; a first upsert inserts. *)
Example upsert_twice_one_row :
  let '(r, db') :=
    AgentStatesRepository.upsertForProject db_generating input_completed 2000 in
  (AgentState.id <$> default None (match r with Returned o => Some o | _ => None end))
    = Some (js "state_1") ∧
  length (agent_states db') = 1%nat ∧
  AgentStatesRepository.upsertForProject db_generating
    (mkUpsertAgentStateInput (js "state_2") (js "project_1") (js "non_owner")
       (js "hijacked") None None (Some 99%Z) (Some []) (Some []) (Some []))
    2000 = (Returned None, db_generating) ∧
  length (agent_states
            (snd (AgentStatesRepository.upsertForProject db_one_project
                    input_completed 2000))) = 1%nat.
Proof. by vm_compute. Qed.

(** ** The session controller *)

Lemma refuse_and_close (ws : ProjectWebSocket) (w : World)
  (c : WebSocketErrorCode) (m : jsstring) (closeCode : Z) (reason : jsstring) :
  (sendErrorMessage ws c m;; closeSocket ws closeCode reason) w
  = (Returned tt, refusal w c m closeCode reason).
Proof.
  unfold bind, sendErrorMessage, sendServerMessage, closeSocket, refusal.
  simpl. by rewrite <- app_assoc.
Qed.

(** C4: while the persisted run state is ["generating"],
    [start_generation] sends the error [generation_in_progress], closes the
    socket with code 4000 and writes nothing: the store, the registry and
    the clock are as before. *)
Theorem start_generation_while_generating (ws : ProjectWebSocket)
  (connection : ProjectWebSocketConnection) (w : World) (st : AgentState.t) :
  AgentStatesRepository.getByProjectForUser (db w) (projectId connection)
    (userId connection) = Some st ->
  AgentState.currentState st = js "generating" ->
  handleStartGeneration ws connection w =
    (Returned tt,
     mkWorld (db w) (wsConnections w)
       (calls w ++
          [ws_send (error (mkErrorData generation_in_progress
                             (js "Generation already in progress")));
           ws_close 4000 (js "Conflict")])
       (clock w)).
Proof.
  intros Hget Hgen.
  destruct (getByProjectForUser_Some _ _ _ _ Hget)
    as (_ & _ & _ & _ & [project Hproject]).
  unfold handleStartGeneration, bind at 1, query at 1. rewrite Hproject.
  unfold bind at 1, query at 1. rewrite Hget.
  rewrite decide_True by done. apply refuse_and_close.
Qed.

Lemma start_generation_while_generating_witness :
  handleStartGeneration ws_owner connection_owner world_generating =
    (Returned tt,
     mkWorld db_generating ∅
       [ws_send (error (mkErrorData generation_in_progress
                          (js "Generation already in progress")));
        ws_close 4000 (js "Conflict")]
       5000).
Proof.
  apply (start_generation_while_generating ws_owner connection_owner
           world_generating state_generating).
  - vm_compute. reflexivity.
  - vm_compute. reflexivity.
Defined.

(** C5, as the code has it: while the project has no run state the owner can
    read, [user_message] and [start_generation] insert none.  Both send the
    error [internal_error] ("Agent state not found") and close the socket
    with code 4004 ([start_generation] only once the project itself is
    found), and neither changes the store. *)
Theorem no_run_state_is_not_created (toISOString : Date -> jsstring)
  (ws : ProjectWebSocket) (connection : ProjectWebSocketConnection)
  (content : jsstring) (w : World) :
  AgentStatesRepository.getByProjectForUser (db w) (projectId connection)
    (userId connection) = None ->
  let notFound :=
    mkWorld (db w) (wsConnections w)
      (calls w ++
         [ws_send (error (mkErrorData internal_error
                            (js "Agent state not found")));
          ws_close 4004 (js "Not Found")])
      (clock w) in
  handleUserMessage toISOString ws connection content w
    = (Returned tt, notFound) ∧
  (is_Some (getByIdForUser (db w) (projectId connection) (userId connection)) ->
   handleStartGeneration ws connection w = (Returned tt, notFound)) ∧
  db (snd (handleStartGeneration ws connection w)) = db w ∧
  AgentStatesRepository.getByProjectForUser
    (db (snd (handleStartGeneration ws connection w)))
    (projectId connection) (userId connection) = None ∧
  AgentStatesRepository.getByProjectForUser
    (db (snd (handleUserMessage toISOString ws connection content w)))
    (projectId connection) (userId connection) = None.
Proof.
  intros Hnone notFound.
  assert (handleUserMessage toISOString ws connection content w
          = (Returned tt, notFound)) as Huser.
  { unfold handleUserMessage, bind at 1, query at 1. rewrite Hnone.
    apply refuse_and_close. }
  assert (db (snd (handleStartGeneration ws connection w)) = db w) as Hdb.
  { unfold handleStartGeneration, bind at 1, query at 1.
    destruct (getByIdForUser _ _ _); [|by rewrite refuse_and_close].
    unfold bind at 1, query at 1. rewrite Hnone. by rewrite refuse_and_close. }
  split_and!; [done| |done| |].
  - intros [project Hproject].
    unfold handleStartGeneration, bind at 1, query at 1. rewrite Hproject.
    unfold bind at 1, query at 1. rewrite Hnone. apply refuse_and_close.
  - by rewrite Hdb.
  - by rewrite Huser.
Qed.

Lemma no_run_state_is_not_created_witness :
  handleUserMessage no_iso ws_owner connection_owner (js "hello")
    world_fresh_project
  = (Returned tt,
     mkWorld db_one_project ∅
       [ws_send (error (mkErrorData internal_error
                          (js "Agent state not found")));
        ws_close 4004 (js "Not Found")]
       5000).
Proof.
  destruct (no_run_state_is_not_created no_iso ws_owner connection_owner
              (js "hello") world_fresh_project) as [Huser _].
  - vm_compute. reflexivity.
  - exact Huser.
Defined.

(** C5 as stated fails on a fresh project: the first [start_generation] and
    the first [user_message] of its owner are answered with
    [internal_error] and close code 4004, and [agent_states] stays empty. *)
Lemma first_command_inserts_no_run_state :
  agent_states (db world_fresh_project) = [] ∧
  (let w' := snd (websocketLifecycle_message no_decode no_parse no_iso
                    ws_owner frame_start_generation world_fresh_project) in
   agent_states (db w') = [] ∧
   AgentStatesRepository.getByProjectForUser (db w') (js "project_1")
     (js "owner") = None ∧
   calls w' = [ws_send (error (mkErrorData internal_error
                                 (js "Agent state not found")));
               ws_close 4004 (js "Not Found")]) ∧
  (let w' := snd (websocketLifecycle_message no_decode no_parse no_iso
                    ws_owner frame_hello world_fresh_project) in
   agent_states (db w') = [] ∧
   AgentStatesRepository.getByProjectForUser (db w') (js "project_1")
     (js "owner") = None ∧
   calls w' = [ws_send (error (mkErrorData internal_error
                                 (js "Agent state not found")));
               ws_close 4004 (js "Not Found")]).
Proof. by vm_compute. Qed.

Lemma handleStopGeneration_generating (ws : ProjectWebSocket)
  (connection : ProjectWebSocketConnection) (w : World) (st : AgentState.t) :
  AgentStatesRepository.getByProjectForUser (db w) (projectId connection)
    (userId connection) = Some st ->
  AgentState.currentState st = js "generating" ->
  handleStopGeneration ws connection w =
    (Returned tt,
     mkWorld (merged (db w) (stopInput connection st) (clock w))
       (wsConnections w)
       (calls w ++
          [ws_send (state_update
                      (mkStateUpdateData (js "idle") None 0%nat
                         (orElse (AgentState.generatedFiles st) [])
                         (AgentState.previewUrl st)))])
       (clock w)).
Proof.
  intros Hget Hgen.
  destruct (upsertForProject_existing (db w) (stopInput connection st)
              (clock w) st Hget eq_refl) as [Hups _].
  unfold handleStopGeneration, bind at 1, query at 1. rewrite Hget.
  rewrite decide_False by (intros Hne; by apply Hne).
  unfold bind, statement. fold (stopInput connection st). rewrite Hups.
  unfold sendServerMessage. simpl. by destruct (AgentState.previewUrl st).
Qed.

(** C2, as the code has it: on a ["generating"] run state,
    [stop_generation] persists [currentState = "idle"], [currentPhase =
    null] and [phases = []], and leaves the persisted [generatedFiles],
    [previewUrl], [sandboxId] and [conversationHistory] as they were. *)
Theorem stop_generation_clears_phases_keeps_files (ws : ProjectWebSocket)
  (connection : ProjectWebSocketConnection) (w : World) (st : AgentState.t) :
  AgentStatesRepository.getByProjectForUser (db w) (projectId connection)
    (userId connection) = Some st ->
  AgentState.currentState st = js "generating" ->
  exists st',
    fst (handleStopGeneration ws connection w) = Returned tt ∧
    AgentStatesRepository.getByProjectForUser
      (db (snd (handleStopGeneration ws connection w)))
      (projectId connection) (userId connection) = Some st' ∧
    AgentState.currentState st' = js "idle" ∧
    AgentState.currentPhase st' = None ∧
    AgentState.phases st' = Some [] ∧
    AgentState.generatedFiles st' = AgentState.generatedFiles st ∧
    AgentState.previewUrl st' = AgentState.previewUrl st ∧
    AgentState.sandboxId st' = AgentState.sandboxId st ∧
    AgentState.conversationHistory st' = AgentState.conversationHistory st.
Proof.
  intros Hget Hgen.
  rewrite (handleStopGeneration_generating ws connection w st Hget Hgen).
  destruct (upsertForProject_existing (db w) (stopInput connection st)
              (clock w) st Hget eq_refl) as [_ Hafter].
  exists (AgentStatesRepository.mergeInto (stopInput connection st) (clock w) st).
  split_and!; done.
Qed.

Lemma stop_generation_clears_phases_keeps_files_witness :
  exists st',
    AgentStatesRepository.getByProjectForUser
      (db (snd (handleStopGeneration ws_owner connection_owner world_generating)))
      (js "project_1") (js "owner") = Some st' ∧
    AgentState.currentState st' = js "idle" ∧
    AgentState.phases st' = Some [] ∧
    AgentState.generatedFiles st' = Some [js "src/main.ts"; js "src/app.tsx"].
Proof.
  destruct (stop_generation_clears_phases_keeps_files ws_owner connection_owner
              world_generating state_generating)
    as (st' & _ & Hget & Hstate & _ & Hphases & Hfiles & _).
  - vm_compute. reflexivity.
  - vm_compute. reflexivity.
  - exists st'. split_and!; done.
Defined.

(** C2 as stated fails on the run of the contract test ("stops generation
    and preserves generated files, preview url and conversation history"):
    after [stop_generation] the persisted [generatedFiles] still lists the
    two files, and the persisted [phases], which held one phase, is empty. *)
Lemma stop_generation_keeps_files_drops_phases :
  AgentStatesRepository.getByProjectForUser (db world_generating)
    (js "project_1") (js "owner") = Some state_generating ∧
  AgentState.currentState state_generating = js "generating" ∧
  AgentState.phases state_generating = Some [phase_1] ∧
  let w' := snd (websocketLifecycle_message no_decode no_parse no_iso
                   ws_owner frame_stop_generation world_generating) in
  exists st',
    AgentStatesRepository.getByProjectForUser (db w') (js "project_1")
      (js "owner") = Some st' ∧
    AgentState.generatedFiles st' = Some [js "src/main.ts"; js "src/app.tsx"] ∧
    AgentState.generatedFiles st' ≠ Some [] ∧
    AgentState.phases st' = Some [] ∧
    AgentState.phases st' ≠ AgentState.phases state_generating ∧
    calls w' =
      [ws_send (state_update
                  (mkStateUpdateData (js "idle") None 0%nat
                     [js "src/main.ts"; js "src/app.tsx"]
                     (Some (js "http://localhost:5174"))))].
Proof.
  split_and!; try by vm_compute.
  eexists. split; [by vm_compute|]. split_and!; by vm_compute.
Qed.

(** ** [user_message]: what is stored *)

(** A socket whose registry entry, if it has one, is its own, and whose
    user owns the project, is authorized; nothing but the registry
    changes. *)
Lemma ensureAuthorizedConnection_owner (ws : ProjectWebSocket) (w : World) :
  (∀ c, wsConnections w !! ws_id ws = Some c -> c = ownConnection ws) ->
  is_Some (getByIdForUser (db w) (ws_projectId ws) (ws_userId ws)) ->
  exists registry,
    ensureAuthorizedConnection ws w =
      (Returned (Some (ownConnection ws)),
       mkWorld (db w) registry (calls w) (clock w)).
Proof.
  intros Hown [project Hproject]. unfold ensureAuthorizedConnection.
  destruct (wsConnections w !! ws_id ws) as [c|] eqn:Hc.
  - rewrite (Hown c eq_refl). exists (wsConnections w). by destruct w.
  - unfold bind, query. simpl. rewrite Hproject. by eexists.
Qed.

(** What [handleUserMessage] sends to the store is taken by the columns
    when the row it read fits them and the new message does. *)
Lemma userMessageInput_taken (connection : ProjectWebSocketConnection)
  (st : AgentState.t) (content timestamp : jsstring) :
  fitsColumns st ->
  jsonbStringRefusal content = None ->
  jsonbStringRefusal timestamp = None ->
  AgentStatesRepository.columnsRefuse
    (userMessageInput connection st content timestamp) = None.
Proof.
  unfold fitsColumns.
  rewrite firstRefusal_None, !Forall_cons, !firstRefusal_fmap_None.
  intros (Hphase & _ & _ & Hhistory & _) Hcontent Htimestamp.
  apply columnsRefuse_None. simpl. split_and!.
  - intros n Hn. rewrite Hn in Hphase. by apply integerRefusal_None.
  - apply Forall_nil_2.
  - apply Forall_nil_2.
  - apply Forall_app. split; [exact Hhistory|]. apply Forall_singleton.
    unfold messageRefusal. simpl. by rewrite Hcontent, Htimestamp.
Qed.

Lemma handleUserMessage_existing (toISOString : Date -> jsstring)
  (ws : ProjectWebSocket) (connection : ProjectWebSocketConnection)
  (content : jsstring) (w : World) (st : AgentState.t) :
  AgentStatesRepository.getByProjectForUser (db w) (projectId connection)
    (userId connection) = Some st ->
  AgentStatesRepository.columnsRefuse
    (userMessageInput connection st content (toISOString (clock w))) = None ->
  handleUserMessage toISOString ws connection content w =
    (Returned tt,
     mkWorld
       (merged (db w)
          (userMessageInput connection st content (toISOString (clock w)))
          (clock w))
       (wsConnections w)
       (calls w ++
          [ws_send (state_update
                      (mkStateUpdateData (AgentState.currentState st)
                         (AgentState.currentPhase st)
                         (length (orElse (AgentState.phases st) []))
                         (orElse (AgentState.generatedFiles st) [])
                         (AgentState.previewUrl st)))])
       (clock w)).
Proof.
  intros Hget Htaken.
  destruct (upsertForProject_existing (db w)
              (userMessageInput connection st content (toISOString (clock w)))
              (clock w) st Hget Htaken) as [Hups _].
  unfold handleUserMessage, bind at 1, query at 1. rewrite Hget.
  unfold bind, newDate, statement.
  fold (userMessageInput connection st content (toISOString (clock w))).
  rewrite Hups. unfold sendServerMessage. simpl.
  by destruct (AgentState.phases st), (AgentState.generatedFiles st),
    (AgentState.previewUrl st), (AgentState.currentPhase st).
Qed.

(** When the columns refuse what [handleUserMessage] sends, the handler
    throws what the statement threw, having written and sent nothing. *)
Lemma handleUserMessage_refused (toISOString : Date -> jsstring)
  (ws : ProjectWebSocket) (connection : ProjectWebSocketConnection)
  (content : jsstring) (w : World) (st : AgentState.t) (sqlstate : jsstring) :
  AgentStatesRepository.getByProjectForUser (db w) (projectId connection)
    (userId connection) = Some st ->
  AgentStatesRepository.columnsRefuse
    (userMessageInput connection st content (toISOString (clock w)))
    = Some sqlstate ->
  handleUserMessage toISOString ws connection content w
  = (Thrown (DrizzleQueryError (DatabaseError sqlstate)), w).
Proof.
  intros Hget Hrefused.
  destruct (getByProjectForUser_Some _ _ _ _ Hget) as (_ & _ & _ & Hacc & _).
  pose proof (upsertForProject_refused (db w)
                (userMessageInput connection st content (toISOString (clock w)))
                (clock w) sqlstate Hacc Hrefused) as Hups.
  unfold handleUserMessage, bind at 1, query at 1. rewrite Hget.
  unfold bind, newDate, statement.
  fold (userMessageInput connection st content (toISOString (clock w))).
  rewrite Hups. by destruct w.
Qed.

(** C10: for a valid [user_message] payload whose [content] is [s], the
    validated command carries [trim s], and the message that handling the
    frame on the owner's socket appends to the persisted
    [conversationHistory] is [{ role: "user", content: trim s, timestamp }].
    It is appended whenever the columns take it, that is when the row read
    fits its columns and neither [trim s] nor the timestamp holds a code unit
    that [jsonb] refuses; in every case the history afterwards is the old
    one with at most that message appended. *)
Theorem user_message_is_stored_trimmed
  (decode : list N -> jsstring) (JSON_parse : jsstring -> option JsValue)
  (toISOString : Date -> jsstring) (ws : ProjectWebSocket)
  (rawMessage : RawMessage) (envelope data : list (jsstring * JsValue))
  (s : jsstring) (w : World) (st : AgentState.t) :
  parseMessagePayload decode JSON_parse rawMessage = Some (JsObject envelope) ->
  getProperty envelope (js "type") = JsString (js "user_message") ->
  nullish (getProperty envelope (js "data")) (JsObject []) = JsObject data ->
  getProperty data (js "content") = JsString s ->
  trim s ≠ [] ->
  (∀ c, wsConnections w !! ws_id ws = Some c -> c = ownConnection ws) ->
  AgentStatesRepository.getByProjectForUser (db w) (ws_projectId ws)
    (ws_userId ws) = Some st ->
  let appended :=
    Some (orElse (AgentState.conversationHistory st) []
            ++ [mkMessage role_user (trim s) (toISOString (clock w))]) in
  let after :=
    snd (websocketLifecycle_message decode JSON_parse toISOString ws
           rawMessage w) in
  validateClientMessage decode JSON_parse rawMessage
    = ok (UserMessage (mkUserMessageData (trim s))) ∧
  fst (websocketLifecycle_message decode JSON_parse toISOString ws
         rawMessage w) = Returned tt ∧
  (fitsColumns st ->
   jsonbStringRefusal (trim s) = None ->
   jsonbStringRefusal (toISOString (clock w)) = None ->
   exists st',
     AgentStatesRepository.getByProjectForUser (db after) (ws_projectId ws)
       (ws_userId ws) = Some st' ∧
     AgentState.conversationHistory st' = appended) ∧
  (exists st',
     AgentStatesRepository.getByProjectForUser (db after) (ws_projectId ws)
       (ws_userId ws) = Some st' ∧
     (AgentState.conversationHistory st' = appended ∨
      st' = st ∧ db after = db w)).
Proof.
  intros Hparse Htype Hdata Hcontent Hne Hown Hget appended after.
  assert (validateClientMessage decode JSON_parse rawMessage
          = ok (UserMessage (mkUserMessageData (trim s)))) as Hvalid.
  { rewrite (validate_user_message _ _ _ _ Hparse Htype), Hdata. simpl.
    assert (userMessageDataSchema_safeParse data
            = Some (mkUserMessageData (trim s))) as ->
      by (apply safeParse_Some; eauto).
    done. }
  split; [done|].
  destruct (getByProjectForUser_Some _ _ _ _ Hget) as (_ & _ & _ & _ & Hproject).
  destruct (ensureAuthorizedConnection_owner ws w Hown Hproject)
    as [registry Hauth].
  set (w1 := mkWorld (db w) registry (calls w) (clock w)) in *.
  set (input := userMessageInput (ownConnection ws) st (trim s)
                  (toISOString (clock w))).
  assert (exists sent,
            websocketLifecycle_message decode JSON_parse toISOString ws
              rawMessage w =
            (Returned tt,
             mkWorld
               (match AgentStatesRepository.columnsRefuse input with
                | None => merged (db w) input (clock w)
                | Some _ => db w
                end)
               registry sent (clock w))) as [sent Hrun].
  { unfold websocketLifecycle_message, try_catch, bind.
    rewrite Hauth, Hvalid. simpl content.
    destruct (AgentStatesRepository.columnsRefuse input) as [sqlstate|] eqn:Hcol.
    - rewrite (handleUserMessage_refused toISOString ws (ownConnection ws)
                 (trim s) w1 st sqlstate Hget Hcol).
      unfold sendErrorMessage, sendServerMessage. by eexists.
    - rewrite (handleUserMessage_existing toISOString ws (ownConnection ws)
                 (trim s) w1 st Hget Hcol).
      by eexists. }
  assert (AgentStatesRepository.columnsRefuse input = None ->
          AgentStatesRepository.getByProjectForUser (db after) (ws_projectId ws)
            (ws_userId ws)
          = Some (AgentStatesRepository.mergeInto input (clock w) st))
    as Hstored.
  { intros Hcol.
    destruct (upsertForProject_existing (db w) input (clock w) st Hget Hcol)
      as [_ Hafter].
    unfold after. rewrite Hrun, Hcol. exact Hafter. }
  split; [by rewrite Hrun|]. split.
  - intros Hfits Hs Htimestamp.
    exists (AgentStatesRepository.mergeInto input (clock w) st).
    split; [|done]. apply Hstored. by apply userMessageInput_taken.
  - destruct (AgentStatesRepository.columnsRefuse input) as [sqlstate|] eqn:Hcol.
    + exists st. unfold after. rewrite Hrun. simpl. split; [done|].
      by right.
    + exists (AgentStatesRepository.mergeInto input (clock w) st).
      split; [by apply Hstored|]. by left.
Qed.

Lemma user_message_is_stored_trimmed_witness :
  validateClientMessage no_decode no_parse frame_hi
    = ok (UserMessage (mkUserMessageData (js "hi"))) ∧
  exists st',
    AgentStatesRepository.getByProjectForUser
      (db (snd (websocketLifecycle_message no_decode no_parse no_iso ws_owner
                  frame_hi world_generating)))
      (js "project_1") (js "owner") = Some st' ∧
    AgentState.conversationHistory st' =
      Some [mkMessage role_user (js "continue building")
              (js "2026-02-09T10:00:00.000Z");
            mkMessage role_user (js "hi") (js "2026-02-09T10:00:00.000Z")].
Proof.
  destruct (user_message_is_stored_trimmed no_decode no_parse no_iso ws_owner
              frame_hi
              [ (js "type", JsString (js "user_message"));
                (js "data", JsObject [(js "content", JsString (js "  hi  "))]) ]
              [(js "content", JsString (js "  hi  "))]
              (js "  hi  ") world_generating state_generating)
    as (Hvalid & _ & Hstored & _).
  - reflexivity.
  - vm_compute. reflexivity.
  - vm_compute. reflexivity.
  - vm_compute. reflexivity.
  - vm_compute. discriminate.
  - intros c Hc. vm_compute in Hc. discriminate.
  - vm_compute. reflexivity.
  - split; [exact Hvalid|].
    destruct Hstored as (st' & Hget & Hhistory).
    + vm_compute. reflexivity.
    + vm_compute. reflexivity.
    + vm_compute. reflexivity.
    + exists st'. split; [exact Hget | exact Hhistory].
Defined.

(** A content that [jsonb] refuses: the frame is valid and its content is
    already trimmed, but the statement of [handleUserMessage] throws, the
    [catch] of [message] answers [internal_error], and the stored history is
    the one from before. *)
Example user_message_with_nul_is_not_stored :
  validateClientMessage no_decode no_parse frame_nul
    = ok (UserMessage (mkUserMessageData [97; 0; 98])) ∧
  websocketLifecycle_message no_decode no_parse no_iso ws_owner frame_nul
    world_generating
  = (Returned tt,
     mkWorld db_generating {[ js "ws_1" := connection_owner ]}
       [ws_send (error (mkErrorData internal_error
                          (js "Failed to handle websocket message")))]
       5000).
Proof. by vm_compute. Qed.

(** The contract tests, run on the model. *)
Example contract_open_non_owner :
  websocketLifecycle_open
    (mkProjectWebSocket (js "ws_2") (js "project_1") (js "non_owner"))
    world_fresh_project
  = (Returned tt,
     mkWorld db_one_project ∅
       [ws_send (error (mkErrorData project_access_denied
                          (js "Project not found or not accessible for this user")));
        ws_close 4003 (js "Forbidden")]
       5000).
Proof. by vm_compute. Qed.

Example contract_open_owner :
  calls (snd (websocketLifecycle_open ws_owner world_fresh_project))
    = [ws_send (agent_connected (js "project_1"))] ∧
  wsConnections (snd (websocketLifecycle_open ws_owner world_fresh_project))
    !! js "ws_1" = Some connection_owner ∧
  wsConnections
    (snd (websocketLifecycle_close ws_owner
            (snd (websocketLifecycle_open ws_owner world_fresh_project))))
    !! js "ws_1" = None.
Proof. by vm_compute. Qed.

Example contract_start_generation :
  let idle :=
    AgentState.mk (js "state_1") (js "project_1") (js "idle") None (Some [])
      (Some (js "sandbox_1")) (Some (js "http://localhost:4174"))
      (Some [js "src/existing.ts"]) (Some []) 1000 1000 in
  let w :=
    mkWorld (mkDatabase [js "owner"] [owner_project] [] [idle]) ∅ [] 5000 in
  let w' := snd (websocketLifecycle_message no_decode no_parse no_iso ws_owner
                   frame_start_generation w) in
  calls w' =
    [ws_send (state_update
                (mkStateUpdateData (js "generating") (Some 0%Z) 0%nat []
                   (Some (js "http://localhost:4174"))))] ∧
  agent_states (db w') =
    [AgentState.mk (js "state_1") (js "project_1") (js "generating")
       (Some 0%Z) (Some []) (Some (js "sandbox_1"))
       (Some (js "http://localhost:4174")) (Some []) (Some []) 1000 5000].
Proof. by vm_compute. Qed.

Example contract_blank_user_message :
  calls (snd (websocketLifecycle_message no_decode no_parse no_iso ws_owner
                frame_blank world_fresh_project))
  = [ws_send (error (mkErrorData invalid_message_data
                       (dquote ++ js "user_message" ++ dquote
                          ++ js " requires data.content as a non-empty string")))].
Proof. by vm_compute. Qed.

(** A text frame that [JSON.parse] rejects. *)
Example contract_malformed_frame :
  calls (snd (websocketLifecycle_message no_decode no_parse no_iso ws_owner
                (RawValue (JsString (js "{ not-json"))) world_fresh_project))
  = [ws_send (error (mkErrorData invalid_message
       (js "WebSocket message must be valid JSON and follow the { type, data } shape")))].
Proof. by vm_compute. Qed.

(** ** Bulk upsert of project files *)

Lemma pf_canAccessProject_false (db : Database) (projectId userId : jsstring) :
  PF.canAccessProject db projectId userId = false <->
  filter (ownedBy projectId userId) (projects db) = [].
Proof.
  unfold PF.canAccessProject. rewrite bool_decide_eq_false.
  destruct (filter _ _); simpl; split; try done.
  intros []. by eexists.
Qed.

Lemma pf_canAccessProject_true (db : Database) (projectId userId : jsstring) :
  PF.canAccessProject db projectId userId = true <->
  filter (ownedBy projectId userId) (projects db) ≠ [].
Proof.
  rewrite <- not_false_iff_true, pf_canAccessProject_false. done.
Qed.

Lemma fmap_update_where_key {A B : Type} (key : A -> B) (P : A -> Prop)
  `{∀ x, Decision (P x)} (f : A -> A) (l : list A) :
  (∀ x, key (f x) = key x) ->
  key <$> ((λ x, if decide (P x) then f x else x) <$> l) = key <$> l.
Proof.
  intros Hkey. induction l as [|x l IH]; [done|].
  rewrite !fmap_cons, IH. f_equal. by destruct (decide (P x)).
Qed.

(** The statement never touches [projects] or [user], and the ids it leaves
    in [project_files] are the old ones and at most the input's. *)
Lemma pf_insert_frame (db db' : Database) (file : UpsertProjectFileInput)
  (now : Date) (r : Result (list ProjectFile.t)) :
  PF.insertOnConflictDoUpdate db file now = (r, db') ->
  projects db' = projects db ∧
  (∀ i, i ∈ ProjectFile.id <$> projectFiles db' ->
        i ∈ ProjectFile.id <$> projectFiles db ∨ i = uf_id file).
Proof.
  unfold PF.insertOnConflictDoUpdate.
  destruct (filter _ _) as [|c cs].
  - repeat case_decide; intros [= <- <-]; (split; [done|]); auto.
    intros i. cbn [projectFiles].
    rewrite fmap_app, elem_of_app, fmap_cons, list_elem_of_singleton. tauto.
  - intros [= <- <-]. split; [done|]. simpl. intros i.
    rewrite fmap_update_where_key by done. auto.
Qed.

(** What the statement answers: at least one row, or a violation of the
    primary key when the project exists. *)
Lemma pf_insert_answers (db db' : Database) (file : UpsertProjectFileInput)
  (now : Date) (r : Result (list ProjectFile.t)) :
  PF.insertOnConflictDoUpdate db file now = (r, db') ->
  uf_projectId file ∈ Project.id <$> projects db ->
  (exists rows, r = Returned rows ∧ (0 < length rows)%nat) ∨
  (r = Thrown unique_violation ∧ db' = db ∧
   uf_id file ∈ ProjectFile.id <$> projectFiles db).
Proof.
  unfold PF.insertOnConflictDoUpdate. intros Hins Hproject.
  destruct (filter _ _) as [|c cs].
  - repeat case_decide; injection Hins as <- <-; try done.
    + by right.
    + left. eexists. split; [done|]. simpl. lia.
  - injection Hins as <- <-. left. eexists. split; [done|]. simpl. lia.
Qed.

Lemma owned_project_exists (db : Database) (projectId userId : jsstring) :
  filter (ownedBy projectId userId) (projects db) ≠ [] ->
  projectId ∈ Project.id <$> projects db.
Proof.
  destruct (filter _ _) as [|p l] eqn:Hf; [done|]. intros _.
  assert (p ∈ filter (ownedBy projectId userId) (projects db)) as Hp
    by (rewrite Hf; left).
  apply list_elem_of_filter in Hp as [[<- _] Hp].
  by apply list_elem_of_fmap_2.
Qed.

(** An input whose project is not its user's is passed over by the loop. *)
Lemma upsertManyLoop_skips (foreign : UpsertProjectFileInput)
  (pre post : list UpsertProjectFileInput) (now : Date) :
  ∀ (tx : Database) (changedRows : nat),
    filter (ownedBy (uf_projectId foreign) (uf_userId foreign)) (projects tx) = [] ->
    PF.upsertManyLoop tx (pre ++ foreign :: post) now changedRows
    = PF.upsertManyLoop tx (pre ++ post) now changedRows.
Proof.
  induction pre as [|file pre IH]; intros tx n Hforeign; simpl.
  - by rewrite Hforeign.
  - destruct (filter (ownedBy (uf_projectId file) (uf_userId file))
                (projects tx)) as [|p ps]; [by apply IH|].
    destruct (PF.insertOnConflictDoUpdate tx file now) as [[rows|e] tx'] eqn:Hins;
      [|done].
    apply IH. apply pf_insert_frame in Hins as [-> _]. done.
Qed.

(** When the loop returns, it has counted every input whose project is its
    user's; when it throws, it is the primary key that was violated. *)
Lemma upsertManyLoop_outcome (input : list UpsertProjectFileInput) (now : Date) :
  ∀ (tx tx' : Database) (changedRows : nat) (r : Result nat),
    PF.upsertManyLoop tx input now changedRows = (r, tx') ->
    projects tx' = projects tx ∧
    match r with
    | Returned n =>
        Forall (λ f, PF.canAccessProject tx (uf_projectId f) (uf_userId f) = true)
          input ->
        n = (changedRows + length input)%nat
    | Thrown e => e = unique_violation
    end.
Proof.
  induction input as [|file input IH]; intros tx tx' n r; simpl.
  - intros [= <- <-]. split; [done|]. intros _. lia.
  - destruct (filter _ (projects tx)) as [|p ps] eqn:Hown.
    + intros Hloop. destruct (IH _ _ _ _ Hloop) as [Hprojects Hr].
      split; [done|]. destruct r; [|done].
      intros [Hacc _]%Forall_cons. apply pf_canAccessProject_true in Hacc.
      by rewrite Hown in Hacc.
    + destruct (PF.insertOnConflictDoUpdate tx file now) as [[rows|e] tx1] eqn:Hins.
      * destruct (pf_insert_frame _ _ _ _ _ Hins) as [Hprojects1 _].
        destruct (pf_insert_answers _ _ _ _ _ Hins) as [(rows' & [= <-] & Hlen)|[? _]];
          [eapply owned_project_exists; by rewrite Hown | | done].
        rewrite bool_decide_eq_true_2 by done.
        intros Hloop. destruct (IH _ _ _ _ Hloop) as [Hprojects Hr].
        split; [congruence|]. destruct r; [|done].
        intros [_ Hrest]%Forall_cons. rewrite Hr; [simpl; lia|].
        eapply Forall_impl; [exact Hrest|]. intros f.
        unfold PF.canAccessProject. by rewrite Hprojects1.
      * intros [= <- <-].
        destruct (pf_insert_frame _ _ _ _ _ Hins) as [Hprojects1 _].
        split; [done|].
        destruct (pf_insert_answers _ _ _ _ _ Hins) as [(rows' & [=] & _)|[[= ->] _]];
          [eapply owned_project_exists; by rewrite Hown | done].
Qed.

(** With ids that are pairwise distinct and not in the table yet, no insert
    meets the primary key, and the loop returns. *)
Lemma upsertManyLoop_returns (input : list UpsertProjectFileInput) (now : Date) :
  ∀ (tx : Database) (changedRows : nat),
    NoDup (uf_id <$> input) ->
    (∀ f, f ∈ input -> uf_id f ∉ ProjectFile.id <$> projectFiles tx) ->
    exists n tx', PF.upsertManyLoop tx input now changedRows = (Returned n, tx').
Proof.
  induction input as [|file input IH]; intros tx n Hnd Hfresh; simpl.
  - by eexists _, _.
  - rewrite fmap_cons in Hnd. apply NoDup_cons in Hnd as [Hfile Hnd].
    assert (∀ f, f ∈ input -> uf_id f ∉ ProjectFile.id <$> projectFiles tx)
      as Hrest by (intros f Hf; apply Hfresh; by right).
    destruct (filter _ (projects tx)) as [|p ps] eqn:Hown; [by apply IH|].
    destruct (PF.insertOnConflictDoUpdate tx file now) as [r tx1] eqn:Hins.
    destruct (pf_insert_frame _ _ _ _ _ Hins) as [_ Hids].
    destruct (pf_insert_answers _ _ _ _ _ Hins)
      as [(rows & -> & _)|(_ & _ & Htaken)];
      [eapply owned_project_exists; by rewrite Hown | |].
    + apply IH; [done|]. intros f Hf [Hold| Heq]%Hids.
      * by apply (Hrest f).
      * apply Hfile. rewrite <- Heq. by apply list_elem_of_fmap_2.
    + exfalso. apply (Hfresh file); [left | done].
Qed.

Lemma filter_update_elsewhere {A : Type} (P Q : A -> Prop)
  `{∀ x, Decision (P x)} `{∀ x, Decision (Q x)} (f : A -> A) (l : list A) :
  (∀ x, P x -> ¬ Q x ∧ ¬ Q (f x)) ->
  filter Q ((λ x, if decide (P x) then f x else x) <$> l) = filter Q l.
Proof.
  intros Hapart. induction l as [|x l IH]; [done|].
  rewrite fmap_cons, !filter_cons, IH.
  destruct (decide (P x)) as [HP|HP]; [|done].
  destruct (Hapart x HP) as [HQ HQf].
  by rewrite !decide_False by done.
Qed.

(** The statement leaves alone the rows kept under another (projectId,
    path). *)
Lemma pf_insert_other_key (db db' : Database)
  (file key : UpsertProjectFileInput) (now : Date)
  (r : Result (list ProjectFile.t)) :
  PF.insertOnConflictDoUpdate db file now = (r, db') ->
  ¬ (uf_projectId file = uf_projectId key ∧ uf_path file = uf_path key) ->
  filter (PF.targets key) (projectFiles db')
  = filter (PF.targets key) (projectFiles db).
Proof.
  unfold PF.insertOnConflictDoUpdate. intros Hins Hother.
  destruct (filter (PF.targets file) _) as [|c cs].
  - repeat case_decide; injection Hins as <- <-; try done.
    cbn [projectFiles]. rewrite filter_app, filter_cons_False, filter_nil.
    + by rewrite app_nil_r.
    + unfold PF.targets. simpl. tauto.
  - injection Hins as <- <-. cbn [projectFiles].
    apply filter_update_elsewhere.
    unfold PF.targets. simpl. intros x [Hp Hq]. rewrite Hp, Hq. tauto.
Qed.

Lemma upsertManyLoop_other_key (key : UpsertProjectFileInput)
  (input : list UpsertProjectFileInput) (now : Date) :
  ∀ (tx tx' : Database) (changedRows : nat) (r : Result nat),
    Forall (λ f, ¬ (uf_projectId f = uf_projectId key ∧
                    uf_path f = uf_path key)) input ->
    PF.upsertManyLoop tx input now changedRows = (r, tx') ->
    filter (PF.targets key) (projectFiles tx')
    = filter (PF.targets key) (projectFiles tx).
Proof.
  induction input as [|file input IH]; intros tx tx' n r Hother; simpl.
  - by intros [= <- <-].
  - apply Forall_cons in Hother as [Hfile Hother].
    destruct (filter _ (projects tx)) as [|p ps]; [by apply IH|].
    destruct (PF.insertOnConflictDoUpdate tx file now) as [[rows|e] tx1] eqn:Hins.
    + intros Hloop. rewrite (IH _ _ _ _ Hother Hloop).
      by eapply pf_insert_other_key.
    + intros [= <- <-]. by eapply pf_insert_other_key.
Qed.

(** The statement removes no row: an id in the table stays in the table. *)
Lemma pf_insert_keeps_ids (db db' : Database) (file : UpsertProjectFileInput)
  (now : Date) (r : Result (list ProjectFile.t)) :
  PF.insertOnConflictDoUpdate db file now = (r, db') ->
  ∀ i, i ∈ ProjectFile.id <$> projectFiles db ->
       i ∈ ProjectFile.id <$> projectFiles db'.
Proof.
  unfold PF.insertOnConflictDoUpdate.
  destruct (filter _ _) as [|c cs].
  - repeat case_decide; intros [= <- <-] i Hi; try done.
    cbn [projectFiles]. rewrite fmap_app, elem_of_app. by left.
  - intros [= <- <-] i Hi. cbn [projectFiles].
    by rewrite fmap_update_where_key.
Qed.

(** An input of its user's project whose id is in the table while no row is
    kept under its (projectId, path), and which no earlier input writes to,
    ends the loop: its insert meets the primary key, unless an earlier
    insert did. *)
Lemma upsertManyLoop_taken_id (file : UpsertProjectFileInput)
  (before rest : list UpsertProjectFileInput) (now : Date) :
  ∀ (tx : Database) (changedRows : nat),
    filter (ownedBy (uf_projectId file) (uf_userId file)) (projects tx) ≠ [] ->
    uf_id file ∈ ProjectFile.id <$> projectFiles tx ->
    filter (PF.targets file) (projectFiles tx) = [] ->
    Forall (λ f, ¬ (uf_projectId f = uf_projectId file ∧
                    uf_path f = uf_path file)) before ->
    exists tx',
      PF.upsertManyLoop tx (before ++ file :: rest) now changedRows
      = (Thrown unique_violation, tx').
Proof.
  induction before as [|g before IH]; intros tx n Hown Htaken Hnew Hother; simpl.
  - destruct (filter (ownedBy _ _) (projects tx)) as [|p ps]; [done|].
    unfold PF.insertOnConflictDoUpdate. rewrite Hnew.
    rewrite decide_True by done. by eexists.
  - apply Forall_cons in Hother as [Hg Hother].
    destruct (filter (ownedBy (uf_projectId g) (uf_userId g)) (projects tx))
      as [|p ps] eqn:Hgown; [by apply IH|].
    destruct (PF.insertOnConflictDoUpdate tx g now) as [[rows|e] tx1] eqn:Hins.
    + destruct (pf_insert_frame _ _ _ _ _ Hins) as [Hprojects _].
      apply IH; [by rewrite Hprojects | by eapply pf_insert_keeps_ids | | done].
      by rewrite (pf_insert_other_key _ _ _ file _ _ Hins).
    + destruct (pf_insert_answers _ _ _ _ _ Hins)
        as [(rows & [=] & _)|([= ->] & _)];
        [eapply owned_project_exists; by rewrite Hgown | by eexists].
Qed.

Lemma upsertMany_transaction (db : Database)
  (input : list UpsertProjectFileInput) (now : Date) :
  PF.upsertMany db input now
  = PF.transaction db (λ tx, PF.upsertManyLoop tx input now 0).
Proof.
  unfold PF.upsertMany. case_bool_decide as Hlen; [|done].
  by destruct input.
Qed.

(** C7, as the code has it.  In a batch where one input names a project
    that is not its user's and every other input names a project of its
    user, the foreign input is passed over:
    - the batch gives the result and the store that the batch without it
      gives;
    - when [upsertMany] returns, it returns N-1;
    - when it throws, the store refused an insert on the primary key, what
      is thrown is what the statement threw, and the transaction leaves the
      store as it was;
    - it returns when the other inputs' ids are pairwise distinct and not in
      the table yet;
    - it throws when the id of one of the other inputs is in the table
      while no row is kept under that input's (projectId, path) and no
      earlier input of the batch names that pair;
    - the rows under the foreign input's (projectId, path) are as before,
      provided no other input of the batch names that same pair. *)
Theorem upsertMany_skips_foreign_input (db : Database)
  (pre post : list UpsertProjectFileInput) (foreign : UpsertProjectFileInput)
  (now : Date) :
  PF.canAccessProject db (uf_projectId foreign) (uf_userId foreign) = false ->
  Forall (λ f, PF.canAccessProject db (uf_projectId f) (uf_userId f) = true)
    (pre ++ post) ->
  let input := pre ++ foreign :: post in
  PF.upsertMany db input now = PF.upsertMany db (pre ++ post) now ∧
  (∀ n db', PF.upsertMany db input now = (Returned n, db') ->
            n = (length input - 1)%nat) ∧
  (∀ e db', PF.upsertMany db input now = (Thrown e, db') ->
            e = DrizzleQueryError (DatabaseError (js "23505")) ∧ db' = db) ∧
  (NoDup (uf_id <$> pre ++ post) ->
   (∀ f, f ∈ pre ++ post -> uf_id f ∉ ProjectFile.id <$> projectFiles db) ->
   exists db', PF.upsertMany db input now
               = (Returned (length input - 1)%nat, db')) ∧
  (∀ before file rest,
     pre ++ post = before ++ file :: rest ->
     uf_id file ∈ ProjectFile.id <$> projectFiles db ->
     filter (PF.targets file) (projectFiles db) = [] ->
     Forall (λ f, ¬ (uf_projectId f = uf_projectId file ∧
                     uf_path f = uf_path file)) before ->
     PF.upsertMany db input now
     = (Thrown (DrizzleQueryError (DatabaseError (js "23505"))), db)) ∧
  (Forall (λ f, ¬ (uf_projectId f = uf_projectId foreign ∧
                   uf_path f = uf_path foreign)) (pre ++ post) ->
   ∀ r db', PF.upsertMany db input now = (r, db') ->
            filter (PF.targets foreign) (projectFiles db')
            = filter (PF.targets foreign) (projectFiles db)).
Proof.
  intros Hforeign%pf_canAccessProject_false Howned input.
  assert (PF.upsertMany db input now = PF.upsertMany db (pre ++ post) now)
    as Hsame.
  { rewrite !upsertMany_transaction. unfold PF.transaction, input.
    by rewrite upsertManyLoop_skips. }
  assert (length input - 1 = length (pre ++ post))%nat as Hlen.
  { unfold input. rewrite !length_app. simpl. lia. }
  split; [done|]. rewrite Hsame, Hlen, upsertMany_transaction.
  unfold PF.transaction.
  destruct (PF.upsertManyLoop db (pre ++ post) now 0) as [[n|e] tx'] eqn:Hloop.
  - destruct (upsertManyLoop_outcome _ _ _ _ _ _ Hloop) as [_ Hcount].
    specialize (Hcount Howned). simpl in Hcount. subst n.
    split_and!.
    + by intros n db' [= <- <-].
    + by intros e db' [=].
    + intros _ _. by eexists.
    + intros before file rest Hsplit Htaken Hnew Hother. exfalso.
      destruct (upsertManyLoop_taken_id file before rest now db 0%nat)
        as [tx1 Hthrows]; try done.
      * apply pf_canAccessProject_true.
        eapply (proj1 (Forall_forall _ _) Howned).
        rewrite Hsplit, elem_of_app. right. left.
      * rewrite <- Hsplit in Hthrows. congruence.
    + intros Hother r db' [= <- <-].
      by eapply upsertManyLoop_other_key.
  - destruct (upsertManyLoop_outcome _ _ _ _ _ _ Hloop) as [_ ->].
    split_and!.
    + by intros n db' [=].
    + by intros e' db' [= <- <-].
    + intros Hnd Hfresh.
      destruct (upsertManyLoop_returns (pre ++ post) now db 0%nat Hnd Hfresh)
        as (n & tx1 & Hret). congruence.
    + done.
    + by intros _ r db' [= <- <-].
Qed.

Lemma upsertMany_skips_foreign_input_witness :
  exists db',
    PF.upsertMany db_two_projects [file_a; file_foreign; file_b] 2000
      = (Returned 2%nat, db') ∧
    filter (PF.targets file_foreign) (projectFiles db') = [].
Proof.
  destruct (upsertMany_skips_foreign_input db_two_projects [file_a] [file_b]
              file_foreign 2000) as (_ & _ & _ & Hreturns & _ & Hrow).
  - vm_compute. reflexivity.
  - apply (bool_decide_unpack _). vm_compute. reflexivity.
  - destruct Hreturns as [db' Hrun].
    + apply (bool_decide_unpack _). vm_compute. reflexivity.
    + intros f Hf. simpl. apply not_elem_of_nil.
    + exists db'. split; [exact Hrun|].
      rewrite (Hrow ltac:(apply (bool_decide_unpack _); vm_compute; reflexivity)
                 _ _ Hrun).
      reflexivity.
Defined.

(** C7 as stated fails on a batch of three inputs, one of them foreign,
    whose two owned inputs carry the same id for different paths: the second
    insert violates the primary key, [upsertMany] throws instead of
    returning 2, and the transaction leaves nothing written. *)
Lemma upsertMany_duplicate_id_aborts_batch :
  PF.canAccessProject db_two_projects (uf_projectId file_foreign)
    (uf_userId file_foreign) = false ∧
  Forall (λ f, PF.canAccessProject db_two_projects (uf_projectId f)
                 (uf_userId f) = true) [file_a; file_a_again] ∧
  PF.upsertMany db_two_projects [file_a; file_a_again; file_foreign] 2000
    = (Thrown (DrizzleQueryError (DatabaseError (js "23505"))),
       db_two_projects) ∧
  (∀ db', PF.upsertMany db_two_projects [file_a; file_a_again; file_foreign] 2000
          ≠ (Returned 2%nat, db')).
Proof.
  split_and!.
  - by vm_compute.
  - apply (bool_decide_unpack _). by vm_compute.
  - by vm_compute.
  - intros db'. vm_compute. discriminate.
Qed.

(** The repository tests: three owned inputs, two of them for one path,
    change three rows and leave two; a batch of one foreign input changes
    none. *)
Example upsertMany_bulk_semantics :
  let '(r, db') :=
    PF.upsertMany db_two_projects
      [file_a; file_b;
       mkUpsertProjectFileInput (js "file_c") (js "project_1") (js "src/a.ts")
         (js "a2") (js "owner")] 2000 in
  r = Returned 3%nat ∧
  projectFiles db' =
    [ProjectFile.mk (js "file_a") (js "project_1") (js "src/a.ts") (js "a2")
       2000 2000;
     ProjectFile.mk (js "file_b") (js "project_1") (js "src/b.ts") (js "b1")
       2000 2000] ∧
  PF.upsertMany db_two_projects [file_foreign] 2000
    = (Returned 0%nat, db_two_projects).
Proof. by vm_compute. Qed.

(** An id that is in the table under another path makes the insert throw
    only where the input's own path is new: on a path the project already
    has, the conflict clause updates that row, and the id of the input is
    not used. *)
Example upsertMany_taken_id_on_stored_path :
  let db :=
    mkDatabase [js "owner"; js "non_owner"] [owner_project; stranger_project]
      [ row_a;
        ProjectFile.mk (js "file_b") (js "project_1") (js "src/b.ts") (js "b0")
          1000 1000 ] [] in
  PF.upsertMany db [file_a_again; file_foreign] 2000
  = (Returned 1%nat,
     mkDatabase [js "owner"; js "non_owner"] [owner_project; stranger_project]
       [ row_a;
         ProjectFile.mk (js "file_b") (js "project_1") (js "src/b.ts") (js "b1")
           1000 2000 ] []) ∧
  PF.upsertMany db_with_file [file_a_again; file_foreign] 2000
  = (Thrown (DrizzleQueryError (DatabaseError (js "23505"))), db_with_file).
Proof. by vm_compute. Qed.


(** ** The schema's uniqueness constraints are kept by every write *)

Lemma NoDup_fmap_filter {A B : Type} (key : A -> B) (P : A -> Prop)
  `{∀ x, Decision (P x)} (l : list A) :
  NoDup (key <$> l) -> NoDup (key <$> filter P l).
Proof.
  induction l as [|x l IH]; [done|].
  rewrite fmap_cons, NoDup_cons, filter_cons. intros [Hx Hnd].
  destruct (decide (P x)); [|by apply IH].
  rewrite fmap_cons, NoDup_cons. split; [|by apply IH].
  intros (y & Hy & [_ Hin]%list_elem_of_filter)%list_elem_of_fmap.
  apply Hx. rewrite Hy. by apply list_elem_of_fmap_2.
Qed.

Lemma NoDup_fmap_snoc {A B : Type} (key : A -> B) (l : list A) (x : A) :
  NoDup (key <$> l) -> key x ∉ key <$> l -> NoDup (key <$> l ++ [x]).
Proof.
  intros Hnd Hx. rewrite fmap_app, NoDup_app. split_and!; [done| |].
  - intros k Hk [->|[]%elem_of_nil]%elem_of_cons. done.
  - apply NoDup_singleton.
Qed.

Lemma create_keeps_keys_unique (db db' : Database)
  (input : CreateProjectInput) (now : Date) (r : Result Project.t) :
  keys_unique db -> create db input now = (r, db') -> keys_unique db'.
Proof.
  intros [] Hcreate. unfold create in Hcreate.
  repeat case_decide; injection Hcreate as <- <-; try done.
  split; try done. cbn [projects]. by apply NoDup_fmap_snoc.
Qed.

Lemma updateForUser_keeps_keys_unique (db db' : Database)
  (projectId userId : jsstring) (patch : ProjectUpdatePatch) (now : Date)
  (r : Result (option Project.t)) :
  keys_unique db -> updateForUser db projectId userId patch now = (r, db') ->
  keys_unique db'.
Proof.
  intros [] Hupdate. unfold updateForUser in Hupdate.
  destruct (patchIsEmpty patch); [by injection Hupdate as <- <-|].
  destruct (setsNothing patch); injection Hupdate as <- <-; [done|].
  split; try done. cbn [projects]. by rewrite fmap_update_where_key.
Qed.

Lemma deleteForUser_keeps_keys_unique (db db' : Database)
  (projectId userId : jsstring) (r : bool) :
  keys_unique db -> deleteForUser db projectId userId = (r, db') ->
  keys_unique db'.
Proof.
  intros [] [= <- <-]. split; cbn [projects projectFiles agent_states];
    by apply NoDup_fmap_filter.
Qed.

Lemma pf_insert_keeps_keys_unique (db db' : Database)
  (file : UpsertProjectFileInput) (now : Date)
  (r : Result (list ProjectFile.t)) :
  keys_unique db -> PF.insertOnConflictDoUpdate db file now = (r, db') ->
  keys_unique db'.
Proof.
  intros [] Hins. unfold PF.insertOnConflictDoUpdate in Hins.
  destruct (filter (PF.targets file) (projectFiles db)) as [|c cs] eqn:Hnone.
  - repeat case_decide; injection Hins as <- <-; try done.
    split; try done; cbn [projectFiles]; apply NoDup_fmap_snoc; try done.
    intros (f & [= Hp Hq] & Hf)%list_elem_of_fmap.
    eapply (filter_nil_not_elem_of _ _ f Hnone); [|done].
    by split.
  - injection Hins as <- <-.
    split; try done; cbn [projectFiles]; by rewrite fmap_update_where_key.
Qed.

Lemma upsertFile_keeps_keys_unique (db db' : Database)
  (input : UpsertProjectFileInput) (now : Date)
  (r : Result (option ProjectFile.t)) :
  keys_unique db -> PF.upsertFile db input now = (r, db') -> keys_unique db'.
Proof.
  intros Hdb. unfold PF.upsertFile.
  destruct (negb _); [by intros [= <- <-]|].
  destruct (PF.insertOnConflictDoUpdate db input now) as [[rows|e] db1] eqn:Hins;
    [|destruct (isDatabaseUniqueViolation e)]; intros [= <- <-];
    by eapply pf_insert_keeps_keys_unique.
Qed.

Lemma upsertMany_keeps_keys_unique (db db' : Database)
  (input : list UpsertProjectFileInput) (now : Date) (r : Result nat) :
  keys_unique db -> PF.upsertMany db input now = (r, db') -> keys_unique db'.
Proof.
  rewrite upsertMany_transaction. unfold PF.transaction. intros Hdb.
  assert (∀ tx tx' n r', keys_unique tx ->
            PF.upsertManyLoop tx input now n = (r', tx') -> keys_unique tx')
    as Hloop.
  { clear. induction input as [|file input IH]; intros tx tx' n r' Htx; simpl.
    - by intros [= <- <-].
    - destruct (filter _ (projects tx)); [by apply IH|].
      destruct (PF.insertOnConflictDoUpdate tx file now) as [[rows|e] tx1] eqn:Hins.
      + apply IH. by eapply pf_insert_keeps_keys_unique.
      + intros [= <- <-]. by eapply pf_insert_keeps_keys_unique. }
  destruct (PF.upsertManyLoop db input now 0) as [[n|e] tx'] eqn:Hrun;
    intros [= <- <-]; [by eapply Hloop | done].
Qed.

Lemma upsertForProject_keeps_keys_unique (db db' : Database)
  (input : UpsertAgentStateInput) (now : Date)
  (r : Result (option AgentState.t)) :
  keys_unique db -> AgentStatesRepository.upsertForProject db input now = (r, db') ->
  keys_unique db'.
Proof.
  intros [] Hups. unfold AgentStatesRepository.upsertForProject,
    AgentStatesRepository.insertOnConflictDoUpdate in Hups.
  destruct (negb _); [by injection Hups as <- <-|].
  destruct (AgentStatesRepository.columnsRefuse input);
    [by injection Hups as <- <-|].
  destruct (filter _ (agent_states db)) as [|c cs] eqn:Hnone.
  - repeat case_decide; injection Hups as <- <-; try done.
    split; try done; cbn [agent_states]; apply NoDup_fmap_snoc; try done.
    intros (s & Hs & Hin)%list_elem_of_fmap.
    by eapply (filter_nil_not_elem_of _ _ s Hnone).
  - injection Hups as <- <-.
    split; try done; cbn [agent_states]; by rewrite fmap_update_where_key.
Qed.

Lemma resetForProject_keeps_keys_unique (db db' : Database)
  (input : ResetAgentStateInput) (r : bool) :
  keys_unique db -> AgentStatesRepository.resetForProject db input = (r, db') ->
  keys_unique db'.
Proof.
  intros [] [= <- <-]. split; try done; cbn [agent_states];
    by apply NoDup_fmap_filter.
Qed.

Example stores_keys_unique :
  keys_unique db_one_project ∧ keys_unique db_two_projects ∧
  keys_unique db_generating.
Proof.
  split_and!; split; apply (bool_decide_unpack _); by vm_compute.
Qed.

(** * Further properties of the code *)

(** ** The command validator, beyond [user_message] *)

(** X1: a frame that parsed to an object whose [type] names one of the four
    control commands is accepted exactly when its [data], taken as [{}] when
    absent or [null], is a plain object; the command then carries that
    object untouched, and a [data] of any other shape is refused with an
    error whose [code] is [invalid_message_data]. *)
Theorem control_message_carries_data
  (decode : list N -> jsstring) (JSON_parse : jsstring -> option JsValue)
  (rawMessage : RawMessage) (envelope : list (jsstring * JsValue))
  (t : ControlMessageType) :
  parseMessagePayload decode JSON_parse rawMessage = Some (JsObject envelope) ->
  getProperty envelope (js "type") = JsString (controlTypeName t) ->
  (∀ data, nullish (getProperty envelope (js "data")) (JsObject [])
           = JsObject data ->
     validateClientMessage decode JSON_parse rawMessage
     = ok (ControlMessage t data)) ∧
  ((getProperty envelope (js "data") = JsUndefined ∨
    getProperty envelope (js "data") = JsNull) ->
   validateClientMessage decode JSON_parse rawMessage
   = ok (ControlMessage t [])) ∧
  ((∀ data, nullish (getProperty envelope (js "data")) (JsObject [])
            ≠ JsObject data) ->
   exists e,
     validateClientMessage decode JSON_parse rawMessage = not_ok e ∧
     code e = invalid_message_data ∧
     message e = js "WebSocket message " ++ dquote ++ js "data" ++ dquote
                   ++ js " must be an object").
Proof.
  intros Hparse Htype.
  assert (∀ data, nullish (getProperty envelope (js "data")) (JsObject [])
                  = JsObject data ->
            validateClientMessage decode JSON_parse rawMessage
            = ok (ControlMessage t data)) as Hobject.
  { intros data Hdata. unfold validateClientMessage.
    rewrite Hparse. simpl. rewrite Htype, Hdata. by destruct t. }
  split_and!; [done| |].
  - intros [Habsent|Habsent]; apply Hobject; by rewrite Habsent.
  - intros Hshape. unfold validateClientMessage.
    rewrite Hparse. simpl. rewrite Htype.
    destruct (nullish _ _) eqn:Hdata;
      try (destruct t; eexists; split_and!; reflexivity).
    by destruct (Hshape fields).
Qed.

Lemma control_message_carries_data_witness :
  validateClientMessage no_decode no_parse frame_start_generation
  = ok (ControlMessage start_generation []) ∧
  validateClientMessage no_decode no_parse
    (RawValue (JsObject [(js "type", JsString (js "get_state"))]))
  = ok (ControlMessage get_state []).
Proof.
  split.
  - destruct (control_message_carries_data no_decode no_parse
                frame_start_generation _ start_generation eq_refl eq_refl)
      as (Hobject & _ & _).
    apply Hobject. reflexivity.
  - destruct (control_message_carries_data no_decode no_parse
                (RawValue (JsObject [(js "type", JsString (js "get_state"))]))
                _ get_state eq_refl eq_refl) as (_ & Habsent & _).
    apply Habsent. left. reflexivity.
Defined.

(** A frame that does not parse, or that parses to anything but a plain
    object ([null], an array, a number, a string, a boolean), is refused
    with [invalid_message]; and a binary frame is validated as the text it
    decodes to. *)
Lemma malformed_frame_is_invalid_message
  (decode : list N -> jsstring) (JSON_parse : jsstring -> option JsValue) :
  (∀ rawMessage,
     parseMessagePayload decode JSON_parse rawMessage = None ->
     validateClientMessage decode JSON_parse rawMessage
     = toError invalid_message
         (js "WebSocket message must be valid JSON and follow the { type, data } shape")) ∧
  (∀ rawMessage payload,
     parseMessagePayload decode JSON_parse rawMessage = Some payload ->
     (∀ fields, payload ≠ JsObject fields) ->
     validateClientMessage decode JSON_parse rawMessage
     = toError invalid_message
         (js "WebSocket message must be an object with a string type field")) ∧
  (∀ bytes,
     validateClientMessage decode JSON_parse (RawBinary bytes)
     = validateClientMessage decode JSON_parse
         (RawValue (JsString (decode bytes)))).
Proof.
  split_and!.
  - intros rawMessage Hparse. unfold validateClientMessage. by rewrite Hparse.
  - intros rawMessage payload Hparse Hshape. unfold validateClientMessage.
    rewrite Hparse. destruct payload; try done. by destruct (Hshape fields).
  - done.
Qed.

(** X2: whatever [validateClientMessage] refuses, it refuses with one of the
    three validation kinds [invalid_message], [invalid_message_data] and
    [unknown_message_type]; the five other error codes of the protocol never
    come from the validator. *)
Theorem validation_error_kinds
  (decode : list N -> jsstring) (JSON_parse : jsstring -> option JsValue)
  (rawMessage : RawMessage) (e : WebSocketErrorData) :
  validateClientMessage decode JSON_parse rawMessage = not_ok e ->
  code e = invalid_message ∨ code e = invalid_message_data ∨
  code e = unknown_message_type.
Proof.
  unfold validateClientMessage, toError.
  destruct (parseMessagePayload _ _ _) as [payload|]; [|intros [= <-]; auto].
  destruct (toPlainObject payload) as [envelope|]; [|intros [= <-]; auto].
  destruct (getProperty envelope (js "type")); try (intros [= <-]; auto).
  destruct (negb _); [intros [= <-]; auto|].
  destruct (toPlainObject _) as [data|]; [|intros [= <-]; auto].
  repeat case_decide; try done.
  - destruct (userMessageDataSchema_safeParse data); [done|].
    intros [= <-]; auto.
  - intros [= <-]; auto.
Qed.

Lemma validation_error_kinds_witness :
  invalid_message_data = invalid_message ∨
  invalid_message_data = invalid_message_data ∨
  invalid_message_data = unknown_message_type.
Proof.
  apply (validation_error_kinds no_decode no_parse frame_blank
           (mkErrorData invalid_message_data
              (dquote ++ js "user_message" ++ dquote
                 ++ js " requires data.content as a non-empty string"))).
  vm_compute. reflexivity.
Defined.

Lemma trimStart_fixed (s : jsstring) :
  (∀ c rest, s = c :: rest -> isWhiteSpace c = false) -> trimStart s = s.
Proof.
  destruct s as [|c rest]; [done|]. intros Hhead. simpl.
  by rewrite (Hhead c rest eq_refl).
Qed.

(** Trimming what is trimmed already changes nothing. *)
Lemma trim_idempotent (s : jsstring) : trim (trim s) = trim s.
Proof.
  destruct (trim_spec s) as (_ & _ & _ & _ & _ & Hhead & Hlast).
  unfold trim at 1, trimEnd.
  rewrite (trimStart_fixed (trim s)) by done.
  rewrite trimStart_fixed; [by rewrite rev_involutive|].
  intros c rest Hrev. apply (Hlast c (rev rest)).
  apply (f_equal (@rev N)) in Hrev. rewrite rev_involutive in Hrev.
  by rewrite Hrev.
Qed.

(** X3: the content of a validated [user_message] is in trimmed form and
    not empty, and validation is idempotent on it: a frame that carries the
    validated content is accepted and carries the same content again. *)
Theorem validated_content_is_a_fixpoint
  (decode : list N -> jsstring) (JSON_parse : jsstring -> option JsValue)
  (rawMessage : RawMessage) (data : UserMessageData) :
  validateClientMessage decode JSON_parse rawMessage = ok (UserMessage data) ->
  trim (content data) = content data ∧
  content data ≠ [] ∧
  validateClientMessage decode JSON_parse (userMessageFrame (content data))
  = ok (UserMessage data).
Proof.
  intros Hvalid.
  assert (exists s, trim s ≠ [] ∧ data = mkUserMessageData (trim s))
    as (s & Hne & ->).
  { revert Hvalid. unfold validateClientMessage, toError.
    destruct (parseMessagePayload _ _ _) as [payload|]; [|done].
    destruct (toPlainObject payload) as [envelope|]; [|done].
    destruct (getProperty envelope (js "type")) as [| | | |type| |]; try done.
    destruct (negb _); [done|].
    destruct (toPlainObject _) as [fields|]; [|done].
    repeat case_decide; try done.
    destruct (userMessageDataSchema_safeParse fields) as [parsed|] eqn:Hsafe;
      [|done].
    intros [= <-]. apply safeParse_Some in Hsafe as (s & _ & Hne & ->).
    by exists s. }
  simpl. split_and!; [apply trim_idempotent | done |].
  assert (parseMessagePayload decode JSON_parse (userMessageFrame (trim s))
          = Some (JsObject [ (js "type", JsString (js "user_message"));
                             (js "data", JsObject [(js "content", JsString (trim s))]) ]))
    as Hparse by done.
  rewrite (validate_user_message _ _ _ _ Hparse eq_refl). simpl.
  assert (userMessageDataSchema_safeParse [(js "content", JsString (trim s))]
          = Some (mkUserMessageData (trim (trim s)))) as ->.
  { apply safeParse_Some. exists (trim s).
    split_and!; [done | by rewrite trim_idempotent | done]. }
  by rewrite trim_idempotent.
Qed.

Lemma validated_content_is_a_fixpoint_witness :
  validateClientMessage no_decode no_parse (userMessageFrame (js "hi"))
  = ok (UserMessage (mkUserMessageData (js "hi"))).
Proof.
  apply (validated_content_is_a_fixpoint no_decode no_parse frame_hi
           (mkUserMessageData (js "hi"))).
  vm_compute. reflexivity.
Defined.

(** ** Projects: create, patch, delete, list *)

Lemma head_filter_of (A : Type) (P : A -> Prop) `{∀ x, Decision (P x)}
  (l : list A) (x : A) :
  head (filter P l) = Some x -> x ∈ l ∧ P x.
Proof.
  destruct (filter P l) as [|y k] eqn:Hf; [done|]. intros [= ->].
  assert (x ∈ filter P l) as Hin by (rewrite Hf; left).
  apply list_elem_of_filter in Hin. tauto.
Qed.

(** X4: [create] with an id not in use, for an existing user, inserts a
    project with status ["idle"] and no preview url or sandbox; afterwards
    its owner reads it back by id, any other user reads [null] under that
    id, and reads under any other id, the files and the run states are as
    before. *)
Theorem create_then_get (db : Database) (input : CreateProjectInput)
  (now : Date) :
  cp_id input ∉ Project.id <$> projects db ->
  cp_userId input ∈ user db ->
  exists project db',
    create db input now = (Returned project, db') ∧
    Project.id project = cp_id input ∧
    Project.userId project = cp_userId input ∧
    Project.name project = cp_name input ∧
    Project.status project = js "idle" ∧
    Project.previewUrl project = None ∧
    Project.sandboxId project = None ∧
    getByIdForUser db' (cp_id input) (cp_userId input) = Some project ∧
    (∀ u, u ≠ cp_userId input -> getByIdForUser db' (cp_id input) u = None) ∧
    (∀ pid u, pid ≠ cp_id input ->
              getByIdForUser db' pid u = getByIdForUser db pid u) ∧
    projectFiles db' = projectFiles db ∧
    agent_states db' = agent_states db.
Proof.
  intros Hfresh Huser. unfold create.
  rewrite decide_False, decide_True by done.
  eexists _, _. split; [done|]. split_and!; try done.
  - unfold getByIdForUser. cbn [projects]. rewrite filter_app.
    rewrite (filter_none _ (projects db)).
    + by rewrite filter_cons_True.
    + intros p Hp [Hid _]. apply Hfresh. rewrite <- Hid.
      by apply list_elem_of_fmap_2.
  - intros u Hu. unfold getByIdForUser. cbn [projects]. rewrite filter_app.
    rewrite (filter_none _ (projects db)).
    + rewrite filter_cons_False; [done|]. by intros [_ Hown].
    + intros p Hp [Hid _]. apply Hfresh. rewrite <- Hid.
      by apply list_elem_of_fmap_2.
  - intros pid u Hpid. unfold getByIdForUser. cbn [projects].
    rewrite filter_app, filter_cons_False, filter_nil, app_nil_r; [done|].
    by intros [Hid _].
Qed.

Lemma create_then_get_witness :
  exists project db',
    create db_one_project
      (mkCreateProjectInput (js "project_9") (js "non_owner") (js "Mine") None)
      2000 = (Returned project, db') ∧
    getByIdForUser db' (js "project_9") (js "non_owner") = Some project ∧
    getByIdForUser db' (js "project_9") (js "owner") = None.
Proof.
  destruct (create_then_get db_one_project
              (mkCreateProjectInput (js "project_9") (js "non_owner")
                 (js "Mine") None) 2000)
    as (project & db' & Hcreate & _ & _ & _ & _ & _ & _ & Hget & Hother & _).
  - apply (bool_decide_unpack _). vm_compute. reflexivity.
  - apply (bool_decide_unpack _). vm_compute. reflexivity.
  - exists project, db'. split_and!; [exact Hcreate | exact Hget |].
    apply Hother. apply (bool_decide_unpack _). vm_compute. reflexivity.
Defined.

(** A patch that sets a column has a key. *)
Lemma setsNothing_false_not_empty (patch : ProjectUpdatePatch) :
  setsNothing patch = false -> patchIsEmpty patch = false.
Proof.
  unfold setsNothing, patchIsEmpty.
  by destruct patch as [[| |?] [| |?] [| |?] [| |?] [| |?]].
Qed.

(** X5: [updateForUser] by the owner.  A patch with no key answers the
    stored row and writes nothing.  A patch that has keys none of which holds
    a value (each holds [undefined]) throws before any row is touched.  A
    patch in which some key holds a value answers the row it leaves stored:
    the columns whose keys hold a value take those values, every other
    column of the row (its id, owner and creation time among them) is kept,
    [updatedAt] is the time of the update, and no other project, file or run
    state is touched. *)
Theorem updateForUser_changes_named_fields (db : Database)
  (projectId userId : jsstring) (patch : ProjectUpdatePatch) (now : Date)
  (P : Project.t) :
  getByIdForUser db projectId userId = Some P ->
  (patchIsEmpty patch = true ->
   updateForUser db projectId userId patch now = (Returned (Some P), db)) ∧
  (patchIsEmpty patch = false -> setsNothing patch = true ->
   updateForUser db projectId userId patch now
   = (Thrown (Error (js "No values to set")), db)) ∧
  (setsNothing patch = false ->
   exists P' db',
     updateForUser db projectId userId patch now = (Returned (Some P'), db') ∧
     getByIdForUser db' projectId userId = Some P' ∧
     Project.id P' = Project.id P ∧
     Project.userId P' = Project.userId P ∧
     Project.createdAt P' = Project.createdAt P ∧
     Project.updatedAt P' = now ∧
     Project.name P' = default (Project.name P) (defined (patch_name patch)) ∧
     Project.description P'
       = default (Project.description P) (defined (patch_description patch)) ∧
     Project.status P'
       = default (Project.status P) (defined (patch_status patch)) ∧
     Project.previewUrl P'
       = default (Project.previewUrl P) (defined (patch_previewUrl patch)) ∧
     Project.sandboxId P'
       = default (Project.sandboxId P) (defined (patch_sandboxId patch)) ∧
     (∀ q, q ∈ projects db -> ¬ ownedBy projectId userId q -> q ∈ projects db') ∧
     projectFiles db' = projectFiles db ∧
     agent_states db' = agent_states db).
Proof.
  intros Hget. unfold updateForUser. split_and!.
  - intros ->. by rewrite Hget.
  - by intros -> ->.
  - intros Hsets. rewrite (setsNothing_false_not_empty _ Hsets), Hsets.
    unfold getByIdForUser in Hget.
    destruct (filter (ownedBy projectId userId) (projects db)) as [|P0 rest] eqn:Hf;
      [done|]. injection Hget as ->.
    eexists _, _. split; [by rewrite fmap_cons|].
    split_and!; try done.
    + unfold getByIdForUser. cbn [projects].
      rewrite filter_update_where; [by rewrite Hf | | done].
      intros q. unfold ownedBy. by simpl.
    + intros q Hq Hnot. cbn [projects]. apply list_elem_of_fmap.
      exists q. by rewrite decide_False.
Qed.

Lemma updateForUser_changes_named_fields_witness :
  exists P' db',
    updateForUser db_two_projects (js "project_1") (js "owner")
      patch_name_hacked 2000 = (Returned (Some P'), db') ∧
    Project.name P' = js "Hacked" ∧
    Project.status P' = js "idle" ∧
    stranger_project ∈ projects db'.
Proof.
  destruct (updateForUser_changes_named_fields db_two_projects (js "project_1")
              (js "owner") patch_name_hacked 2000 owner_project)
    as (_ & _ & Hsets).
  - vm_compute. reflexivity.
  - destruct Hsets
      as (P' & db' & Hupdate & _ & _ & _ & _ & _ & Hname & _ & Hstatus & _ & _
          & Hothers & _).
    + vm_compute. reflexivity.
    + exists P', db'. split_and!; [exact Hupdate | exact Hname | exact Hstatus |].
      apply Hothers.
      * apply (bool_decide_unpack _). vm_compute. reflexivity.
      * apply (bool_decide_unpack _). vm_compute. reflexivity.
Defined.

(** X6: [deleteForUser] by the owner answers [true] and takes the project's
    files and run state with it: afterwards the project cannot be read, no
    row of [project_files] or [agent_states] references its id, and every
    row of another project is still there. *)
Theorem deleteForUser_cascades (db : Database) (projectId userId : jsstring)
  (P : Project.t) :
  getByIdForUser db projectId userId = Some P ->
  exists db',
    deleteForUser db projectId userId = (true, db') ∧
    getByIdForUser db' projectId userId = None ∧
    (∀ q, q ∈ projects db' <-> q ∈ projects db ∧ ¬ ownedBy projectId userId q) ∧
    (∀ f, f ∈ projectFiles db' <->
          f ∈ projectFiles db ∧ ProjectFile.projectId f ≠ projectId) ∧
    (∀ s, s ∈ agent_states db' <->
          s ∈ agent_states db ∧ AgentState.projectId s ≠ projectId).
Proof.
  intros Hget. unfold deleteForUser, getByIdForUser in *.
  destruct (filter (ownedBy projectId userId) (projects db)) as [|P0 rest] eqn:Hf;
    [done|]. injection Hget as ->.
  assert (∀ pid, pid ∈ Project.id <$> P :: rest <-> pid = projectId) as Hgone.
  { intros pid. rewrite list_elem_of_fmap. split.
    - intros (q & -> & Hq). rewrite <- Hf in Hq.
      by apply list_elem_of_filter in Hq as [[Hid _] _].
    - intros ->. exists P. split; [|left].
      assert (P ∈ filter (ownedBy projectId userId) (projects db)) as HP
        by (rewrite Hf; left).
      by apply list_elem_of_filter in HP as [[Hid _] _]. }
  eexists. split; [done|]. cbn [projects projectFiles agent_states].
  split_and!.
  - rewrite filter_none; [done|].
    by intros q [Hnot _]%list_elem_of_filter.
  - intros q. rewrite list_elem_of_filter. tauto.
  - intros f. rewrite list_elem_of_filter, Hgone. tauto.
  - intros s. rewrite list_elem_of_filter, Hgone. tauto.
Qed.

Lemma deleteForUser_cascades_witness :
  exists db',
    deleteForUser db_generating (js "project_1") (js "owner") = (true, db') ∧
    agent_states db' = [].
Proof.
  destruct (deleteForUser_cascades db_generating (js "project_1") (js "owner")
              owner_project) as (db' & Hdelete & _ & _ & _ & Hstates).
  - vm_compute. reflexivity.
  - exists db'. split; [exact Hdelete|].
    destruct (agent_states db') as [|s rest] eqn:Hrest; [reflexivity|].
    exfalso. destruct (proj1 (Hstates s)) as [Hin Hne]; [left|].
    apply Hne. vm_compute in Hin. apply list_elem_of_singleton in Hin.
    rewrite Hin. reflexivity.
Defined.

#[local] Instance laterFirst_total : Total laterFirst.
Proof. intros p q. unfold laterFirst. lia. Qed.

#[local] Instance laterFirst_transitive : Transitive laterFirst.
Proof. intros p q r. unfold laterFirst. lia. Qed.

(** X7: [listByUserId] answers exactly the user's projects, each as often
    as it is stored and never another user's, with every project updated no
    earlier than the ones listed after it. *)
Theorem listByUserId_owned_latest_first (db : Database) (userId : jsstring) :
  (∀ p, p ∈ listByUserId db userId <->
        p ∈ projects db ∧ Project.userId p = userId) ∧
  listByUserId db userId
    ≡ₚ filter (λ p, Project.userId p = userId) (projects db) ∧
  StronglySorted (λ p q, (Project.updatedAt q <= Project.updatedAt p)%Z)
    (listByUserId db userId).
Proof.
  unfold listByUserId. split_and!.
  - intros p. rewrite merge_sort_Permutation, list_elem_of_filter. tauto.
  - apply merge_sort_Permutation.
  - apply (StronglySorted_merge_sort laterFirst).
Qed.

(** ** Project files: upsert, lookup, delete, list *)

Lemma filter_key_unique {A B : Type} `{EqDecision B} (key : A -> B)
  (l : list A) (x : A) :
  NoDup (key <$> l) -> x ∈ l -> filter (λ y, key y = key x) l = [x].
Proof.
  induction l as [|z l IH]; [by intros _ ?%elem_of_nil|].
  rewrite fmap_cons, NoDup_cons, filter_cons.
  intros [Hz Hnd] [->|Hx]%elem_of_cons.
  - rewrite decide_True by done. f_equal. apply filter_none.
    intros y Hy Hk. apply Hz. rewrite <- Hk. by apply list_elem_of_fmap_2.
  - rewrite decide_False; [by apply IH|].
    intros Hk. apply Hz. rewrite Hk. by apply list_elem_of_fmap_2.
Qed.

Lemma targets_iff_fileKey (file : UpsertProjectFileInput) (f : ProjectFile.t) :
  PF.targets file f <-> fileKey f = (uf_projectId file, uf_path file).
Proof. unfold PF.targets, fileKey. split; [by intros [-> ->]|by intros [= -> ->]]. Qed.

(** The one row under a (projectId, path), when the pair is unique. *)
Lemma targets_unique_row (db : Database) (file : UpsertProjectFileInput)
  (f : ProjectFile.t) :
  NoDup (fileKey <$> projectFiles db) -> f ∈ projectFiles db ->
  PF.targets file f -> filter (PF.targets file) (projectFiles db) = [f].
Proof.
  intros Hnd Hf Ht. rewrite <- (filter_key_unique fileKey _ f Hnd Hf).
  apply filter_ext_in. intros g _. rewrite targets_iff_fileKey.
  apply targets_iff_fileKey in Ht. by rewrite Ht.
Qed.

(** X8: [upsertFile] by the owner on a path the project already has updates
    that row in place: the row keeps its id and creation time whatever id
    the input carries, takes the input's content, and no row is added or
    lost; every other row is untouched. *)
Theorem upsertFile_existing_path_updates_in_place (db : Database)
  (input : UpsertProjectFileInput) (now : Date) (f : ProjectFile.t) :
  NoDup (fileKey <$> projectFiles db) ->
  PF.canAccessProject db (uf_projectId input) (uf_userId input) = true ->
  f ∈ projectFiles db ->
  ProjectFile.projectId f = uf_projectId input ->
  ProjectFile.path f = uf_path input ->
  exists f' db',
    PF.upsertFile db input now = (Returned (Some f'), db') ∧
    ProjectFile.id f' = ProjectFile.id f ∧
    ProjectFile.createdAt f' = ProjectFile.createdAt f ∧
    ProjectFile.content f' = uf_content input ∧
    ProjectFile.updatedAt f' = now ∧
    filter (PF.targets input) (projectFiles db') = [f'] ∧
    length (projectFiles db') = length (projectFiles db) ∧
    (∀ g, g ∈ projectFiles db -> ¬ PF.targets input g -> g ∈ projectFiles db').
Proof.
  intros Hnd Hacc Hf Hpid Hpath.
  assert (filter (PF.targets input) (projectFiles db) = [f]) as Hrow
    by (apply targets_unique_row; done).
  unfold PF.upsertFile, PF.insertOnConflictDoUpdate. rewrite Hacc, Hrow.
  eexists _, _. split; [done|]. cbn [projectFiles]. split_and!; try done.
  - rewrite filter_update_where; [by rewrite Hrow | | done].
    intros g. unfold PF.targets. by simpl.
  - by rewrite length_fmap.
  - intros g Hg Hnot. apply list_elem_of_fmap. exists g.
    by rewrite decide_False.
Qed.

(** X9: two [upsertFile] calls by the owner for the same (projectId, path)
    leave exactly one row under it: the first, with an unused id, inserts
    the row; the second, whatever its id, answers that same row id with the
    second content. *)
Theorem upsertFile_twice_one_row (db : Database)
  (first second : UpsertProjectFileInput) (t1 t2 : Date) :
  PF.canAccessProject db (uf_projectId first) (uf_userId first) = true ->
  uf_projectId second = uf_projectId first ->
  uf_path second = uf_path first ->
  uf_userId second = uf_userId first ->
  filter (PF.targets first) (projectFiles db) = [] ->
  uf_id first ∉ ProjectFile.id <$> projectFiles db ->
  exists f1 db1 f2 db2,
    PF.upsertFile db first t1 = (Returned (Some f1), db1) ∧
    PF.upsertFile db1 second t2 = (Returned (Some f2), db2) ∧
    ProjectFile.id f1 = uf_id first ∧
    ProjectFile.id f2 = uf_id first ∧
    ProjectFile.content f2 = uf_content second ∧
    filter (PF.targets first) (projectFiles db2) = [f2] ∧
    length (projectFiles db2) = S (length (projectFiles db)).
Proof.
  intros Hacc Hpid Hpath Huid Hnone Hfresh.
  assert (uf_projectId first ∈ Project.id <$> projects db) as Hproject.
  { eapply owned_project_exists. by apply pf_canAccessProject_true. }
  assert (∀ g, PF.targets second g <-> PF.targets first g) as Hsame.
  { intros g. unfold PF.targets. by rewrite Hpid, Hpath. }
  set (row := ProjectFile.mk (uf_id first) (uf_projectId first) (uf_path first)
                (uf_content first) t1 t1).
  set (db1 := mkDatabase (user db) (projects db) (projectFiles db ++ [row])
                (agent_states db)).
  assert (PF.upsertFile db first t1 = (Returned (Some row), db1)) as Hfirst.
  { unfold PF.upsertFile, PF.insertOnConflictDoUpdate.
    rewrite Hacc, Hnone. simpl.
    by rewrite decide_False, decide_True by done. }
  assert (filter (PF.targets second) (projectFiles db1) = [row]) as Hrow.
  { cbn [db1 projectFiles]. rewrite filter_app.
    rewrite (filter_ext_in _ (PF.targets first) (projectFiles db))
      by (intros; apply Hsame).
    rewrite Hnone. simpl. rewrite filter_cons_True; [done|].
    by apply Hsame. }
  exists row, db1. eexists _, _. split; [done|]. split.
  { unfold PF.upsertFile, PF.insertOnConflictDoUpdate.
    rewrite Hpid, Huid. change (projects db1) with (projects db) in *.
    unfold PF.canAccessProject in *. cbn [db1 projects]. rewrite Hacc.
    rewrite Hrow. done. }
  cbn [projectFiles]. split_and!; try done.
  - rewrite (filter_ext_in (PF.targets first) (PF.targets second))
      by (intros; symmetry; apply Hsame).
    rewrite filter_update_where; [by rewrite Hrow | | done].
    intros g. unfold PF.targets. by simpl.
  - rewrite length_fmap. cbn [db1 projectFiles]. rewrite length_app. simpl. lia.
Qed.

(** X10: what [upsertFile] throws is what its statement threw, the query
    builder's error whose cause carries SQLSTATE 23505, and the store is
    left as it was.  The [catch] of [upsertFile] does not turn it into a
    [UniqueConstraintError]: its test reads the [code] of the error itself,
    which has none.  [upsertFile] throws exactly when the caller owns the
    project, the path is new to it and the input's id is already taken. *)
Theorem upsertFile_rethrows_statement_error (db : Database)
  (input : UpsertProjectFileInput) (now : Date) :
  (∀ e db', PF.upsertFile db input now = (Thrown e, db') ->
     db' = db ∧
     e = DrizzleQueryError (DatabaseError (js "23505")) ∧
     isDatabaseUniqueViolation e = false) ∧
  (∀ m cause,
     fst (PF.upsertFile db input now) ≠ Thrown (UniqueConstraintError m cause)) ∧
  ((exists e db', PF.upsertFile db input now = (Thrown e, db')) <->
   PF.canAccessProject db (uf_projectId input) (uf_userId input) = true ∧
   filter (PF.targets input) (projectFiles db) = [] ∧
   uf_id input ∈ ProjectFile.id <$> projectFiles db).
Proof.
  unfold PF.upsertFile.
  destruct (PF.canAccessProject db (uf_projectId input) (uf_userId input))
    eqn:Hacc; simpl.
  2:{ split; [by intros e db' [=]|]. split; [done|].
      split; [by intros (e & db' & [=])|]. by intros [[=] _]. }
  assert (uf_projectId input ∈ Project.id <$> projects db) as Hproject.
  { eapply owned_project_exists. by apply pf_canAccessProject_true. }
  unfold PF.insertOnConflictDoUpdate.
  destruct (filter (PF.targets input) (projectFiles db)) as [|c cs].
  - destruct (decide (uf_id input ∈ ProjectFile.id <$> projectFiles db))
      as [Htaken|Hfree].
    + simpl. split; [by intros e db' [= <- <-]|]. split; [done|].
      split; [done | by eexists _, _].
    + rewrite decide_True by done. split; [by intros e db' [=]|].
      split; [done|].
      split; [by intros (e & db' & [=]) | by intros (_ & _ & ?)].
  - split; [by intros e db' [=]|]. split; [done|].
    split; [by intros (e & db' & [=]) | by intros (_ & [=] & _)].
Qed.

(** X11: for a user who does not own the project (or a project that does
    not exist), every file operation answers as if the project had no
    files and writes nothing: the listing is empty, a lookup is [null], an
    upsert is [null], a bulk upsert of one input counts 0 and a delete is
    [false]. *)
Theorem foreign_project_files_out_of_reach (path_le : relation jsstring)
  `{∀ x y, Decision (path_le x y)} (db : Database)
  (input : UpsertProjectFileInput) (fileId : jsstring) (now : Date) :
  PF.canAccessProject db (uf_projectId input) (uf_userId input) = false ->
  PF.listByProjectForUser path_le db (uf_projectId input) (uf_userId input) = [] ∧
  PF.getByProjectIdAndFileIdForUser db (uf_projectId input) fileId
    (uf_userId input) = None ∧
  PF.upsertFile db input now = (Returned None, db) ∧
  PF.upsertMany db [input] now = (Returned 0%nat, db) ∧
  PF.deleteByPath db
    (PF.mkDeleteProjectFileByPathInput (uf_projectId input) (uf_path input)
       (uf_userId input)) = (false, db).
Proof.
  intros Hacc. pose proof Hacc as Hnone%pf_canAccessProject_false.
  assert (∀ (Q : Project.t -> Prop),
            (∀ p, Q p -> ownedBy (uf_projectId input) (uf_userId input) p) ->
            ¬ Exists Q (projects db)) as Hno.
  { intros Q HQ (p & Hp & Hq)%Exists_exists.
    by apply (filter_nil_not_elem_of _ _ p Hnone); [apply HQ|]. }
  split_and!.
  - unfold PF.listByProjectForUser. rewrite filter_none; [done|].
    intros f _ [Hpid Hex]. apply (Hno _) in Hex; [done|].
    intros p [Hid Huid]. split; congruence.
  - unfold PF.getByProjectIdAndFileIdForUser. by rewrite Hnone.
  - unfold PF.upsertFile. by rewrite Hacc.
  - unfold PF.upsertMany, PF.transaction. simpl. by rewrite Hnone.
  - unfold PF.deleteByPath. cbn [PF.df_projectId PF.df_path PF.df_userId].
    rewrite filter_none, filter_all.
    + by destruct db.
    + intros f _ (_ & _ & Hex). by apply (Hno _) in Hex.
    + intros f _ (_ & _ & Hex). by apply (Hno _) in Hex.
Qed.

Lemma pf_owner_exists (db : Database) (projectId userId : jsstring) :
  PF.canAccessProject db projectId userId = true <->
  Exists (ownedBy projectId userId) (projects db).
Proof.
  rewrite pf_canAccessProject_true, Exists_exists. split.
  - destruct (filter _ _) as [|p l] eqn:Hf; [done|]. intros _. exists p.
    assert (p ∈ filter (ownedBy projectId userId) (projects db)) as Hp
      by (rewrite Hf; left).
    apply list_elem_of_filter in Hp. tauto.
  - intros (p & Hp & Hown) Hnone.
    by apply (filter_nil_not_elem_of _ _ p Hnone).
Qed.

(** X12: [deleteByPath] by the owner removes the rows under the (projectId,
    path) and nothing else; it answers [true] exactly when there was such a
    row, and a second call answers [false] and changes nothing. *)
Theorem deleteByPath_removes_the_path (db : Database)
  (input : PF.DeleteProjectFileByPathInput) :
  PF.canAccessProject db (PF.df_projectId input) (PF.df_userId input) = true ->
  exists db',
    PF.deleteByPath db input
    = (bool_decide (Exists (λ f, ProjectFile.projectId f = PF.df_projectId input ∧
                                 ProjectFile.path f = PF.df_path input)
                      (projectFiles db)), db') ∧
    (∀ f, f ∈ projectFiles db' <->
          f ∈ projectFiles db ∧
          ¬ (ProjectFile.projectId f = PF.df_projectId input ∧
             ProjectFile.path f = PF.df_path input)) ∧
    projects db' = projects db ∧
    agent_states db' = agent_states db ∧
    PF.deleteByPath db' input = (false, db').
Proof.
  intros Hacc%pf_owner_exists.
  assert (∀ f, PF.doomed db input f <->
               ProjectFile.projectId f = PF.df_projectId input ∧
               ProjectFile.path f = PF.df_path input) as Hdoomed.
  { intros f. unfold PF.doomed. tauto. }
  eexists. split_and!.
  - unfold PF.deleteByPath. f_equal.
    apply bool_decide_ext. rewrite Exists_exists. split.
    + destruct (filter _ _) as [|f l] eqn:Hf; [simpl; lia|]. intros _.
      exists f.
      assert (f ∈ filter (PF.doomed db input) (projectFiles db)) as Hin
        by (rewrite Hf; left).
      apply list_elem_of_filter in Hin as [Hd Hin]. split; [done|].
      by apply Hdoomed.
    + intros (f & Hin & Hf).
      assert (f ∈ filter (PF.doomed db input) (projectFiles db)) as Hin'
        by (apply list_elem_of_filter; split; [by apply Hdoomed | done]).
      destruct (filter _ _); [by apply elem_of_nil in Hin' | simpl; lia].
  - intros f. cbn [projectFiles]. rewrite list_elem_of_filter, Hdoomed. tauto.
  - done.
  - done.
  - unfold PF.deleteByPath. cbn [projectFiles projects user agent_states].
    assert (∀ f, f ∈ filter (λ f, ¬ PF.doomed db input f) (projectFiles db) ->
                 ¬ PF.doomed db input f) as Hleft
      by (by intros f [? _]%list_elem_of_filter).
    rewrite (filter_none (PF.doomed _ input)), (filter_all (λ f, ¬ PF.doomed _ input f));
      [done| |].
    + intros f Hf. unfold PF.doomed. cbn [projects]. by apply Hleft.
    + intros f Hf. unfold PF.doomed. cbn [projects]. by apply Hleft.
Qed.

(** X13: a file the owner has upserted can be read back by its id: after
    [upsertFile] answers a row, [getByProjectIdAndFileIdForUser] with the
    row's id answers that row. *)
Theorem upsertFile_then_get_by_id (db db' : Database)
  (input : UpsertProjectFileInput) (now : Date) (f : ProjectFile.t) :
  keys_unique db ->
  PF.upsertFile db input now = (Returned (Some f), db') ->
  PF.getByProjectIdAndFileIdForUser db' (uf_projectId input) (ProjectFile.id f)
    (uf_userId input) = Some f.
Proof.
  intros Hkeys Hups.
  assert (keys_unique db') as [_ Hpk _ _ _]
    by by eapply upsertFile_keeps_keys_unique.
  unfold PF.upsertFile in Hups.
  destruct (PF.canAccessProject db (uf_projectId input) (uf_userId input))
    eqn:Hacc; [|done]. cbn [negb] in Hups.
  destruct (PF.insertOnConflictDoUpdate db input now) as [[rows|e] db1] eqn:Hins;
    [|by destruct (isDatabaseUniqueViolation e)].
  injection Hups as Hhead <-.
  destruct (pf_insert_frame _ _ _ _ _ Hins) as [Hprojects _].
  assert (f ∈ projectFiles db1 ∧ ProjectFile.projectId f = uf_projectId input)
    as [Hin Hpid].
  { unfold PF.insertOnConflictDoUpdate in Hins.
    destruct (filter (PF.targets input) (projectFiles db)) as [|c cs] eqn:Hrows.
    - repeat case_decide; simplify_eq. simpl in Hhead. simplify_eq.
      cbn [projectFiles]. split; [|done].
      apply elem_of_app. right. left.
    - simplify_eq. simpl in Hhead. simplify_eq.
      cbn [projectFiles].
      assert (c ∈ filter (PF.targets input) (projectFiles db)) as Hc
        by (rewrite Hrows; left).
      apply list_elem_of_filter in Hc as [[Hpid Hpath] Hc]. split; [|done].
      apply list_elem_of_fmap. exists c. by rewrite decide_True. }
  unfold PF.getByProjectIdAndFileIdForUser. rewrite Hprojects.
  apply pf_canAccessProject_true in Hacc.
  destruct (filter (ownedBy (uf_projectId input) (uf_userId input)) (projects db))
    as [|p ps] eqn:Hown; [done|]. simpl.
  assert (Project.id p = uf_projectId input) as ->.
  { assert (p ∈ filter (ownedBy (uf_projectId input) (uf_userId input))
                  (projects db)) as Hp by (rewrite Hown; left).
    by apply list_elem_of_filter in Hp as [[Hid _] _]. }
  rewrite (filter_ext_in _ (λ g, ProjectFile.id g = ProjectFile.id f)
             (projectFiles db1)).
  - by rewrite (filter_key_unique ProjectFile.id).
  - intros g Hg. split; [tauto|]. intros Hid. split; [done|].
    by rewrite (NoDup_fmap_key ProjectFile.id _ g f Hpk Hg Hin Hid).
Qed.

(** X14: [listByProjectForUser] answers exactly the rows of the project when
    the project is the user's, each once per stored row, and in ascending
    order of path whenever the collation is a total, transitive order. *)
Theorem listByProjectForUser_lists_the_project (path_le : relation jsstring)
  `{∀ x y, Decision (path_le x y)} (db : Database)
  (projectId userId : jsstring) :
  (∀ f, f ∈ PF.listByProjectForUser path_le db projectId userId <->
        f ∈ projectFiles db ∧ ProjectFile.projectId f = projectId ∧
        PF.canAccessProject db projectId userId = true) ∧
  PF.listByProjectForUser path_le db projectId userId
    ≡ₚ filter (PF.visibleTo db projectId userId) (projectFiles db) ∧
  (Total path_le -> Transitive path_le ->
   StronglySorted (λ f g, path_le (ProjectFile.path f) (ProjectFile.path g))
     (PF.listByProjectForUser path_le db projectId userId)).
Proof.
  unfold PF.listByProjectForUser. split_and!.
  - intros f. rewrite merge_sort_Permutation, list_elem_of_filter.
    unfold PF.visibleTo. rewrite pf_owner_exists, !Exists_exists.
    split.
    + intros [[Hpid (p & Hp & Hid & Huid)] Hf]. split_and!; [done..|].
      exists p. split; [done|]. split; congruence.
    + intros (Hf & Hpid & p & Hp & Hid & Huid). split_and!; [done| |done].
      exists p. split; [done|]. split; congruence.
  - apply merge_sort_Permutation.
  - intros Htotal Htrans.
    assert (Transitive (λ f g : ProjectFile.t,
                          path_le (ProjectFile.path f) (ProjectFile.path g)))
      by (intros f g h; apply Htrans).
    assert (Total (λ f g : ProjectFile.t,
                     path_le (ProjectFile.path f) (ProjectFile.path g)))
      by (intros f g; apply Htotal).
    apply (StronglySorted_merge_sort
             (λ f g, path_le (ProjectFile.path f) (ProjectFile.path g))).
Qed.

Lemma upsertManyLoop_counts (input : list UpsertProjectFileInput) (now : Date) :
  ∀ (tx tx' : Database) (changedRows n : nat),
    PF.upsertManyLoop tx input now changedRows = (Returned n, tx') ->
    n = (changedRows +
         length (filter (λ f, PF.canAccessProject tx (uf_projectId f)
                                (uf_userId f) = true) input))%nat.
Proof.
  induction input as [|file input IH]; intros tx tx' k n; simpl.
  - intros [= <- <-]. lia.
  - rewrite filter_cons.
    destruct (filter (ownedBy (uf_projectId file) (uf_userId file)) (projects tx))
      as [|p ps] eqn:Hown.
    + rewrite decide_False.
      * apply IH.
      * rewrite pf_canAccessProject_true, Hown. intros Hne. by apply Hne.
    + rewrite decide_True by (rewrite pf_canAccessProject_true; by rewrite Hown).
      destruct (PF.insertOnConflictDoUpdate tx file now) as [[rows|e] tx1] eqn:Hins;
        [|done].
      destruct (pf_insert_frame _ _ _ _ _ Hins) as [Hprojects _].
      destruct (pf_insert_answers _ _ _ _ _ Hins) as [(rows' & [= <-] & Hlen)|[? _]];
        [eapply owned_project_exists; by rewrite Hown | | done].
      rewrite bool_decide_eq_true_2 by done.
      intros Hloop. rewrite (IH _ _ _ _ Hloop). simpl.
      rewrite (filter_ext_in
                 (λ f, PF.canAccessProject tx1 (uf_projectId f) (uf_userId f) = true)
                 (λ f, PF.canAccessProject tx (uf_projectId f) (uf_userId f) = true)).
      * lia.
      * intros f _. unfold PF.canAccessProject. by rewrite Hprojects.
Qed.

(** X15: whatever the batch, [upsertMany] is all or nothing.  When it
    returns, the count is the number of inputs whose project is their
    user's; when it throws, the store refused an insert on the primary key,
    what is thrown is what the statement threw (the query builder's error,
    whose cause carries SQLSTATE 23505) and nothing of the batch is written.
    An empty batch counts 0. *)
Theorem upsertMany_counts_owned_inputs (db : Database)
  (input : list UpsertProjectFileInput) (now : Date) :
  (∀ n db', PF.upsertMany db input now = (Returned n, db') ->
     n = length (filter (λ f, PF.canAccessProject db (uf_projectId f)
                                (uf_userId f) = true) input) ∧
     projects db' = projects db) ∧
  (∀ e db', PF.upsertMany db input now = (Thrown e, db') ->
     db' = db ∧ e = DrizzleQueryError (DatabaseError (js "23505"))) ∧
  PF.upsertMany db [] now = (Returned 0%nat, db).
Proof.
  rewrite upsertMany_transaction. unfold PF.transaction.
  destruct (PF.upsertManyLoop db input now 0) as [[n|e] tx'] eqn:Hloop.
  - split_and!; [|by intros e db' [=]|done].
    intros n' db' [= <- <-].
    destruct (upsertManyLoop_outcome _ _ _ _ _ _ Hloop) as [Hprojects _].
    split; [|done]. by rewrite (upsertManyLoop_counts _ _ _ _ _ _ Hloop).
  - split_and!; [by intros n db' [=]| |done].
    intros e' db' [= <- <-].
    by destruct (upsertManyLoop_outcome _ _ _ _ _ _ Hloop) as [_ ->].
Qed.

Lemma deleteByPath_keeps_keys_unique (db db' : Database)
  (input : PF.DeleteProjectFileByPathInput) (r : bool) :
  keys_unique db -> PF.deleteByPath db input = (r, db') -> keys_unique db'.
Proof.
  intros [] [= <- <-]. split; try done; cbn [projectFiles];
    by apply NoDup_fmap_filter.
Qed.

(** X16: every write of the three repositories keeps the uniqueness
    constraints of the schema: on a store where ids are unique in each
    table, (projectId, path) is unique among files and projectId is unique
    among run states, the store left by [create], [updateForUser],
    [deleteForUser], [upsertFile], [upsertMany], [deleteByPath],
    [upsertForProject] or [resetForProject] is such a store again, whether
    the call returns or throws. *)
Theorem repository_writes_keep_keys_unique (db : Database) :
  keys_unique db ->
  (∀ input now, keys_unique (snd (create db input now))) ∧
  (∀ projectId userId patch now,
     keys_unique (snd (updateForUser db projectId userId patch now))) ∧
  (∀ projectId userId, keys_unique (snd (deleteForUser db projectId userId))) ∧
  (∀ input now, keys_unique (snd (PF.upsertFile db input now))) ∧
  (∀ input now, keys_unique (snd (PF.upsertMany db input now))) ∧
  (∀ input, keys_unique (snd (PF.deleteByPath db input))) ∧
  (∀ input now,
     keys_unique (snd (AgentStatesRepository.upsertForProject db input now))) ∧
  (∀ input, keys_unique (snd (AgentStatesRepository.resetForProject db input))).
Proof.
  intros Hdb. split_and!; intros.
  - destruct (create _ _ _) eqn:Heq. by eapply create_keeps_keys_unique.
  - destruct (updateForUser _ _ _ _ _) eqn:Heq.
    by eapply updateForUser_keeps_keys_unique.
  - destruct (deleteForUser _ _ _) eqn:Heq.
    by eapply deleteForUser_keeps_keys_unique.
  - destruct (PF.upsertFile _ _ _) eqn:Heq.
    by eapply upsertFile_keeps_keys_unique.
  - destruct (PF.upsertMany _ _ _) eqn:Heq.
    by eapply upsertMany_keeps_keys_unique.
  - destruct (PF.deleteByPath _ _) eqn:Heq.
    by eapply deleteByPath_keeps_keys_unique.
  - destruct (AgentStatesRepository.upsertForProject _ _ _) eqn:Heq.
    by eapply upsertForProject_keeps_keys_unique.
  - destruct (AgentStatesRepository.resetForProject _ _) eqn:Heq.
    by eapply resetForProject_keeps_keys_unique.
Qed.

(** ** Run state: first write, reset, isolation *)

Lemma as_canAccessProject_false (db : Database) (projectId userId : jsstring) :
  AgentStatesRepository.canAccessProject db projectId userId = false <->
  ∀ p, p ∈ projects db -> ¬ ownedBy projectId userId p.
Proof.
  rewrite <- not_true_iff_false, canAccessProject_true. split.
  - intros Hno p Hp Hown. apply Hno. eauto.
  - intros Hno (p & Hp & Hown). by apply (Hno p).
Qed.

(** X17: the first [upsertForProject] by the owner of a project that has no
    run state, under an unused id and with values the columns take
    ([currentPhase] null or a 32-bit integer, no string that [jsonb]
    refuses), inserts the row: what the input leaves undefined is stored as
    an empty list or as NULL, and the owner reads the row back. *)
Theorem upsertForProject_first_write_inserts (db : Database)
  (input : UpsertAgentStateInput) (now : Date) :
  AgentStatesRepository.canAccessProject db (ua_projectId input)
    (ua_userId input) = true ->
  AgentStatesRepository.getByProjectForUser db (ua_projectId input)
    (ua_userId input) = None ->
  ua_id input ∉ AgentState.id <$> agent_states db ->
  AgentStatesRepository.columnsRefuse input = None ->
  exists st db',
    AgentStatesRepository.upsertForProject db input now
      = (Returned (Some st), db') ∧
    agent_states db' = agent_states db ++ [st] ∧
    AgentStatesRepository.getByProjectForUser db' (ua_projectId input)
      (ua_userId input) = Some st ∧
    AgentState.id st = ua_id input ∧
    AgentState.currentState st = ua_currentState input ∧
    AgentState.currentPhase st = ua_currentPhase input ∧
    AgentState.phases st = Some (default [] (ua_phases input)) ∧
    AgentState.generatedFiles st = Some (default [] (ua_generatedFiles input)) ∧
    AgentState.conversationHistory st
      = Some (default [] (ua_conversationHistory input)) ∧
    AgentState.sandboxId st = default None (ua_sandboxId input) ∧
    AgentState.previewUrl st = default None (ua_previewUrl input).
Proof.
  intros Hacc Hnone Hfresh Htaken.
  assert (filter (λ s, AgentState.projectId s = ua_projectId input)
            (agent_states db) = []) as Hrows.
  { unfold AgentStatesRepository.getByProjectForUser in Hnone.
    rewrite (filter_ext_in _
               (AgentStatesRepository.visibleTo db (ua_projectId input)
                  (ua_userId input)) (agent_states db)).
    - by destruct (filter _ _).
    - intros s _. symmetry. by apply visibleTo_iff_projectId. }
  assert (ua_projectId input ∈ Project.id <$> projects db) as Hproject.
  { apply canAccessProject_true in Hacc as (p & Hp & <- & _).
    by apply list_elem_of_fmap_2. }
  unfold AgentStatesRepository.upsertForProject,
    AgentStatesRepository.insertOnConflictDoUpdate.
  rewrite Hacc, Htaken, Hrows. simpl.
  rewrite decide_False, decide_True by done.
  eexists _, _. split; [done|]. split_and!; try done.
  unfold AgentStatesRepository.getByProjectForUser. cbn [agent_states].
  rewrite filter_app.
  rewrite (filter_ext_in
             (AgentStatesRepository.visibleTo (mkDatabase _ _ _ _) _ _)
             (AgentStatesRepository.visibleTo db (ua_projectId input)
                (ua_userId input)) (agent_states db)) by done.
  unfold AgentStatesRepository.getByProjectForUser in Hnone.
  destruct (filter _ (agent_states db)); [|done]. simpl.
  rewrite filter_cons_True; [done|].
  apply (visibleTo_iff_projectId db); done.
Qed.

(** X18: for a user who does not own the project, the run state is out of
    reach: the read answers [null], an upsert answers [null] and a reset
    answers [false], and neither write changes the store. *)
Theorem foreign_run_state_out_of_reach (db : Database)
  (input : UpsertAgentStateInput) (now : Date) :
  AgentStatesRepository.canAccessProject db (ua_projectId input)
    (ua_userId input) = false ->
  AgentStatesRepository.getByProjectForUser db (ua_projectId input)
    (ua_userId input) = None ∧
  AgentStatesRepository.upsertForProject db input now = (Returned None, db) ∧
  AgentStatesRepository.resetForProject db
    (mkResetAgentStateInput (ua_projectId input) (ua_userId input))
  = (false, db).
Proof.
  intros Hacc. pose proof (proj1 (as_canAccessProject_false _ _ _) Hacc) as Hno.
  split_and!.
  - unfold AgentStatesRepository.getByProjectForUser.
    rewrite filter_none; [done|].
    intros s _ [Hpid (p & Hp & Hid & Huid)%Exists_exists].
    apply (Hno p Hp). split; congruence.
  - unfold AgentStatesRepository.upsertForProject. by rewrite Hacc.
  - unfold AgentStatesRepository.resetForProject.
    cbn [ra_projectId ra_userId].
    rewrite filter_none, filter_all.
    + by destruct db.
    + intros s _ [_ (p & Hp & Hown)%Exists_exists]. by apply (Hno p).
    + intros s _ [_ (p & Hp & Hown)%Exists_exists]. by apply (Hno p).
Qed.

(** X19: [resetForProject] by the owner deletes the project's run state and
    nothing else: it answers [true] exactly when there was one, afterwards
    the owner reads [null], and the run states of other projects, the
    projects and the files are as before. *)
Theorem resetForProject_deletes_the_run_state (db : Database)
  (input : ResetAgentStateInput) :
  AgentStatesRepository.canAccessProject db (ra_projectId input)
    (ra_userId input) = true ->
  exists db',
    AgentStatesRepository.resetForProject db input
    = (bool_decide (Exists (λ s, AgentState.projectId s = ra_projectId input)
                      (agent_states db)), db') ∧
    AgentStatesRepository.getByProjectForUser db' (ra_projectId input)
      (ra_userId input) = None ∧
    (∀ s, s ∈ agent_states db' <->
          s ∈ agent_states db ∧ AgentState.projectId s ≠ ra_projectId input) ∧
    projects db' = projects db ∧
    projectFiles db' = projectFiles db.
Proof.
  intros (p & Hp & Hown)%canAccessProject_true.
  assert (Exists (ownedBy (ra_projectId input) (ra_userId input)) (projects db))
    as Hex by (apply Exists_exists; eauto).
  eexists. split_and!.
  - unfold AgentStatesRepository.resetForProject. f_equal.
    apply bool_decide_ext. rewrite (Exists_exists _ (agent_states db)). split.
    + destruct (filter _ _) as [|s l] eqn:Hf; [simpl; lia|]. intros _.
      exists s.
      assert (s ∈ s :: l) as Hs by left. rewrite <- Hf in Hs.
      apply list_elem_of_filter in Hs as [[Hpid _] Hs]. done.
    + intros (s & Hs & Hpid).
      assert (s ∈ filter (λ s, AgentState.projectId s = ra_projectId input ∧
                               Exists (ownedBy (ra_projectId input)
                                         (ra_userId input)) (projects db))
                     (agent_states db)) as Hin
        by (apply list_elem_of_filter; done).
      destruct (filter _ _); [by apply elem_of_nil in Hin | simpl; lia].
  - unfold AgentStatesRepository.getByProjectForUser. cbn [agent_states].
    rewrite filter_none; [done|].
    intros s [Hkept _]%list_elem_of_filter [Hpid _]. by apply Hkept.
  - intros s. cbn [agent_states]. rewrite list_elem_of_filter. tauto.
  - done.
  - done.
Qed.

(** X20: an upsert by the owner on the run state of one project, with
    values the columns take, leaves the run state of every other project as
    it is, adds or removes no row, and touches neither projects nor files. *)
Theorem upsertForProject_leaves_other_projects (db : Database)
  (input : UpsertAgentStateInput) (now : Date) (st : AgentState.t) :
  AgentStatesRepository.getByProjectForUser db (ua_projectId input)
    (ua_userId input) = Some st ->
  AgentStatesRepository.columnsRefuse input = None ->
  exists r db',
    AgentStatesRepository.upsertForProject db input now = (Returned r, db') ∧
    length (agent_states db') = length (agent_states db) ∧
    (∀ s, AgentState.projectId s ≠ ua_projectId input ->
          s ∈ agent_states db' <-> s ∈ agent_states db) ∧
    (∀ projectId userId, projectId ≠ ua_projectId input ->
       AgentStatesRepository.getByProjectForUser db' projectId userId
       = AgentStatesRepository.getByProjectForUser db projectId userId) ∧
    projects db' = projects db ∧
    projectFiles db' = projectFiles db.
Proof.
  intros Hst Htaken.
  destruct (upsertForProject_existing db input now st Hst Htaken) as [Hups _].
  eexists _, _. split; [exact Hups|]. unfold merged. cbn [agent_states projects].
  split_and!; try done.
  - by rewrite length_fmap.
  - intros s Hs. rewrite list_elem_of_fmap. split.
    + intros (s0 & -> & Hin). destruct (decide _) as [Heq|]; [|done].
      by destruct Hs.
    + intros Hin. exists s. by rewrite decide_False.
  - intros projectId userId Hne.
    unfold AgentStatesRepository.getByProjectForUser. cbn [agent_states].
    rewrite (filter_ext_in
               (AgentStatesRepository.visibleTo (mkDatabase _ _ _ _) _ _)
               (AgentStatesRepository.visibleTo db projectId userId)) by done.
    f_equal. apply filter_update_elsewhere.
    intros s Hs. unfold AgentStatesRepository.visibleTo. simpl.
    split; intros [Hpid _]; congruence.
Qed.

(** ** The session controller: authorization, replies, transitions *)

(** X21: a socket whose user does not own the project (or whose project
    does not exist) gets nowhere: [open], and [message] with any frame
    whatever, send [project_access_denied], close with code 4003 and leave
    the store and the registry as they were. *)
Theorem foreign_socket_is_refused
  (decode : list N -> jsstring) (JSON_parse : jsstring -> option JsValue)
  (toISOString : Date -> jsstring) (ws : ProjectWebSocket)
  (rawMessage : RawMessage) (w : World) :
  wsConnections w !! ws_id ws = None ->
  getByIdForUser (db w) (ws_projectId ws) (ws_userId ws) = None ->
  websocketLifecycle_open ws w =
    (Returned tt,
     refusal w project_access_denied
       (js "Project not found or not accessible for this user")
       4003 (js "Forbidden")) ∧
  websocketLifecycle_message decode JSON_parse toISOString ws rawMessage w =
    (Returned tt,
     refusal w project_access_denied
       (js "Project not found or not accessible for this user")
       4003 (js "Forbidden")).
Proof.
  intros Hfresh Hnone.
  assert (ensureAuthorizedConnection ws w =
            (Returned None,
             refusal w project_access_denied
               (js "Project not found or not accessible for this user")
               4003 (js "Forbidden"))) as Hauth.
  { unfold ensureAuthorizedConnection. rewrite Hfresh.
    unfold bind at 1, query at 1. cbn [projectId userId]. rewrite Hnone.
    unfold bind, sendErrorMessage, sendServerMessage, closeSocket, ret, refusal.
    simpl. by rewrite <- app_assoc. }
  unfold websocketLifecycle_open, websocketLifecycle_message, try_catch, bind.
  by rewrite Hauth.
Qed.

(** X22: [open] on a socket of the project's owner registers its connection
    and sends [agent_connected] without closing; [close] then takes the
    connection out of the registry again, and neither touches the store. *)
Theorem open_registers_and_close_evicts (ws : ProjectWebSocket) (w : World) :
  wsConnections w !! ws_id ws = None ->
  is_Some (getByIdForUser (db w) (ws_projectId ws) (ws_userId ws)) ->
  exists w1,
    websocketLifecycle_open ws w = (Returned tt, w1) ∧
    wsConnections w1 !! ws_id ws = Some (ownConnection ws) ∧
    calls w1 = calls w ++ [ws_send (agent_connected (ws_projectId ws))] ∧
    db w1 = db w ∧
    websocketLifecycle_close ws w1 =
      (Returned tt, mkWorld (db w) (wsConnections w) (calls w1) (clock w)).
Proof.
  intros Hfresh [project Hproject].
  unfold websocketLifecycle_open, try_catch, bind, ensureAuthorizedConnection.
  rewrite Hfresh. unfold bind, query. cbn [projectId userId connectionId].
  rewrite Hproject. eexists. split; [done|]. cbn.
  split_and!; try done.
  - apply lookup_insert_eq.
  - unfold websocketLifecycle_close. cbn. by rewrite delete_insert_id.
Qed.

(** X23: a frame the validator refuses is answered on the owner's socket
    with exactly the validator's error and nothing else: the socket is not
    closed and the store is not touched. *)
Theorem invalid_frame_is_answered_not_fatal
  (decode : list N -> jsstring) (JSON_parse : jsstring -> option JsValue)
  (toISOString : Date -> jsstring) (ws : ProjectWebSocket)
  (rawMessage : RawMessage) (w : World) (e : WebSocketErrorData) :
  (∀ c, wsConnections w !! ws_id ws = Some c -> c = ownConnection ws) ->
  is_Some (getByIdForUser (db w) (ws_projectId ws) (ws_userId ws)) ->
  validateClientMessage decode JSON_parse rawMessage = not_ok e ->
  exists registry,
    websocketLifecycle_message decode JSON_parse toISOString ws rawMessage w =
      (Returned tt,
       mkWorld (db w) registry (calls w ++ [ws_send (error e)]) (clock w)).
Proof.
  intros Hown Hproject Hinvalid.
  destruct (ensureAuthorizedConnection_owner ws w Hown Hproject)
    as [registry Hauth].
  exists registry.
  unfold websocketLifecycle_message, try_catch, bind.
  rewrite Hauth, Hinvalid. by destruct e.
Qed.

(** X24: [get_state] and [get_preview_url] only read.  On an accessible
    project [get_preview_url] replies the project's preview url whatever
    the run state holds; [get_state] replies the run state's fields when
    there is one, with the project's preview url where the run state has
    none, and otherwise the project's status and preview url with no phase
    and no files.  On an inaccessible project both refuse with
    [project_access_denied] and close code 4003.  In every case the store
    and the registry are as before. *)
Theorem get_state_and_preview_url_only_read (ws : ProjectWebSocket)
  (connection : ProjectWebSocketConnection) (w : World) :
  (getByIdForUser (db w) (projectId connection) (userId connection) = None ->
   sendStateUpdate ws connection w =
     (Returned tt,
      refusal w project_access_denied
        (js "Project not found or not accessible for this user")
        4003 (js "Forbidden")) ∧
   sendPreviewUrl ws connection w =
     (Returned tt,
      refusal w project_access_denied
        (js "Project not found or not accessible for this user")
        4003 (js "Forbidden"))) ∧
  (∀ P, getByIdForUser (db w) (projectId connection) (userId connection)
        = Some P ->
     sendPreviewUrl ws connection w =
       (Returned tt, withCall w (ws_send (preview_url (Project.previewUrl P)))) ∧
     (AgentStatesRepository.getByProjectForUser (db w) (projectId connection)
        (userId connection) = None ->
      sendStateUpdate ws connection w =
        (Returned tt,
         withCall w
           (ws_send (state_update
                       (mkStateUpdateData (Project.status P) None 0%nat []
                          (Project.previewUrl P)))))) ∧
     (∀ st, AgentStatesRepository.getByProjectForUser (db w)
              (projectId connection) (userId connection) = Some st ->
        sendStateUpdate ws connection w =
          (Returned tt,
           withCall w
             (ws_send (state_update
                         (withProjectPreviewUrl P
                            (mkStateUpdateData (AgentState.currentState st)
                               (AgentState.currentPhase st)
                               (length (orElse (AgentState.phases st) []))
                               (orElse (AgentState.generatedFiles st) [])
                               (AgentState.previewUrl st)))))))) ∧
  db (snd (sendStateUpdate ws connection w)) = db w ∧
  db (snd (sendPreviewUrl ws connection w)) = db w ∧
  wsConnections (snd (sendStateUpdate ws connection w)) = wsConnections w ∧
  wsConnections (snd (sendPreviewUrl ws connection w)) = wsConnections w.
Proof.
  destruct (getByIdForUser (db w) (projectId connection) (userId connection))
    as [P|] eqn:Hproject.
  - assert (sendPreviewUrl ws connection w =
              (Returned tt,
               withCall w (ws_send (preview_url (Project.previewUrl P)))))
      as Hpreview.
    { unfold sendPreviewUrl, bind, query. by rewrite Hproject. }
    assert (sendStateUpdate ws connection w =
              (Returned tt,
               withCall w
                 (ws_send (state_update
                    match AgentStatesRepository.getByProjectForUser (db w)
                            (projectId connection) (userId connection) with
                    | None =>
                        mkStateUpdateData (Project.status P) None 0%nat []
                          (Project.previewUrl P)
                    | Some st =>
                        withProjectPreviewUrl P
                          (mkStateUpdateData (AgentState.currentState st)
                             (AgentState.currentPhase st)
                             (length (orElse (AgentState.phases st) []))
                             (orElse (AgentState.generatedFiles st) [])
                             (AgentState.previewUrl st))
                    end)))) as Hstate.
    { unfold sendStateUpdate, bind, query. rewrite Hproject.
      destruct (AgentStatesRepository.getByProjectForUser _ _ _) as [st|];
        [|done].
      unfold sendServerMessage, withCall, withProjectPreviewUrl. simpl.
      by destruct (AgentState.phases st). }
    rewrite Hpreview, Hstate. split; [done|]. split; [|done].
    intros P' [= <-]. split_and!; [done| |].
    + by intros ->.
    + by intros st ->.
  - assert (sendPreviewUrl ws connection w =
              (Returned tt,
               refusal w project_access_denied
                 (js "Project not found or not accessible for this user")
                 4003 (js "Forbidden"))) as Hpreview.
    { unfold sendPreviewUrl, bind at 1, query. rewrite Hproject.
      apply refuse_and_close. }
    assert (sendStateUpdate ws connection w =
              (Returned tt,
               refusal w project_access_denied
                 (js "Project not found or not accessible for this user")
                 4003 (js "Forbidden"))) as Hstate.
    { unfold sendStateUpdate, bind at 1, query. rewrite Hproject.
      apply refuse_and_close. }
    rewrite Hpreview, Hstate. done.
Qed.

Lemma handleStartGeneration_not_generating (ws : ProjectWebSocket)
  (connection : ProjectWebSocketConnection) (w : World) (st : AgentState.t) :
  AgentStatesRepository.getByProjectForUser (db w) (projectId connection)
    (userId connection) = Some st ->
  AgentState.currentState st ≠ js "generating" ->
  handleStartGeneration ws connection w =
    (Returned tt,
     mkWorld (merged (db w) (startInput connection st) (clock w))
       (wsConnections w)
       (calls w ++
          [ws_send (state_update
                      (mkStateUpdateData (js "generating") (Some 0%Z) 0%nat []
                         (AgentState.previewUrl st)))])
       (clock w)).
Proof.
  intros Hget Hidle.
  destruct (getByProjectForUser_Some _ _ _ _ Hget)
    as (_ & _ & _ & _ & [project Hproject]).
  destruct (upsertForProject_existing (db w) (startInput connection st)
              (clock w) st Hget eq_refl) as [Hups _].
  unfold handleStartGeneration, bind at 1, query at 1. rewrite Hproject.
  unfold bind at 1, query at 1. rewrite Hget.
  rewrite decide_False by done.
  unfold bind, statement. fold (startInput connection st). by rewrite Hups.
Qed.

Lemma merged_reads (db : Database) (input : UpsertAgentStateInput)
  (now : Date) (projectId userId : jsstring) :
  getByIdForUser (merged db input now) projectId userId
  = getByIdForUser db projectId userId.
Proof. done. Qed.

(** X25: [start_generation] on a run state that is not ["generating"]
    starts a run: the persisted row gets [currentState = "generating"] and
    [currentPhase = 0], its [phases], [generatedFiles] and
    [conversationHistory] are emptied, its [previewUrl], [sandboxId] and id
    are kept, one [state_update] is sent and the socket stays open. *)
Theorem start_generation_starts_a_run (ws : ProjectWebSocket)
  (connection : ProjectWebSocketConnection) (w : World) (st : AgentState.t) :
  AgentStatesRepository.getByProjectForUser (db w) (projectId connection)
    (userId connection) = Some st ->
  AgentState.currentState st ≠ js "generating" ->
  exists st',
    fst (handleStartGeneration ws connection w) = Returned tt ∧
    AgentStatesRepository.getByProjectForUser
      (db (snd (handleStartGeneration ws connection w)))
      (projectId connection) (userId connection) = Some st' ∧
    AgentState.id st' = AgentState.id st ∧
    AgentState.currentState st' = js "generating" ∧
    AgentState.currentPhase st' = Some 0%Z ∧
    AgentState.phases st' = Some [] ∧
    AgentState.generatedFiles st' = Some [] ∧
    AgentState.conversationHistory st' = Some [] ∧
    AgentState.previewUrl st' = AgentState.previewUrl st ∧
    AgentState.sandboxId st' = AgentState.sandboxId st ∧
    calls (snd (handleStartGeneration ws connection w)) =
      calls w ++
        [ws_send (state_update
                    (mkStateUpdateData (js "generating") (Some 0%Z) 0%nat []
                       (AgentState.previewUrl st)))].
Proof.
  intros Hget Hidle.
  rewrite (handleStartGeneration_not_generating ws connection w st Hget Hidle).
  destruct (upsertForProject_existing (db w) (startInput connection st)
              (clock w) st Hget eq_refl) as [_ Hafter].
  exists (AgentStatesRepository.mergeInto (startInput connection st) (clock w) st).
  split_and!; done.
Qed.

Lemma sendStateUpdate_with_run_state (ws : ProjectWebSocket)
  (connection : ProjectWebSocketConnection) (w : World) (P : Project.t)
  (st : AgentState.t) :
  getByIdForUser (db w) (projectId connection) (userId connection) = Some P ->
  AgentStatesRepository.getByProjectForUser (db w) (projectId connection)
    (userId connection) = Some st ->
  sendStateUpdate ws connection w =
    (Returned tt,
     withCall w
       (ws_send (state_update
                   (withProjectPreviewUrl P
                      (mkStateUpdateData (AgentState.currentState st)
                         (AgentState.currentPhase st)
                         (length (orElse (AgentState.phases st) []))
                         (orElse (AgentState.generatedFiles st) [])
                         (AgentState.previewUrl st)))))).
Proof.
  intros Hproject Hst. unfold sendStateUpdate, bind, query.
  rewrite Hproject, Hst.
  unfold sendServerMessage, withCall, withProjectPreviewUrl. simpl.
  by destruct (AgentState.phases st).
Qed.

(** X26: the snapshot a transition sends is the one [get_state] reports
    right after it, up to the preview url: after a [start_generation], a
    [stop_generation] or a [user_message] that went through, [get_state]
    sends the same [state_update], except that it falls back to the
    project's preview url where the run state has none (the transition's
    own message then carries [null]).  A [start_generation] on a run that is
    not generating and a [stop_generation] on one that is always go through;
    a [user_message] goes through when its handler returns, which it does
    not when the store refuses the message. *)
Theorem transition_snapshot_matches_get_state (toISOString : Date -> jsstring)
  (ws : ProjectWebSocket) (connection : ProjectWebSocketConnection)
  (content : jsstring) (w : World) (P : Project.t) (st : AgentState.t) :
  getByIdForUser (db w) (projectId connection) (userId connection) = Some P ->
  AgentStatesRepository.getByProjectForUser (db w) (projectId connection)
    (userId connection) = Some st ->
  let agrees (after : World) :=
    exists d,
      calls after = calls w ++ [ws_send (state_update d)] ∧
      calls (snd (sendStateUpdate ws connection after))
      = calls after ++ [ws_send (state_update (withProjectPreviewUrl P d))] in
  (AgentState.currentState st ≠ js "generating" ->
   agrees (snd (handleStartGeneration ws connection w))) ∧
  (AgentState.currentState st = js "generating" ->
   agrees (snd (handleStopGeneration ws connection w))) ∧
  (fst (handleUserMessage toISOString ws connection content w) = Returned tt ->
   agrees (snd (handleUserMessage toISOString ws connection content w))).
Proof.
  intros Hproject Hget agrees.
  assert (∀ input sent,
            AgentStatesRepository.getByProjectForUser (db w)
              (ua_projectId input) (ua_userId input) = Some st ->
            AgentStatesRepository.columnsRefuse input = None ->
            ua_projectId input = projectId connection ->
            ua_userId input = userId connection ->
            sent =
              (let st' := AgentStatesRepository.mergeInto input (clock w) st in
               mkStateUpdateData (AgentState.currentState st')
                 (AgentState.currentPhase st')
                 (length (orElse (AgentState.phases st') []))
                 (orElse (AgentState.generatedFiles st') [])
                 (AgentState.previewUrl st')) ->
            agrees (mkWorld (merged (db w) input (clock w)) (wsConnections w)
                      (calls w ++ [ws_send (state_update sent)]) (clock w)))
    as Hagree.
  { intros input sent Hst Htaken Hpid Huid ->.
    destruct (upsertForProject_existing (db w) input (clock w) st Hst Htaken)
      as [_ Hafter]. rewrite Hpid, Huid in Hafter.
    eexists. split; [done|].
    set (after := mkWorld (merged (db w) input (clock w)) (wsConnections w) _ _).
    by rewrite (sendStateUpdate_with_run_state ws connection after P _ Hproject
                  Hafter). }
  split_and!.
  - intros Hidle.
    rewrite (handleStartGeneration_not_generating ws connection w st Hget Hidle).
    by apply Hagree.
  - intros Hgen.
    rewrite (handleStopGeneration_generating ws connection w st Hget Hgen).
    by apply Hagree.
  - destruct (AgentStatesRepository.columnsRefuse
                (userMessageInput connection st content (toISOString (clock w))))
      as [sqlstate|] eqn:Htaken.
    + by rewrite (handleUserMessage_refused toISOString ws connection content w
                    st sqlstate Hget Htaken).
    + rewrite (handleUserMessage_existing toISOString ws connection content w st
                 Hget Htaken).
      intros _. by apply Hagree.
Qed.

(** X27: [stop_generation] needs a run that is generating.  Without a run
    state it sends [internal_error] and closes with code 4004; on a run
    state in any other state it sends [generation_not_in_progress] and
    closes with code 4000.  In both cases nothing is written. *)
Theorem stop_generation_needs_a_generating_run (ws : ProjectWebSocket)
  (connection : ProjectWebSocketConnection) (w : World) :
  (AgentStatesRepository.getByProjectForUser (db w) (projectId connection)
     (userId connection) = None ->
   handleStopGeneration ws connection w =
     (Returned tt,
      refusal w internal_error (js "Agent state not found")
        4004 (js "Not Found"))) ∧
  (∀ st, AgentStatesRepository.getByProjectForUser (db w)
           (projectId connection) (userId connection) = Some st ->
         AgentState.currentState st ≠ js "generating" ->
     handleStopGeneration ws connection w =
       (Returned tt,
        refusal w generation_not_in_progress (js "Generation not in progress")
          4000 (js "Conflict"))).
Proof.
  split.
  - intros Hnone. unfold handleStopGeneration, bind at 1, query at 1.
    rewrite Hnone. apply refuse_and_close.
  - intros st Hget Hidle. unfold handleStopGeneration, bind at 1, query at 1.
    rewrite Hget. rewrite decide_True by done. apply refuse_and_close.
Qed.

(** The row [handleUserMessage] leaves fits its columns when the row it
    read did and the new message does. *)
Lemma fitsColumns_after_user_message (connection : ProjectWebSocketConnection)
  (st : AgentState.t) (content timestamp : jsstring) (now : Date) :
  fitsColumns st ->
  jsonbStringRefusal content = None ->
  jsonbStringRefusal timestamp = None ->
  fitsColumns
    (AgentStatesRepository.mergeInto
       (userMessageInput connection st content timestamp) now st).
Proof.
  unfold fitsColumns.
  rewrite !firstRefusal_None, !Forall_cons, !firstRefusal_fmap_None.
  intros (Hphase & Hphases & Hfiles & Hhistory & _) Hcontent Htimestamp.
  simpl. split_and!; try done.
  apply Forall_app. split; [exact Hhistory|]. apply Forall_singleton.
  unfold messageRefusal. simpl. by rewrite Hcontent, Htimestamp.
Qed.

(** X28: two [user_message] commands whose contents and timestamps the
    store takes, on a run state that fits its columns, append their
    messages to the persisted conversation in the order they were handled,
    each stamped with the clock of its own handling, and change nothing else
    of the run state: state, phase, phases, generated files, preview url and
    sandbox are as before, and no row is added. *)
Theorem user_messages_append_in_order (toISOString : Date -> jsstring)
  (ws : ProjectWebSocket) (connection : ProjectWebSocketConnection)
  (first second : jsstring) (later : Date) (w : World) (st : AgentState.t) :
  AgentStatesRepository.getByProjectForUser (db w) (projectId connection)
    (userId connection) = Some st ->
  fitsColumns st ->
  jsonbStringRefusal first = None ->
  jsonbStringRefusal second = None ->
  jsonbStringRefusal (toISOString (clock w)) = None ->
  jsonbStringRefusal (toISOString later) = None ->
  let w1 := snd (handleUserMessage toISOString ws connection first w) in
  let w2 := snd (handleUserMessage toISOString ws connection second
                   (atTime w1 later)) in
  exists st2,
    AgentStatesRepository.getByProjectForUser (db w2) (projectId connection)
      (userId connection) = Some st2 ∧
    AgentState.conversationHistory st2 =
      Some (orElse (AgentState.conversationHistory st) []
              ++ [mkMessage role_user first (toISOString (clock w));
                  mkMessage role_user second (toISOString later)]) ∧
    AgentState.currentState st2 = AgentState.currentState st ∧
    AgentState.currentPhase st2 = AgentState.currentPhase st ∧
    AgentState.phases st2 = AgentState.phases st ∧
    AgentState.generatedFiles st2 = AgentState.generatedFiles st ∧
    AgentState.previewUrl st2 = AgentState.previewUrl st ∧
    AgentState.sandboxId st2 = AgentState.sandboxId st ∧
    length (agent_states (db w2)) = length (agent_states (db w)).
Proof.
  intros Hget Hfits Hfirst Hsecond Hnow Hlater w1 w2.
  set (in1 := userMessageInput connection st first (toISOString (clock w))).
  set (st1 := AgentStatesRepository.mergeInto in1 (clock w) st).
  assert (AgentStatesRepository.columnsRefuse in1 = None) as Htaken1
    by by apply userMessageInput_taken.
  destruct (upsertForProject_existing (db w) in1 (clock w) st Hget Htaken1)
    as [_ Hget1].
  assert (w1 = mkWorld (merged (db w) in1 (clock w)) (wsConnections w)
                 (calls w1) (clock w)) as Hw1.
  { unfold w1.
    by rewrite (handleUserMessage_existing toISOString ws connection first w st
                  Hget Htaken1). }
  assert (AgentStatesRepository.getByProjectForUser (db (atTime w1 later))
            (projectId connection) (userId connection) = Some st1) as Hget1'.
  { rewrite Hw1. exact Hget1. }
  set (in2 := userMessageInput connection st1 second (toISOString later)).
  assert (AgentStatesRepository.columnsRefuse in2 = None) as Htaken2.
  { apply userMessageInput_taken; [|done..].
    by apply fitsColumns_after_user_message. }
  destruct (upsertForProject_existing (db (atTime w1 later)) in2 later st1 Hget1'
              Htaken2)
    as [_ Hget2].
  exists (AgentStatesRepository.mergeInto in2 later st1).
  unfold w2.
  rewrite (handleUserMessage_existing toISOString ws connection second
             (atTime w1 later) st1 Hget1' Htaken2).
  cbn [snd db atTime clock]. split; [exact Hget2|].
  split_and!; try done.
  - simpl. by rewrite <- app_assoc.
  - unfold merged. cbn [agent_states]. rewrite length_fmap.
    rewrite Hw1. unfold merged. cbn [db agent_states]. by rewrite length_fmap.
Qed.

(** ** The REST routes *)

Lemma pf_canAccessProject_getById (db : Database) (projectId userId : jsstring) :
  PF.canAccessProject db projectId userId = false <->
  getByIdForUser db projectId userId = None.
Proof.
  rewrite pf_canAccessProject_false. unfold getByIdForUser.
  by destruct (filter _ _).
Qed.

(** X29: the REST routes refuse strangers without telling a foreign project
    from a missing one.  A request with no session, or a session without a
    user, never reaches a handler: it is answered 401 ["Unauthorized"].  For
    an authenticated user who does not own the project, reading, patching
    and deleting the project are answered 404 ["Project not found"],
    reading and writing a file 404 ["Project file not found"], and listing
    its files an empty list; none of them changes the store. *)
Theorem rest_routes_refuse_strangers (path_le : relation jsstring)
  `{∀ x y, Decision (path_le x y)} (db : Database)
  (id fileId userId randomUUID : jsstring) (body : ProjectBody)
  (fileBody : ProjectFileBody) (now : Date) :
  getByIdForUser db id userId = None ->
  (∀ (A : Type) (handler : jsstring -> Database -> Result (Response A) * Database),
     serve None handler db = (Replied (Status 401 (js "Unauthorized")), db) ∧
     serve (Some None) handler db
     = (Replied (Status 401 (js "Unauthorized")), db)) ∧
  serve (Some (Some userId)) (projectsRoute_get id) db
  = (Replied (Status 404 (js "Project not found")), db) ∧
  serve (Some (Some userId)) (projectsRoute_patch id body now) db
  = (Replied (Status 404 (js "Project not found")), db) ∧
  serve (Some (Some userId)) (projectsRoute_delete id) db
  = (Replied (Status 404 (js "Project not found")), db) ∧
  serve (Some (Some userId)) (projectFilesRoute_get id fileId) db
  = (Replied (Status 404 (js "Project file not found")), db) ∧
  serve (Some (Some userId)) (projectFilesRoute_put id fileBody randomUUID now) db
  = (Replied (Status 404 (js "Project file not found")), db) ∧
  serve (Some (Some userId)) (projectFilesRoute_list path_le id) db
  = (Replied (Json []), db).
Proof.
  intros Hnone.
  destruct (no_owned_project_answers db id userId
              (mkPatch (holds (body_name body))
                 (holds (Some (body_description body))) absent absent absent)
              now)
    as (_ & Hupdate & Hdelete).
  { unfold getByIdForUser in Hnone. intros p Hp Hown.
    destruct (filter (ownedBy id userId) (projects db)) eqn:Hf; [|done].
    by apply (filter_nil_not_elem_of _ _ p Hf). }
  pose proof (proj2 (pf_canAccessProject_getById db id userId) Hnone) as Hacc.
  pose proof (proj1 (pf_canAccessProject_false db id userId) Hacc) as Hrows.
  unfold serve, requireAuth. cbn [onError isUnauthorizedError].
  split_and!.
  - done.
  - unfold projectsRoute_get. by rewrite Hnone.
  - unfold projectsRoute_patch. by rewrite Hupdate.
  - unfold projectsRoute_delete. by rewrite Hdelete.
  - unfold projectFilesRoute_get, PF.getByProjectIdAndFileIdForUser.
    by rewrite Hrows.
  - unfold projectFilesRoute_put, PF.upsertFile. cbn [uf_projectId uf_userId].
    by rewrite Hacc.
  - unfold projectFilesRoute_list, PF.listByProjectForUser.
    rewrite filter_none; [done|].
    intros f _ [Hpid (p & Hp & Hid & Huid)%Exists_exists].
    apply (filter_nil_not_elem_of _ _ p Hrows); [|done]. split; congruence.
Qed.

(** X30: through [PATCH /api/projects/:id] the owner changes the name and
    the description of the project and nothing else: status, preview url,
    sandbox, owner, id and creation time stay, and the reply is the stored
    row.  For anyone else the reply is status 404 ["Project not found"] and
    the store is untouched. *)
Theorem patch_route_changes_name_and_description (db : Database)
  (id userId : jsstring) (body : ProjectBody) (now : Date) :
  (∀ P, getByIdForUser db id userId = Some P ->
     exists P' db',
       serve (Some (Some userId)) (projectsRoute_patch id body now) db
       = (Replied (Json P'), db') ∧
       getByIdForUser db' id userId = Some P' ∧
       Project.name P' = body_name body ∧
       Project.description P' = Some (body_description body) ∧
       Project.status P' = Project.status P ∧
       Project.previewUrl P' = Project.previewUrl P ∧
       Project.sandboxId P' = Project.sandboxId P ∧
       Project.userId P' = Project.userId P ∧
       Project.id P' = Project.id P ∧
       Project.createdAt P' = Project.createdAt P) ∧
  (getByIdForUser db id userId = None ->
   serve (Some (Some userId)) (projectsRoute_patch id body now) db
   = (Replied (Status 404 (js "Project not found")), db)).
Proof.
  split.
  - intros P Hget. unfold getByIdForUser in Hget.
    destruct (filter (ownedBy id userId) (projects db)) as [|P0 rest] eqn:Hf;
      [done|]. injection Hget as ->.
    unfold serve, projectsRoute_patch, updateForUser. simpl.
    rewrite Hf. simpl. eexists _, _. split; [done|].
    split_and!; try done.
    unfold getByIdForUser. cbn [projects].
    rewrite filter_update_where; [by rewrite Hf | | done].
    intros q. unfold ownedBy. by simpl.
  - intros Hnone.
    destruct (no_owned_project_answers db id userId
                (mkPatch (holds (body_name body))
                   (holds (Some (body_description body))) absent absent absent)
                now)
      as (_ & Hupdate & _).
    { unfold getByIdForUser in Hnone. intros p Hp Hown.
      destruct (filter (ownedBy id userId) (projects db)) eqn:Hf; [|done].
      by apply (filter_nil_not_elem_of _ _ p Hf). }
    unfold serve, requireAuth, projectsRoute_patch. by rewrite Hupdate.
Qed.

(** ** Concrete runs of the further properties *)

Ltac by_computation := apply (bool_decide_unpack _); vm_compute; reflexivity.

Lemma upsertFile_existing_path_updates_in_place_witness :
  exists f' db',
    PF.upsertFile db_with_file file_c 2000 = (Returned (Some f'), db') ∧
    ProjectFile.id f' = js "file_a" ∧
    ProjectFile.content f' = js "a2" ∧
    length (projectFiles db') = 1%nat.
Proof.
  destruct (upsertFile_existing_path_updates_in_place db_with_file file_c 2000
              row_a)
    as (f' & db' & Hups & Hid & _ & Hcontent & _ & _ & Hlen & _).
  - by_computation.
  - vm_compute. reflexivity.
  - by_computation.
  - reflexivity.
  - reflexivity.
  - exists f', db'. split_and!; [exact Hups | exact Hid | exact Hcontent | exact Hlen].
Defined.

Lemma upsertFile_twice_one_row_witness :
  exists f1 db1 f2 db2,
    PF.upsertFile db_two_projects file_a 2000 = (Returned (Some f1), db1) ∧
    PF.upsertFile db1 file_c 3000 = (Returned (Some f2), db2) ∧
    ProjectFile.id f2 = js "file_a" ∧
    ProjectFile.content f2 = js "a2" ∧
    length (projectFiles db2) = 1%nat.
Proof.
  destruct (upsertFile_twice_one_row db_two_projects file_a file_c 2000 3000)
    as (f1 & db1 & f2 & db2 & H1 & H2 & _ & Hid & Hcontent & _ & Hlen).
  - vm_compute. reflexivity.
  - reflexivity.
  - reflexivity.
  - reflexivity.
  - vm_compute. reflexivity.
  - by_computation.
  - exists f1, db1, f2, db2.
    split_and!; [exact H1 | exact H2 | exact Hid | exact Hcontent | exact Hlen].
Defined.

Lemma foreign_project_files_out_of_reach_witness :
  PF.listByProjectForUser binary_le db_two_projects (js "project_2") (js "owner")
    = [] ∧
  PF.upsertFile db_two_projects file_foreign 2000
    = (Returned None, db_two_projects) ∧
  PF.deleteByPath db_two_projects
    (PF.mkDeleteProjectFileByPathInput (js "project_2") (js "src/hacked.ts")
       (js "owner")) = (false, db_two_projects).
Proof.
  destruct (foreign_project_files_out_of_reach binary_le db_two_projects
              file_foreign (js "file_h") 2000)
    as (Hlist & _ & Hups & _ & Hdel).
  - vm_compute. reflexivity.
  - split_and!; [exact Hlist | exact Hups | exact Hdel].
Defined.

Lemma deleteByPath_removes_the_path_witness :
  exists db',
    PF.deleteByPath db_with_file delete_a = (true, db') ∧
    PF.deleteByPath db' delete_a = (false, db').
Proof.
  destruct (deleteByPath_removes_the_path db_with_file delete_a)
    as (db' & Hdel & _ & _ & _ & Hagain).
  - vm_compute. reflexivity.
  - exists db'. split; [exact Hdel | exact Hagain].
Defined.

Lemma upsertFile_then_get_by_id_witness :
  PF.getByProjectIdAndFileIdForUser
    (snd (PF.upsertFile db_two_projects file_a 2000))
    (js "project_1") (js "file_a") (js "owner")
  = Some (ProjectFile.mk (js "file_a") (js "project_1") (js "src/a.ts")
            (js "a1") 2000 2000).
Proof.
  apply (upsertFile_then_get_by_id db_two_projects
           (snd (PF.upsertFile db_two_projects file_a 2000)) file_a 2000
           (ProjectFile.mk (js "file_a") (js "project_1") (js "src/a.ts")
              (js "a1") 2000 2000)).
  - split; by_computation.
  - vm_compute. reflexivity.
Defined.

Lemma repository_writes_keep_keys_unique_witness :
  keys_unique (snd (PF.upsertMany db_two_projects [file_a; file_b] 2000)).
Proof.
  destruct (repository_writes_keep_keys_unique db_two_projects)
    as (_ & _ & _ & _ & Hmany & _).
  - split; by_computation.
  - apply Hmany.
Defined.

Lemma upsertForProject_first_write_inserts_witness :
  exists st db',
    AgentStatesRepository.upsertForProject db_one_project input_completed 2000
      = (Returned (Some st), db') ∧
    AgentState.phases st = Some [] ∧
    AgentState.previewUrl st = None.
Proof.
  destruct (upsertForProject_first_write_inserts db_one_project input_completed
              2000)
    as (st & db' & Hups & _ & _ & _ & _ & _ & Hphases & _ & _ & _ & Hurl).
  - vm_compute. reflexivity.
  - vm_compute. reflexivity.
  - by_computation.
  - vm_compute. reflexivity.
  - exists st, db'. split_and!; [exact Hups | exact Hphases | exact Hurl].
Defined.

Lemma foreign_run_state_out_of_reach_witness :
  AgentStatesRepository.getByProjectForUser db_generating (js "project_1")
    (js "non_owner") = None ∧
  AgentStatesRepository.upsertForProject db_generating input_hijacked 2000
    = (Returned None, db_generating) ∧
  AgentStatesRepository.resetForProject db_generating
    (mkResetAgentStateInput (js "project_1") (js "non_owner"))
  = (false, db_generating).
Proof.
  apply (foreign_run_state_out_of_reach db_generating input_hijacked 2000).
  vm_compute. reflexivity.
Defined.

Lemma resetForProject_deletes_the_run_state_witness :
  exists db',
    AgentStatesRepository.resetForProject db_generating
      (mkResetAgentStateInput (js "project_1") (js "owner")) = (true, db') ∧
    AgentStatesRepository.getByProjectForUser db' (js "project_1") (js "owner")
    = None.
Proof.
  destruct (resetForProject_deletes_the_run_state db_generating
              (mkResetAgentStateInput (js "project_1") (js "owner")))
    as (db' & Hreset & Hget & _).
  - vm_compute. reflexivity.
  - exists db'. split; [exact Hreset | exact Hget].
Defined.

Lemma upsertForProject_leaves_other_projects_witness :
  exists r db',
    AgentStatesRepository.upsertForProject db_two_runs input_completed 2000
      = (Returned r, db') ∧
    length (agent_states db') = 2%nat ∧
    state_other ∈ agent_states db' ∧
    AgentStatesRepository.getByProjectForUser db' (js "project_2")
      (js "non_owner") = Some state_other.
Proof.
  destruct (upsertForProject_leaves_other_projects db_two_runs
              input_completed 2000 state_generating)
    as (r & db' & Hups & Hlen & Hrows & Hreads & _).
  - vm_compute. reflexivity.
  - vm_compute. reflexivity.
  - exists r, db'. split_and!; [exact Hups | exact Hlen | |].
    + apply Hrows; [by_computation|]. right. left.
    + rewrite Hreads; [vm_compute; reflexivity | by_computation].
Defined.

Lemma foreign_socket_is_refused_witness :
  websocketLifecycle_message no_decode no_parse no_iso ws_stranger
    frame_start_generation world_generating
  = (Returned tt,
     mkWorld db_generating ∅
       [ws_send (error (mkErrorData project_access_denied
                          (js "Project not found or not accessible for this user")));
        ws_close 4003 (js "Forbidden")]
       5000).
Proof.
  destruct (foreign_socket_is_refused no_decode no_parse no_iso ws_stranger
              frame_start_generation world_generating) as [_ Hmessage].
  - vm_compute. reflexivity.
  - vm_compute. reflexivity.
  - exact Hmessage.
Defined.

Lemma open_registers_and_close_evicts_witness :
  exists w1,
    websocketLifecycle_open ws_owner world_fresh_project = (Returned tt, w1) ∧
    wsConnections w1 !! js "ws_1" = Some connection_owner ∧
    websocketLifecycle_close ws_owner w1 =
      (Returned tt,
       mkWorld db_one_project ∅ [ws_send (agent_connected (js "project_1"))]
         5000).
Proof.
  destruct (open_registers_and_close_evicts ws_owner world_fresh_project)
    as (w1 & Hopen & Hlookup & Hcalls & _ & Hclose).
  - vm_compute. reflexivity.
  - vm_compute. eexists. reflexivity.
  - exists w1. split_and!; [exact Hopen | exact Hlookup |].
    rewrite Hclose, Hcalls. reflexivity.
Defined.

Lemma invalid_frame_is_answered_not_fatal_witness :
  exists registry,
    websocketLifecycle_message no_decode no_parse no_iso ws_owner frame_blank
      world_generating =
    (Returned tt,
     mkWorld db_generating registry
       [ws_send (error (mkErrorData invalid_message_data
                          (dquote ++ js "user_message" ++ dquote
                             ++ js " requires data.content as a non-empty string")))]
       5000).
Proof.
  apply (invalid_frame_is_answered_not_fatal no_decode no_parse no_iso ws_owner
           frame_blank world_generating).
  - intros c Hc. vm_compute in Hc. discriminate.
  - vm_compute. eexists. reflexivity.
  - vm_compute. reflexivity.
Defined.

Lemma start_generation_starts_a_run_witness :
  exists st',
    AgentStatesRepository.getByProjectForUser
      (db (snd (handleStartGeneration ws_owner connection_owner world_idle)))
      (js "project_1") (js "owner") = Some st' ∧
    AgentState.currentState st' = js "generating" ∧
    AgentState.generatedFiles st' = Some [] ∧
    AgentState.previewUrl st' = Some (js "http://localhost:4174").
Proof.
  destruct (start_generation_starts_a_run ws_owner connection_owner world_idle
              state_idle)
    as (st' & _ & Hget & _ & Hstate & _ & _ & Hfiles & _ & Hurl & _).
  - vm_compute. reflexivity.
  - vm_compute. discriminate.
  - exists st'. split_and!; [exact Hget | exact Hstate | exact Hfiles | exact Hurl].
Defined.

Lemma transition_snapshot_matches_get_state_witness :
  exists d,
    calls (snd (handleStopGeneration ws_owner connection_owner world_generating))
    = [ws_send (state_update d)] ∧
    calls (snd (sendStateUpdate ws_owner connection_owner
                  (snd (handleStopGeneration ws_owner connection_owner
                          world_generating))))
    = [ws_send (state_update d);
       ws_send (state_update (withProjectPreviewUrl owner_project d))].
Proof.
  destruct (transition_snapshot_matches_get_state no_iso ws_owner
              connection_owner (js "hello") world_generating owner_project
              state_generating) as (_ & Hstop & _).
  - vm_compute. reflexivity.
  - vm_compute. reflexivity.
  - destruct Hstop as (d & Hsent & Hnext); [vm_compute; reflexivity|].
    exists d. split; [exact Hsent|]. rewrite Hnext, Hsent. reflexivity.
Defined.

Lemma user_messages_append_in_order_witness :
  exists st2,
    AgentStatesRepository.getByProjectForUser
      (db (snd (handleUserMessage no_iso ws_owner connection_owner (js "two")
                  (atTime
                     (snd (handleUserMessage no_iso ws_owner connection_owner
                             (js "one") world_generating))
                     6000))))
      (js "project_1") (js "owner") = Some st2 ∧
    AgentState.conversationHistory st2 =
      Some [mkMessage role_user (js "continue building")
              (js "2026-02-09T10:00:00.000Z");
            mkMessage role_user (js "one") (js "2026-02-09T10:00:00.000Z");
            mkMessage role_user (js "two") (js "2026-02-09T10:00:00.000Z")].
Proof.
  destruct (user_messages_append_in_order no_iso ws_owner connection_owner
              (js "one") (js "two") 6000 world_generating state_generating)
    as (st2 & Hget & Hhistory & _).
  - vm_compute. reflexivity.
  - vm_compute. reflexivity.
  - vm_compute. reflexivity.
  - vm_compute. reflexivity.
  - vm_compute. reflexivity.
  - vm_compute. reflexivity.
  - exists st2. split; [exact Hget | exact Hhistory].
Defined.

Lemma rest_routes_refuse_strangers_witness :
  serve (Some (Some (js "non_owner"))) (projectsRoute_get (js "project_1"))
    db_one_project
  = (Replied (Status 404 (js "Project not found")), db_one_project) ∧
  serve (Some (Some (js "non_owner"))) (projectsRoute_delete (js "project_1"))
    db_one_project
  = (Replied (Status 404 (js "Project not found")), db_one_project) ∧
  serve (Some (Some (js "non_owner")))
    (projectFilesRoute_list binary_le (js "project_1")) db_one_project
  = (Replied (Json []), db_one_project).
Proof.
  destruct (rest_routes_refuse_strangers binary_le db_one_project
              (js "project_1") (js "file_a") (js "non_owner") (js "uuid_1")
              (mkProjectBody (js "Hacked") (js "by a stranger"))
              (mkProjectFileBody (js "src/hacked.ts") (js "hack")) 2000)
    as (_ & Hget & _ & Hdelete & _ & _ & Hlist).
  - vm_compute. reflexivity.
  - split_and!; [exact Hget | exact Hdelete | exact Hlist].
Defined.

(** The owner's requests on the routes, on the stores of the tests. *)
Example owner_routes :
  serve (Some (Some (js "owner"))) (projectsRoute_get (js "project_1"))
    db_one_project
  = (Replied (Json owner_project), db_one_project) ∧
  fst (serve (Some (Some (js "owner")))
         (projectFilesRoute_put (js "project_1")
            (mkProjectFileBody (js "src/a.ts") (js "a1")) (js "file_a") 2000)
         db_two_projects)
  = Replied (Json (ProjectFile.mk (js "file_a") (js "project_1")
                     (js "src/a.ts") (js "a1") 2000 2000)) ∧
  fst (serve (Some (Some (js "owner")))
         (projectsRoute_post (mkProjectBody (js "Again") (js "")) (js "project_1")
            2000) db_one_project)
  = Unanswered (Raised (DrizzleQueryError (DatabaseError (js "23505")))) ∧
  fst (serve (Some (Some (js "owner"))) (projectsRoute_list) db_two_projects)
  = Replied (Json [owner_project]) ∧
  PF.listByProjectForUser binary_le
    (snd (PF.upsertMany db_two_projects [file_b; file_a] 2000))
    (js "project_1") (js "owner")
  = [ProjectFile.mk (js "file_a") (js "project_1") (js "src/a.ts") (js "a1")
       2000 2000;
     ProjectFile.mk (js "file_b") (js "project_1") (js "src/b.ts") (js "b1")
       2000 2000].
Proof. by vm_compute. Qed.
